(** * Patch extraction, dataset construction and noise estimation of the
    FFDNet training pipeline (ffdnet/dataset.py, ffdnet/utils/train_utils.py)

    The development embeds the Python code shallowly:
    - Python integers are [Z]; counters that only ever count upwards from
      zero ([nx], [train_num], [k]) are [nat];
    - a numpy array is a shape together with its elements in C order;
    - a raised exception is the [Raise] branch of [result];
    - an HDF5 file is a finite map from dataset names to arrays, the file
      system a finite map from paths to HDF5 files;
    - the random generators are an explicit stream of draws;
    - the [argparse] namespace is a record of the attributes that are read,
      a checkpoint a record of its five entries, and the parts of torch,
      numpy, OpenCV, scipy and scikit-image that the code calls are
      parameters of the sections that model their callers. *)

From Stdlib Require Import ZArith Lia Ascii String Uint63 PrimFloat.
From stdpp Require Import gmap strings list fin_maps pretty sorting.

Local Open Scope Z_scope.
Local Open Scope nat_scope.

(** ** Exceptions *)

Inductive exn : Type :=
  | ZeroDivisionError
  | NameError (name : string)
  | IndexError
  | KeyError (key : string)
  | ValueError (msg : string)
  | AssertionError (msg : string)
  | TypeError
  | OSError
  | LibraryError.   (* an exception raised inside OpenCV *)

Inductive result (A : Type) : Type :=
  | Ok (a : A)
  | Raise (e : exn).
Arguments Ok {A} a.
Arguments Raise {A} e.

Global Instance result_ret : MRet result := @Ok.
Global Instance result_bind : MBind result := λ A B f m,
  match m with
  | Ok a => f a
  | Raise e => Raise e
  end.

(** Left fold with early exit on the first exception: a [for] loop whose
    body may raise. *)
Fixpoint foldM {A B} (f : A → B → result A) (a : A) (l : list B) : result A :=
  match l with
  | [] => Ok a
  | b :: l => a' ← f a b; foldM f a' l
  end.

(** ** numpy arrays *)

Record ndarray (A : Type) : Type := NDArray { shape : list nat; data : list A }.
Arguments NDArray {A} shape data.
Arguments shape {A} _.
Arguments data {A} _.

(** Number of elements of an array of the given shape. *)
Definition size_of (s : list nat) : nat := foldr Nat.mul 1 s.

Definition well_formed {A} (a : ndarray A) : Prop :=
  length (data a) = size_of (shape a).

(** *** Python slices

    [slice_indices start stop step len] lists the positions selected by
    [start:stop:step] on an axis of length [len], as [slice.indices]
    followed by [range] does. *)

Definition slice_bound (x len lower upper : Z) : Z :=
  if (x <? 0)%Z then Z.max (x + len) lower else Z.min x upper.

Definition range_len (start stop step : Z) : nat :=
  if (0 <? step)%Z then
    if (start <? stop)%Z then Z.to_nat ((stop - start - 1) / step + 1) else 0
  else
    if (stop <? start)%Z then Z.to_nat ((start - stop - 1) / (- step) + 1) else 0.

Definition slice_indices (start stop step : Z) (len : nat) : result (list nat) :=
  if (step =? 0)%Z then Raise (ValueError "slice step cannot be zero") else
  let lower := if (0 <? step)%Z then 0%Z else (-1)%Z in
  let upper := if (0 <? step)%Z then Z.of_nat len else (Z.of_nat len - 1)%Z in
  let a := slice_bound start (Z.of_nat len) lower upper in
  let b := slice_bound stop (Z.of_nat len) lower upper in
  Ok (map (λ k, Z.to_nat (a + Z.of_nat k * step)) (seq 0 (range_len a b step))).

Section arrays.
Context {A : Type} `{Inhabited A}.

(** [np.zeros(shape)], the fill value being the zero of the element type. *)
Definition np_zeros (zero : A) (s : list nat) : ndarray A :=
  NDArray s (replicate (size_of s) zero).

(** [a.reshape(dims)].  A negative dimension is refused; the single
    unknown dimension [-1] that numpy would infer cannot occur alone in
    the calls below ([win] occurs twice). *)
Definition np_reshape (a : ndarray A) (dims : list Z) : result (ndarray A) :=
  if forallb (λ d, (0 <=? d)%Z) dims then
    let s := map Z.to_nat dims in
    if size_of s =? size_of (shape a) then Ok (NDArray s (data a))
    else Raise (ValueError "cannot reshape array")
  else Raise (ValueError "negative dimensions not allowed").

(** [img[:, rows, cols]] on a three-axis array, [rows] and [cols] being
    the positions selected by two slices. *)
Definition index3 (img : ndarray A) (rows cols : list nat) : ndarray A :=
  match shape img with
  | [endc; endw; endh] =>
      NDArray [endc; length rows; length cols]
        (c ← seq 0 endc; y ← rows; x ← cols;
         [data img !!! ((c * endw + y) * endh + x)])
  | _ => img
  end.

(** [res[:, k, :] = v] for [res] of shape (C, K, N) and [v] of shape
    (C, N). *)
Definition assign_axis1 (res : ndarray A) (k : nat) (v : ndarray A)
  : result (ndarray A) :=
  match shape res, shape v with
  | [c; kk; n], [c'; n'] =>
      if k <? kk then
        if (c =? c') && (n =? n') then
          Ok (NDArray [c; kk; n]
                (ci ← seq 0 c; ki ← seq 0 kk; ni ← seq 0 n;
                 [if ki =? k then data v !!! (ci * n + ni)
                  else data res !!! ((ci * kk + ki) * n + ni)]))
        else Raise (ValueError "could not broadcast input array")
      else Raise IndexError
  | _, _ => Raise IndexError
  end.

(** [patches[:, :, :, nx]] on a four-axis array. *)
Definition take_last_axis (p : ndarray A) (nx : nat) : result (ndarray A) :=
  match shape p with
  | [c; a; b; n] =>
      if nx <? n then
        Ok (NDArray [c; a; b]
              (map (λ q, data p !!! (q * n + nx)) (seq 0 (c * a * b))))
      else Raise IndexError
  | _ => Raise IndexError
  end.

(** ** [img_to_patches]  (dataset.py, lines 25-46) *)

(** Body of the double loop over the [win * win] relative offsets; the
    loop state is the row counter [k] and the array [res]. *)
Definition img_to_patches_body (img : ndarray A) (endc endw endh : nat)
    (win stride : Z) (total_pat_num : nat)
    (st : nat * ndarray A) (ij : nat * nat) : result (nat * ndarray A) :=
  let '(k, res) := st in
  let '(i, j) := ij in
  rows ← slice_indices (Z.of_nat i)
           (Z.of_nat endw - win + Z.of_nat i + 1) stride endw;
  cols ← slice_indices (Z.of_nat j)
           (Z.of_nat endh - win + Z.of_nat j + 1) stride endh;
  let patch := index3 img rows cols in
  v ← np_reshape patch [Z.of_nat endc; Z.of_nat total_pat_num];
  res ← assign_axis1 res k v;
  Ok (k + 1, res).

(** The image has three axes (C, H, W); with fewer, [img.shape[2]] raises
    IndexError.  Arrays with more axes are not modelled and end in the
    same branch. *)
Definition img_to_patches (zero : A) (img : ndarray A) (win stride : Z)
  : result (ndarray A) :=
  match shape img with
  | [endc; endw; endh] =>
      rows0 ← slice_indices 0 (Z.of_nat endw - win + 0 + 1) stride endw;
      cols0 ← slice_indices 0 (Z.of_nat endh - win + 0 + 1) stride endh;
      let patch := index3 img rows0 cols0 in
      let total_pat_num := length rows0 * length cols0 in
      let res := np_zeros zero [endc; Z.to_nat (win * win); total_pat_num] in
      kres ← foldM
             (img_to_patches_body img endc endw endh win stride total_pat_num)
             (0, res)
             (i ← seq 0 (Z.to_nat win); j ← seq 0 (Z.to_nat win); [(i, j)]);
      np_reshape kres.2
        [Z.of_nat endc; win; win; Z.of_nat total_pat_num]
  | _ => Raise IndexError
  end.
End arrays.


(** Number of window placements on the strided grid. *)
Definition patch_grid_count (h w : nat) (win stride : Z) : nat :=
  Z.to_nat ((Z.of_nat h - win) / stride + 1)
  * Z.to_nat ((Z.of_nat w - win) / stride + 1).


(** ** Random generators

    A generator is the supply of its future raw draws; [rand_below n]
    consumes one draw and reduces it to the range [0, n). *)

Definition rng : Type := list nat.

Definition rand_below (n : nat) (g : rng) : nat * rng :=
  match g with
  | [] => (0, [])
  | r :: g => (r `mod` n, g)
  end.

(** [x[i], x[j] = x[j], x[i]] *)
Definition swap {A} (x : list A) (i j : nat) : list A :=
  match x !! i, x !! j with
  | Some a, Some b => <[i:=b]> (<[j:=a]> x)
  | _, _ => x
  end.

(** The loop shared by [random.shuffle] and [numpy.random.shuffle]:
    [for i in reversed(range(1, len(x))): j = randbelow(i + 1); swap]. *)
Fixpoint shuffle_from {A} (i : nat) (g : rng) (x : list A) : list A * rng :=
  match i with
  | 0 => (x, g)
  | S i' =>
      let '(j, g) := rand_below (S i) g in
      shuffle_from i' g (swap x i j)
  end.

Definition random_shuffle {A} (g : rng) (x : list A) : list A * rng :=
  shuffle_from (length x - 1) g x.

(** [np.random.shuffle(a)]: the sub-arrays along the first axis are
    shuffled, their contents stay as they are. *)
Definition np_random_shuffle {A} (g : rng) (a : ndarray A)
  : result (ndarray A * rng) :=
  match shape a with
  | [] => Raise TypeError
  | n :: rest =>
      let m := size_of rest in
      let '(perm, g) := random_shuffle g (seq 0 n) in
      Ok (NDArray (shape a) (p ← perm; take m (drop (p * m) (data a))), g)
  end.

(** ** Colour conversion and axis manipulation *)

(** [cv2.cvtColor(img, cv2.COLOR_BGR2RGB)] on an (H, W, 3) image. *)
Definition cv2_BGR2RGB (img : ndarray Z) : result (ndarray Z) :=
  match shape img with
  | [h; w; 3] =>
      Ok (NDArray [h; w; 3]
            (p ← seq 0 (h * w); c ← [2; 1; 0]; [data img !!! (p * 3 + c)]))
  | _ => Raise LibraryError
  end.

(** [cv2.cvtColor(img, cv2.COLOR_BGR2GRAY)] on an (H, W, 3) image; the
    weighting of the three channels is OpenCV's and is a parameter. *)
Definition cv2_BGR2GRAY (bgr2gray : Z → Z → Z → Z) (img : ndarray Z)
  : result (ndarray Z) :=
  match shape img with
  | [h; w; 3] =>
      Ok (NDArray [h; w]
            (p ← seq 0 (h * w);
             [bgr2gray (data img !!! (p * 3)) (data img !!! (p * 3 + 1))
                       (data img !!! (p * 3 + 2))]))
  | _ => Raise LibraryError
  end.

(** [img.transpose(2, 0, 1)] *)
Definition transpose_2_0_1 {A} `{Inhabited A} (img : ndarray A)
  : result (ndarray A) :=
  match shape img with
  | [h; w; c] =>
      Ok (NDArray [c; h; w]
            (ci ← seq 0 c; y ← seq 0 h; x ← seq 0 w;
             [data img !!! ((y * w + x) * c + ci)]))
  | _ => Raise (ValueError "axes don't match array")
  end.

(** [img[:, :, 1]] *)
Definition take_channel_1 {A} `{Inhabited A} (img : ndarray A)
  : result (ndarray A) :=
  match shape img with
  | [h; w; c] =>
      if 1 <? c then
        Ok (NDArray [h; w] (p ← seq 0 (h * w); [data img !!! (p * c + 1)]))
      else Raise IndexError
  | _ => Raise IndexError
  end.

(** [np.expand_dims(a, 0)] *)
Definition np_expand_dims_0 {A} (a : ndarray A) : ndarray A :=
  NDArray (1 :: shape a) (data a).

(** ** Paths *)

(** [os.path.join(a, b)] for a relative [b], POSIX flavour. *)
Definition ends_with_slash (a : string) : bool :=
  match last (String.list_ascii_of_string a) with
  | Some c => bool_decide (c = "/"%char)
  | None => false
  end.

Definition os_path_join (a b : string) : string :=
  if bool_decide (a = "") || ends_with_slash a then a +:+ b
  else a +:+ "/" +:+ b.

(** [list.sort()] on strings. *)
Definition sort_strings (l : list string) : list string :=
  merge_sort String.le l.

(** ** HDF5 files

    An HDF5 file maps dataset names to arrays; the file system maps paths
    to files.  [h5py] lists the names of a group in increasing name
    order. *)

Section hdf5.
Context {px : Type}.

Record world : Type := World {
  fs : gmap string (gmap string (ndarray px));
  np_rng : rng;   (* numpy's global generator *)
  py_rng : rng    (* the generator of Python's [random] module *)
}.

(** Computations that read and write the world and may raise; what was
    written before an exception stays written.  [None] is no outcome of
    the Python code: it marks a loop model that exhausted its bound, and
    is shown below never to occur. *)
Definition io (A : Type) : Type := world → option (world * result A).

Definition io_ret {A} (a : A) : io A := λ w, Some (w, Ok a).
Definition io_bind {A B} (m : io A) (f : A → io B) : io B := λ w,
  match m w with
  | Some (w', Ok a) => f a w'
  | Some (w', Raise e) => Some (w', Raise e)
  | None => None
  end.
Definition io_raise {A} (e : exn) : io A := λ w, Some (w, Raise e).
Definition io_lift {A} (r : result A) : io A := λ w, Some (w, r).
Definition io_out_of_fuel {A} : io A := λ _, None.

Definition set_fs (w : world) (f : gmap string (gmap string (ndarray px)))
  : world := World f (np_rng w) (py_rng w).

(** [h5py.File(path, 'a')]: the file is created when it is missing (its
    directory is taken to exist). *)
Definition h5_open_append (path : string) : io unit := λ w,
  match fs w !! path with
  | Some _ => Some (w, Ok ())
  | None => Some (set_fs w (<[path := ∅]> (fs w)), Ok ())
  end.

(** [h5py.File(path, 'w')]: the file is created or truncated. *)
Definition h5_open_write (path : string) : io unit := λ w,
  Some (set_fs w (<[path := ∅]> (fs w)), Ok ()).

(** [h5py.File(path, 'r')] followed by reading the whole mapping. *)
Definition h5_open_read (path : string) : io (gmap string (ndarray px)) := λ w,
  match fs w !! path with
  | Some f => Some (w, Ok f)
  | None => Some (w, Raise OSError)
  end.

(** [h5f.create_dataset(name, data=data)] on the file open at [path]:
    an existing name is refused. *)
Definition h5_create_dataset (path name : string) (d : ndarray px)
  : io unit := λ w,
  match fs w !! path with
  | Some f =>
      match f !! name with
      | Some _ => Some (w, Raise (ValueError "name already exists"))
      | None => Some (set_fs w (<[path := <[name := d]> f]> (fs w)), Ok ())
      end
  | None => Some (w, Raise OSError)
  end.

(** [list(h5f.keys())] *)
Definition h5_keys (f : gmap string (ndarray px)) : list string :=
  sort_strings (map_to_list f).*1.

Definition io_np_random_shuffle (a : ndarray px) : io (ndarray px) := λ w,
  match np_random_shuffle (np_rng w) a with
  | Ok (a', g) => Some (World (fs w) g (py_rng w), Ok a')
  | Raise e => Some (w, Raise e)
  end.

Definition io_random_shuffle {A} (x : list A) : io (list A) := λ w,
  let '(x', g) := random_shuffle (py_rng w) x in
  Some (World (fs w) (np_rng w) g, Ok x').
End hdf5.
Arguments world px : clear implicits.
Arguments io px A : clear implicits.

Notation "x ←ᵢ m ; k" := (io_bind m (λ x, k))
  (at level 20, m at level 100, k at level 200, only parsing).
Notation "m ;;ᵢ k" := (io_bind m (λ _, k))
  (at level 100, k at level 200, right associativity, only parsing).

(** ** Python integer division and list indexing *)

Definition py_floordiv (a b : Z) : result Z :=
  if (b =? 0)%Z then Raise ZeroDivisionError else Ok (a / b)%Z.

Definition py_mod (a b : Z) : result Z :=
  if (b =? 0)%Z then Raise ZeroDivisionError else Ok (a `mod` b)%Z.

(** [l[i]]: a negative index counts from the end. *)
Definition py_list_get {A} (l : list A) (i : Z) : result A :=
  let n := Z.of_nat (length l) in
  let i' := if (i <? 0)%Z then (i + n)%Z else i in
  if (0 <=? i')%Z && (i' <? n)%Z then
    match l !! Z.to_nat i' with
    | Some x => Ok x
    | None => Raise IndexError
    end
  else Raise IndexError.

(** ** [prepare_data]  (dataset.py, lines 48-145)

    The parameters of the section are what the function takes from
    outside the repository's sources: directory listing, image decoding,
    OpenCV's grey weighting, and [normalize] of ffdnet/utils/data_utils.py
    (division of a pixel value by 255, as a 32-bit float).  Progress
    output ([print], [tqdm]) is left out. *)

Record store_locals : Type := StoreLocals {
  nx : nat;
  train_num : nat;
  reminder : Z;
  already_picked : bool
}.

Section prepare_data.
Context {px : Type} `{Inhabited px}.
Variable glob : string → list string.
Variable cv2_imread : string → option (ndarray Z).
Variable bgr2gray : Z → Z → Z → Z.
Variable normalize_px : Z → px.
Variable zero : px.

(** Modelled from the spec: [normalize] of ffdnet/utils/data_utils.py,
    which is not among the sources; it rescales the 8-bit pixel values to
    floats by dividing by 255, pixel by pixel.  The function on one pixel
    is the parameter [normalize_px]. *)
Definition normalize (img : ndarray Z) : ndarray px :=
  NDArray (shape img) (normalize_px <$> data img).

(** The three [glob] calls and the sort. *)
Definition scan_images (path : string) : list string :=
  sort_strings (tp ← ["*.bmp"; "*.png"; "*.jpg"]; glob (os_path_join path tp)).

(** Lines 89-99: decode, convert to channel-first, normalize. *)
Definition load_train_image (gray_mode : bool) (file : string)
  : result (ndarray px) :=
  match cv2_imread file with
  | None => Raise (if gray_mode then TypeError else LibraryError)
  | Some imgor =>
      img ← (if negb gray_mode then
               rgb ← cv2_BGR2RGB imgor; transpose_2_0_1 rgb
             else
               g ← take_channel_1 imgor; Ok (np_expand_dims_0 g));
      Ok (normalize img)
  end.

(** Lines 130-138, the same for a validation image. *)
Definition load_val_image (gray_mode : bool) (file : string)
  : result (ndarray px) :=
  match cv2_imread file with
  | None => Raise LibraryError
  | Some imgor =>
      img ← (if negb gray_mode then
               rgb ← cv2_BGR2RGB imgor; transpose_2_0_1 rgb
             else
               g ← cv2_BGR2GRAY bgr2gray imgor; Ok (np_expand_dims_0 g));
      Ok (normalize img)
  end.

(** Lines 105-113: the loop that stores the patches of one file.  The
    fuel bounds the number of passes. *)
Fixpoint store_patches (fuel : nat) (traindbf : string)
    (patches : ndarray px) (n_patches : nat) (patches_per_file : Z)
    (st : store_locals) : io px store_locals :=
  if (nx st <? n_patches) && (Z.of_nat (nx st) <? patches_per_file)%Z then
    match fuel with
    | 0 => io_out_of_fuel
    | S fuel =>
        d ←ᵢ io_lift (take_last_axis patches (nx st));
        h5_create_dataset traindbf (pretty (train_num st)) d;;ᵢ
        let train_num := train_num st + 1 in
        if (0 <? reminder st)%Z && negb (already_picked st) then
          store_patches fuel traindbf patches n_patches patches_per_file
            (StoreLocals (nx st) train_num (reminder st - 1) true)
        else
          store_patches fuel traindbf patches n_patches patches_per_file
            (StoreLocals (nx st + 1) train_num (reminder st) (already_picked st))
    end
  else io_ret st.

(** Lines 87-115: the loop over the training files.  The loop state
    carried from one file to the next is [train_num] and [reminder]. *)
Fixpoint train_loop (traindbf : string) (gray_mode : bool)
    (patch_size stride patches_per_file : Z) (files : list string)
    (tnum : nat) (rem : Z) : io px (nat * Z) :=
  match files with
  | [] => io_ret (tnum, rem)
  | file :: files =>
      h5_open_append traindbf;;ᵢ
      img ←ᵢ io_lift (load_train_image gray_mode file);
      patches ←ᵢ io_lift (img_to_patches zero img patch_size stride);
      patches ←ᵢ io_np_random_shuffle patches;
      let n_patches := nth 3 (shape patches) 0 in
      st ←ᵢ store_patches (n_patches + 1) traindbf patches n_patches
              patches_per_file (StoreLocals 0 tnum rem false);
      train_loop traindbf gray_mode patch_size stride patches_per_file files
        (train_num st) (reminder st)
  end.

(** Lines 129-140: the loop over the validation files. *)
Fixpoint val_loop (valdbf : string) (gray_mode : bool)
    (files : list string) (val_num : nat) : io px nat :=
  match files with
  | [] => io_ret val_num
  | item :: files =>
      img ←ᵢ io_lift (load_val_image gray_mode item);
      h5_create_dataset valdbf (pretty val_num) img;;ᵢ
      val_loop valdbf gray_mode files (val_num + 1)
  end.

(** The training part, lines 70-116. *)
Definition build_training_database (data_path : string)
    (patch_size stride : Z) (train_file : string) (total_patches : Z)
    (gray_mode : bool) : io px (nat * Z) :=
  let files := scan_images data_path in
  let traindbf := "dataset/" +:+ train_file in
  let n_files := Z.of_nat (length files) in
  patches_per_file ←ᵢ io_lift (py_floordiv total_patches n_files);
  reminder ←ᵢ io_lift (py_mod total_patches n_files);
  train_loop traindbf gray_mode patch_size stride patches_per_file files
    0 reminder.

(** The validation part, lines 118-141. *)
Definition build_validation_database (val_data_path : option string)
    (val_file : string) (gray_mode : bool) : io px nat :=
  match val_data_path with
  | None => io_ret 0
  | Some val_data_path =>
      let files := scan_images val_data_path in
      let valdbf := "dataset/" +:+ val_file in
      h5_open_write valdbf;;ᵢ
      val_loop valdbf gray_mode files 0
  end.

(** The whole function.  Line 144 formats [train_num] and
    [train_patches]; no [train_patches] is bound in the function or in
    the module.  There is no [return] statement: a run that got past
    line 145 would return [None]. *)
Definition prepare_data (data_path : string) (val_data_path : option string)
    (patch_size stride : Z) (train_file val_file : string)
    (total_patches : Z) (gray_mode : bool) : io px unit :=
  tr ←ᵢ build_training_database data_path patch_size stride train_file
          total_patches gray_mode;
  val_num ←ᵢ build_validation_database val_data_path val_file gray_mode;
  @io_raise px unit (NameError "train_patches");;ᵢ
  io_ret ().
End prepare_data.

(** ** [Dataset]  (dataset.py, lines 147-187) *)

Record Dataset : Type := {
  train : bool;
  gray_mode : bool;
  dbf : string;
  keys : list string
}.

Section dataset.
Context {px : Type}.

(** [Dataset.__init__] *)
Definition Dataset_init (dbf : string) (train gray_mode shuffle : bool)
  : io px Dataset :=
  h5f ←ᵢ h5_open_read dbf;
  let keys := h5_keys h5f in
  keys ←ᵢ (if shuffle then io_random_shuffle keys else io_ret keys);
  io_ret {| train := train; gray_mode := gray_mode; dbf := dbf; keys := keys |}.

(** [Dataset.__len__] *)
Definition Dataset_len (self : Dataset) : nat := length (keys self).

(** [h5f[key]] *)
Definition h5_get (h5f : gmap string (ndarray px)) (key : string)
  : result (ndarray px) :=
  match h5f !! key with
  | Some d => Ok d
  | None => Raise (KeyError key)
  end.

(** [Dataset.__getitem__]; the conversion to a tensor keeps shape and
    values. *)
Definition Dataset_getitem (self : Dataset) (index : Z) : io px (ndarray px) :=
  h5f ←ᵢ h5_open_read (dbf self);
  key ←ᵢ io_lift (py_list_get (keys self) index);
  d ←ᵢ io_lift (h5_get h5f key);
  io_ret d.
End dataset.

(** ** More numpy: sub-arrays, squeeze, assignment with broadcasting *)

Section more_arrays.
Context {A : Type} `{Inhabited A}.

(** [a[i]]: the i-th sub-array along the first axis. *)
Definition sub_array (a : ndarray A) (i : nat) : ndarray A :=
  let slot := tail (shape a) in
  NDArray slot (take (size_of slot) (drop (i * size_of slot) (data a))).

(** [a.squeeze()]: the axes of length one are dropped. *)
Definition np_squeeze (a : ndarray A) : ndarray A :=
  NDArray (filter (λ d, d ≠ 1) (shape a)) (data a).

(** Broadcasting of a value shape against a target shape of the same
    rank: every axis agrees or has length one in the value. *)
Definition broadcastable (vs ts : list nat) : bool :=
  bool_decide (length vs = length ts)
  && forallb (λ vt, (vt.1 =? vt.2) || (vt.1 =? 1)) (zip vs ts).

(** The data of the broadcast value: along an axis that agrees each
    block is broadcast in turn, along an axis of length one the single
    block is repeated; a block without axes is one element. *)
Fixpoint broadcast_data (vs ts : list nat) (d : list A) : list A :=
  match vs, ts with
  | v :: vs, t :: ts =>
      let m := size_of vs in
      if v =? t then
        k ← seq 0 v; broadcast_data vs ts (take m (drop (k * m) d))
      else
        _ ← seq 0 t; broadcast_data vs ts d
  | _, _ => [default inhabitant (head d)]
  end.

(** In an assignment the value may carry extra leading axes of length
    one; missing leading axes count as length one. *)
Fixpoint strip_leading_ones (k : nat) (s : list nat) : list nat :=
  match k, s with
  | S k, 1 :: s => strip_leading_ones k s
  | _, _ => s
  end.

Definition np_broadcast_to (v : ndarray A) (ts : list nat)
  : result (ndarray A) :=
  let vs := strip_leading_ones (length (shape v) - length ts) (shape v) in
  let vs := replicate (length ts - length vs) 1 ++ vs in
  if broadcastable vs ts then Ok (NDArray ts (broadcast_data vs ts (data v)))
  else Raise (ValueError "could not broadcast input array").

(** [a[i] = v] *)
Definition np_setitem (a : ndarray A) (i : nat) (v : ndarray A)
  : result (ndarray A) :=
  match shape a with
  | n :: slot =>
      if i <? n then
        b ← np_broadcast_to v slot;
        let m := size_of slot in
        Ok (NDArray (shape a)
              (take (i * m) (data a) ++ data b ++ drop ((i + 1) * m) (data a)))
      else Raise IndexError
  | [] => Raise IndexError
  end.

(** [np.ndarray(shape)]: the contents are whatever the memory holds. *)
Definition np_ndarray (uninitialized : nat → A) (s : list nat) : ndarray A :=
  NDArray s (uninitialized <$> seq 0 (size_of s)).
End more_arrays.

(** ** [estimate_noise]  (train_utils.py, lines 244-311) *)

Global Instance float_inhabited : Inhabited float := populate 0%float.

Inductive Estimator : Type := WIENER | WAVELET.

Global Instance Estimator_eq_dec : EqDecision Estimator.
Proof. solve_decision. Defined.

(** The [method] argument: a member of [Estimator], or any other Python
    object, kept by its [repr]. *)
Inductive py_method : Type :=
  | MethodEstimator (e : Estimator)
  | MethodOther (repr : string).

(** The [image_list] argument. *)
Inductive py_images : Type :=
  | ImagesArray (a : ndarray float)          (* torch.Tensor or numpy array *)
  | ImagesList (l : list (ndarray float))    (* list of arrays *)
  | ImagesOther.

(** [str] of a list of strings. *)
Definition py_str_list (l : list string) : string :=
  "[" +:+ String.concat ", " ((λ x, "'" +:+ x +:+ "'") <$> l) +:+ "]".

Definition wavelet_options : list string := ["BayesShrink"; "VisuShrink"].

(** [i[:1] != '_'] *)
Definition is_public_name (i : string) : bool :=
  match i with
  | String c _ => negb (bool_decide (c = "_"%char))
  | EmptyString => true
  end.

Section estimate_noise.
(** What the function takes from scipy, scikit-image, numpy and the
    interpreter: the two filters, the sigma estimator, the sum of an
    array, the contents of fresh memory, and the names the interpreter
    lists in [Estimator.__dict__]. *)
Variable wiener : ndarray float → nat * nat → result (ndarray float).
Variable denoise_wavelet :
  ndarray float → bool → bool → string → result (ndarray float).
Variable estimate_sigma : ndarray float → result float.
Variable np_sum : ndarray float → float.
Variable uninitialized : nat → float.
Variable Estimator_dict_keys : list string.

Definition unknown_estimator_message : string :=
  "Unknown noise estimator, please specify one of those listed in "
  +:+ py_str_list (filter (λ i, is_public_name i = true) Estimator_dict_keys).

Definition unknown_wavelet_message : string :=
  "Unknown wavelet method, please specify one of those listed in "
  +:+ py_str_list wavelet_options.

(** Lines 269-281: [n_images, c, w, h]. *)
Definition batch_dims (image_list : py_images) : result (nat * nat * nat * nat) :=
  match image_list with
  | ImagesArray a =>
      match shape a with
      | n :: c :: w :: h :: _ => Ok (n, c, w, h)
      | _ => Raise IndexError
      end
  | ImagesList l =>
      match l with
      | image :: _ =>
          match shape image with
          | c :: w :: h :: _ => Ok (length l, c, w, h)
          | _ => Raise IndexError
          end
      | [] => Raise IndexError
      end
  | ImagesOther => Raise (AssertionError "not a list/tensor/ndarray")
  end.

(** [np.asarray(image_list[i])] *)
Definition get_image (image_list : py_images) (i : nat) : result (ndarray float) :=
  match image_list with
  | ImagesArray a =>
      match shape a with
      | n :: _ => if i <? n then Ok (sub_array a i) else Raise IndexError
      | [] => Raise IndexError
      end
  | ImagesList l =>
      match l !! i with
      | Some x => Ok x
      | None => Raise IndexError
      end
  | ImagesOther => Raise TypeError
  end.

(** Lines 292-296. *)
Definition apply_filter (method : Estimator) (wiener_kernel_size : nat * nat)
    (multichannel convert2ycbcr : bool) (wavelet_method : string)
    (image : ndarray float) : result (ndarray float) :=
  match method with
  | WIENER => wiener image wiener_kernel_size
  | WAVELET => denoise_wavelet image multichannel convert2ycbcr wavelet_method
  end.

(** Lines 291-309: the body of the loop over the samples. *)
Definition estimate_noise_body (image_list : py_images) (method : Estimator)
    (wiener_kernel_size : nat * nat) (multichannel convert2ycbcr : bool)
    (wavelet_method : string)
    (st : ndarray float * ndarray float) (i : nat)
  : result (ndarray float * ndarray float) :=
  let '(filtered_images, noises) := st in
  image ← get_image image_list i;
  let image := np_squeeze image in
  filtered ← apply_filter method wiener_kernel_size multichannel
               convert2ycbcr wavelet_method image;
  let array_sum := np_sum filtered in
  let array_has_nan := is_nan array_sum in
  let filtered := if array_has_nan then image else filtered in
  noise_sigma ← (if negb array_has_nan then estimate_sigma image
                 else Ok 0%float);
  let filtered := np_expand_dims_0 filtered in
  filtered_images ← np_setitem filtered_images i filtered;
  noises ← np_setitem noises i (NDArray [] [noise_sigma]);
  Ok (filtered_images, noises).

Definition estimate_noise (image_list : py_images) (method : py_method)
    (wiener_kernel_size : nat * nat) (convert2ycbcr : bool)
    (wavelet_method : string) : result (ndarray float * ndarray float) :=
  match method with
  | MethodOther _ => Raise (AssertionError unknown_estimator_message)
  | MethodEstimator method =>
      if bool_decide (method = WAVELET)
         && negb (bool_decide (wavelet_method ∈ wavelet_options))
      then Raise (AssertionError unknown_wavelet_message)
      else
        '(n_images, c, w, h) ← batch_dims image_list;
        let multichannel := 1 <? h in
        let filtered_images := np_ndarray uninitialized [n_images; c; w; h] in
        let noises := np_ndarray uninitialized [n_images] in
        foldM (estimate_noise_body image_list method wiener_kernel_size
                 multichannel convert2ycbcr wavelet_method)
          (filtered_images, noises) (seq 0 n_images)
  end.
End estimate_noise.

(** [noisy - estimated_clean], element by element. *)
Definition np_sub (a b : ndarray float) : ndarray float :=
  NDArray (shape a) (zip_with PrimFloat.sub (data a) (data b)).

(** What one pass of the loop of [estimate_noise] computes for sample
    [i], before it is written to the two result arrays. *)
Definition sample_estimate
    (wiener : ndarray float → nat * nat → result (ndarray float))
    (denoise_wavelet : ndarray float → bool → bool → string → result (ndarray float))
    (estimate_sigma : ndarray float → result float)
    (np_sum : ndarray float → float)
    (image_list : py_images) (method : Estimator)
    (wiener_kernel_size : nat * nat) (multichannel convert2ycbcr : bool)
    (wavelet_method : string) (i : nat) : result (ndarray float * float) :=
  image ← get_image image_list i;
  let image := np_squeeze image in
  filtered ← apply_filter wiener denoise_wavelet method wiener_kernel_size
               multichannel convert2ycbcr wavelet_method image;
  let array_has_nan := is_nan (np_sum filtered) in
  noise_sigma ← (if negb array_has_nan then estimate_sigma image
                 else Ok 0%float);
  Ok (np_expand_dims_0 (if array_has_nan then image else filtered), noise_sigma).

(** Whether [value] occurs in [msg]. *)
Definition mentions (value msg : string) : bool :=
  match String.index 0 value msg with
  | Some _ => true
  | None => false
  end.

(** ** The storing loop of [prepare_data] *)

(** Writing the arrays [ds] under the consecutive keys [str(t)],
    [str(t+1)], ... *)
Fixpoint write_seq {px} (f : gmap string (ndarray px)) (t : nat)
    (ds : list (ndarray px)) : gmap string (ndarray px) :=
  match ds with
  | [] => f
  | d :: ds => write_seq (<[pretty t := d]> f) (S t) ds
  end.

(** [patches[:, :, :, k]], for an index in range. *)
Definition patch_at {px} `{Inhabited px} (patches : ndarray px) (k : nat)
  : ndarray px :=
  match take_last_axis patches k with
  | Ok d => d
  | Raise _ => patches
  end.

(** The values [nx] takes in the passes of the loop, in order, when it is
    entered at [nx] with [m] the first index that fails the loop test;
    [pick] tells whether the pass at [nx] takes the remainder. *)
Definition visited (nx m : nat) (pick : bool) : list nat :=
  (if pick && (nx <? m) then [nx] else []) ++ seq nx (m - nx).

(** First index at which the test of the storing loop fails. *)
Definition loop_bound (n : nat) (q : Z) : nat := n `min` Z.to_nat q.

(** Whether a pass of the storing loop takes the remainder branch. *)
Definition picks (st : store_locals) : bool :=
  (0 <? reminder st)%Z && negb (already_picked st).

(** [patches.shape[3]], the number of patches in an array of patches. *)
Definition patch_count {A} (patches : ndarray A) : nat := nth 3 (shape patches) 0.

(** The patches extracted from one training file, before they are
    shuffled (lines 89-100). *)
Definition file_patches {px} `{Inhabited px} (cv2_imread : string → option (ndarray Z))
    (normalize_px : Z → px) (zero : px) (gray_mode : bool)
    (patch_size stride : Z) (file : string) : result (ndarray px) :=
  img ← load_train_image cv2_imread normalize_px gray_mode file;
  img_to_patches zero img patch_size stride.

(** The number of different patches of a file that the storing loop visits:
    the smaller of the number of patches and the quota. *)
Definition file_quota {px} `{Inhabited px}
    (cv2_imread : string → option (ndarray Z)) (normalize_px : Z → px)
    (zero : px) (gray_mode : bool) (patch_size stride q : Z) (file : string)
  : nat :=
  match file_patches cv2_imread normalize_px zero gray_mode patch_size stride
          file with
  | Ok p => loop_bound (patch_count p) q
  | Raise _ => 0
  end.

(** The value (or exception) a [get] yields, without the world. *)
Definition get_value {px} (self : Dataset) (w : world px) (index : Z)
  : option (result (ndarray px)) :=
  '(_, r) ← Dataset_getitem self index w; Some r.

(** ** Stores that only grow *)

(** [w'] has every file of [w] other than [path] as it was, and the file
    at [path], if [w] has it, with at least the entries it had. *)
Definition store_grows {px} (path : string) (w w' : world px) : Prop :=
  (∀ other, other ≠ path → fs w' !! other = fs w !! other)
  ∧ (∀ f, fs w !! path = Some f → ∃ f', fs w' !! path = Some f' ∧ f ⊆ f').

(** ** Command-line arguments

    The attributes of the [argparse] namespace that the functions of
    train_utils.py read. *)

Record Namespace : Type := {
  args_traindbf : string;
  args_valdbf : string;
  args_gray : bool;
  args_batch_size : Z;
  args_val_batch_size : Z;
  args_resume_training : bool;
  args_experiment_name : string;
  args_epochs : Z;
  args_no_orthog : bool;
  args_filter : string;
  args_wavelet_convert2ycbcr : bool;
  args_wavelet_method : string;
  args_noiseIntL : list float
}.

(** ** [load_dataset_and_dataloader]  (train_utils.py, lines 42-68) *)

Section load_dataset_and_dataloader.
Context {px : Type}.
(** [torch.utils.data.DataLoader(dataset=..., num_workers=...,
    batch_size=..., shuffle=...)] *)
Variable Loader : Type.
Variable DataLoader : Dataset → nat → Z → bool → result Loader.

Definition load_dataset_and_dataloader (args : Namespace)
  : io px ((Dataset * Dataset) * (Loader * Loader)) :=
  dataset_train ←ᵢ Dataset_init (args_traindbf args) true (args_gray args) true;
  dataset_val ←ᵢ Dataset_init (args_valdbf args) false (args_gray args) false;
  loader_train ←ᵢ io_lift (DataLoader dataset_train 2 (args_batch_size args) true);
  loader_val ←ᵢ io_lift (DataLoader dataset_val 2 (args_val_batch_size args) false);
  io_ret ((dataset_train, dataset_val), (loader_train, loader_val)).
End load_dataset_and_dataloader.

(** ** [resume_training]  (train_utils.py, lines 105-161) *)

(** Values of the two parameter dictionaries. *)
Inductive py_value : Type :=
  | PyInt (n : Z)
  | PyBool (b : bool)
  | PyFloat (x : float).

(** What [resume_training] raises: an exception of the interpreter or of
    a library, or a plain [Exception] with a message. *)
Inductive py_exception : Type :=
  | Builtin (e : exn)
  | Exception (msg : string).

Inductive outcome (A : Type) : Type :=
  | Returned (a : A)
  | Raised (e : py_exception).
Arguments Returned {A} a.
Arguments Raised {A} e.

Section resume_training.
(** The model and the optimizer with their [load_state_dict] methods,
    and the saved states, are torch's. *)
Variables (Model Optimizer StateDict OptimizerState : Type).
Variable model_load_state_dict : Model → StateDict → result Model.
Variable optimizer_load_state_dict :
  Optimizer → OptimizerState → result Optimizer.

(** What [torch.load] returns for a checkpoint file written by the
    training script: a dictionary with these five entries. *)
Record Checkpoint : Type := {
  ckpt_state_dict : StateDict;
  ckpt_optimizer : OptimizerState;
  ckpt_args : Namespace;
  ckpt_training_params : gmap string py_value;
  ckpt_val_params : gmap string py_value
}.

(** [args.epochs = new_epoch] and [args.resume_training = False] *)
Definition set_epochs (args : Namespace) (epochs : Z) : Namespace :=
  {| args_traindbf := args_traindbf args;
     args_valdbf := args_valdbf args;
     args_gray := args_gray args;
     args_batch_size := args_batch_size args;
     args_val_batch_size := args_val_batch_size args;
     args_resume_training := args_resume_training args;
     args_experiment_name := args_experiment_name args;
     args_epochs := epochs;
     args_no_orthog := args_no_orthog args;
     args_filter := args_filter args;
     args_wavelet_convert2ycbcr := args_wavelet_convert2ycbcr args;
     args_wavelet_method := args_wavelet_method args;
     args_noiseIntL := args_noiseIntL args |}.

Definition set_resume_training (args : Namespace) (flag : bool) : Namespace :=
  {| args_traindbf := args_traindbf args;
     args_valdbf := args_valdbf args;
     args_gray := args_gray args;
     args_batch_size := args_batch_size args;
     args_val_batch_size := args_val_batch_size args;
     args_resume_training := flag;
     args_experiment_name := args_experiment_name args;
     args_epochs := args_epochs args;
     args_no_orthog := args_no_orthog args;
     args_filter := args_filter args;
     args_wavelet_convert2ycbcr := args_wavelet_convert2ycbcr args;
     args_wavelet_method := args_wavelet_method args;
     args_noiseIntL := args_noiseIntL args |}.

(** The function on the checkpoint files [files] (path to contents).  The
    result carries the model and the optimizer as the call leaves them,
    also when it raises.  The [print] calls are left out. *)
Definition resume_training (files : gmap string Checkpoint)
    (args : Namespace) (model : Model) (optimizer : Optimizer)
  : (Model * Optimizer)
    * outcome (gmap string py_value * gmap string py_value * py_value
               * Namespace) :=
  if args_resume_training args then
    let resumef := os_path_join (args_experiment_name args) "ckpt.pth" in
    match files !! resumef with
    | Some checkpoint =>
        match model_load_state_dict model (ckpt_state_dict checkpoint) with
        | Raise e => ((model, optimizer), Raised (Builtin e))
        | Ok model =>
            match optimizer_load_state_dict optimizer
                    (ckpt_optimizer checkpoint) with
            | Raise e => ((model, optimizer), Raised (Builtin e))
            | Ok optimizer =>
                let new_epoch := args_epochs args in
                let args := ckpt_args checkpoint in
                let training_params := ckpt_training_params checkpoint in
                match training_params !! "start_epoch" with
                | None =>
                    ((model, optimizer),
                     Raised (Builtin (KeyError "start_epoch")))
                | Some start_epoch =>
                    let val_params := ckpt_val_params checkpoint in
                    let args := set_epochs args new_epoch in
                    let args := set_resume_training args false in
                    ((model, optimizer),
                     Returned (training_params, val_params, start_epoch, args))
                end
            end
        end
    | None =>
        ((model, optimizer),
         Raised (Exception ("Couldn't resume training with checkpoint "
                            +:+ resumef)))
    end
  else
    let start_epoch := PyInt 0 in
    let training_params :=
      <["num_bad_epochs" := PyInt 0]>
        (<["no_orthog" := PyBool (args_no_orthog args)]>
           (<["step" := PyInt 0]> ∅)) in
    let val_params :=
      <["best_loss" := PyFloat infinity]> (<["step" := PyInt 0]> ∅) in
    ((model, optimizer),
     Returned (training_params, val_params, start_epoch, args)).
End resume_training.
Arguments ckpt_state_dict {StateDict OptimizerState} _.
Arguments ckpt_optimizer {StateDict OptimizerState} _.
Arguments ckpt_args {StateDict OptimizerState} _.
Arguments ckpt_training_params {StateDict OptimizerState} _.
Arguments ckpt_val_params {StateDict OptimizerState} _.
Arguments resume_training {Model Optimizer StateDict OptimizerState}
  model_load_state_dict optimizer_load_state_dict files args model optimizer.

(** ** [create_input_variables]  (train_utils.py, lines 163-215) *)

(** [torch.clamp(x, 0., 1.)] on one element; a NaN stays a NaN. *)
Definition torch_clamp_0_1 (x : float) : float :=
  if (x <? 0)%float then 0%float
  else if (1 <? x)%float then 1%float
  else x.

Section create_input_variables.
(** The parameters of [estimate_noise], and what the function takes from
    torch and numpy: the rounding of a 64-bit float to a 32-bit one,
    subtraction and addition of 32-bit floats, the uniform draws and the
    normal draws (the latter by the number of the draw).  Tensors are
    arrays of floats; moving a tensor to the GPU and wrapping it in a
    [Variable] keep its shape and values.  The batch has four axes
    (N, C, H, W), as the loader yields it; the broadcasting that torch
    would apply to a difference of tensors of different shapes is not
    modelled. *)
Variable wiener : ndarray float → nat * nat → result (ndarray float).
Variable denoise_wavelet :
  ndarray float → bool → bool → string → result (ndarray float).
Variable estimate_sigma : ndarray float → result float.
Variable np_sum : ndarray float → float.
Variable uninitialized : nat → float.
Variable Estimator_dict_keys : list string.
Variable to_float32 : float → float.
Variable sub32 add32 : float → float → float.
Variable np_random_uniform : float → float → nat → list float.
Variable normal_ : list nat → float → nat → result (ndarray float).

(** [torch.as_tensor(a, dtype=torch.float)], [torch.FloatTensor(a)] *)
Definition as_float_tensor (a : ndarray float) : ndarray float :=
  NDArray (shape a) (to_float32 <$> data a).

(** [torch.clamp(imgn - img, 0., 1.)] *)
Definition clamped_difference (imgn img : ndarray float) : ndarray float :=
  NDArray (shape imgn)
    (torch_clamp_0_1 <$> zip_with sub32 (data imgn) (data img)).

(** Lines 183-190 and 192-200, after the call of [estimate_noise]. *)
Definition filter_mode_variables (batch : ndarray float)
    (estimate : ndarray float * ndarray float)
  : ndarray float * ndarray float * ndarray float * ndarray float :=
  let imgn := batch in
  let '(img, stdn) := estimate in
  let img := as_float_tensor img in
  let stdn := as_float_tensor stdn in
  let noise := clamped_difference imgn img in
  (img, imgn, stdn, noise).

(** Lines 205-207: the body of the loop over the samples. *)
Definition synthetic_noise_body (stdn : list float) (noise : ndarray float)
    (nx : nat) : result (ndarray float) :=
  sizen ← match shape noise with
          | _ :: c :: w :: h :: rest => Ok (c :: w :: h :: rest)
          | _ => Raise IndexError
          end;
  std ← match stdn !! nx with
        | Some std => Ok std
        | None => Raise IndexError
        end;
  draw ← normal_ sizen std nx;
  np_setitem noise nx draw.

Definition create_input_variables (args : Namespace) (batch : ndarray float)
  : result (ndarray float * ndarray float * ndarray float * ndarray float) :=
  if bool_decide (args_filter args = "wiener") then
    estimate ← estimate_noise wiener denoise_wavelet estimate_sigma np_sum
                  uninitialized Estimator_dict_keys (ImagesArray batch)
                  (MethodEstimator WIENER) (5, 5) false "BayesShrink";
    Ok (filter_mode_variables batch estimate)
  else if bool_decide (args_filter args = "wavelet") then
    estimate ← estimate_noise wiener denoise_wavelet estimate_sigma np_sum
                  uninitialized Estimator_dict_keys (ImagesArray batch)
                  (MethodEstimator WAVELET) (5, 5)
                  (args_wavelet_convert2ycbcr args) (args_wavelet_method args);
    Ok (filter_mode_variables batch estimate)
  else
    let img := batch in
    let noise := np_zeros 0%float (shape img) in
    low ← py_list_get (args_noiseIntL args) 0;
    high ← py_list_get (args_noiseIntL args) 1;
    n ← match shape noise with
        | n :: _ => Ok n
        | [] => Raise IndexError
        end;
    let stdn := np_random_uniform low high n in
    noise ← foldM (synthetic_noise_body stdn) noise (seq 0 n);
    let imgn := NDArray (shape img) (zip_with add32 (data img) (data noise)) in
    let stdn_var := NDArray [length stdn] (to_float32 <$> stdn) in
    Ok (img, imgn, stdn_var, noise).
End create_input_variables.

(** ** Concrete inputs

    A small training directory, a store and stand-ins for the library
    functions, on which the functions above are run below. *)

Module Demo.
(** Two 1x2 images, listed by [glob] in directory order. *)
Definition glob (pattern : string) : list string :=
  if bool_decide (pattern = "train/*.png") then ["train/b.png"; "train/a.png"]
  else [].

(** Pixels in BGR order, as OpenCV decodes them. *)
Definition cv2_imread (file : string) : option (ndarray Z) :=
  if bool_decide (file = "train/a.png") then
    Some (NDArray [1; 2; 3] [30; 20; 10;  60; 50; 40]%Z)
  else if bool_decide (file = "train/b.png") then
    Some (NDArray [1; 2; 3] [90; 80; 70;  120; 110; 100]%Z)
  else None.

Definition bgr2gray (b g r : Z) : Z :=
  ((299 * r + 587 * g + 114 * b + 500) / 1000)%Z.

(** Division by 255 in floating point. *)
Definition normalize_px (x : Z) : float :=
  (PrimFloat.of_uint63 (Uint63.of_Z x) / 255)%float.

(** No file yet; the numpy generator will draw 1, 0, 1, 1, 0. *)
Definition world0 : world float := World ∅ [1; 0; 1; 1; 0] [].

Definition prepare (total_patches : Z) : option (world float * result ()) :=
  prepare_data glob cv2_imread bgr2gray normalize_px 0%float
    "train" None 1 1 "train.h5" "val.h5" total_patches false world0.

(** The training store after a run, as a list of keys and entries. *)
Definition train_store (total_patches : Z)
  : option (list (string * ndarray float)) :=
  '(w, _) ← prepare total_patches;
  h5f ← fs w !! "dataset/train.h5";
  Some ((λ key, (key, default (NDArray [] []) (h5f !! key))) <$> h5_keys h5f).

Definition train_store_size (total_patches : Z) : option nat :=
  '(w, _) ← prepare total_patches;
  h5f ← fs w !! "dataset/train.h5";
  Some (size h5f).

Definition train_entry (total_patches : Z) (key : string)
  : option (ndarray float) :=
  '(w, _) ← prepare total_patches;
  h5f ← fs w !! "dataset/train.h5";
  h5f !! key.

(** The patches of the first file, as extracted. *)
Definition patches_a : result (ndarray float) :=
  file_patches cv2_imread normalize_px 0%float false 1 1 "train/a.png".

(** An open, empty training store and two one-pixel patches. *)
Definition empty_store_world : world Z := World (<["t.h5" := ∅]> ∅) [] [].
Definition patches : ndarray Z := NDArray [1; 1; 1; 2] [5; 6]%Z.

(** A 1x3x3 image for the patch extractor. *)
Definition img : ndarray Z := NDArray [1; 3; 3] [1; 2; 3; 4; 5; 6; 7; 8; 9]%Z.

(** A store with three entries. *)
Definition store : gmap string (ndarray Z) :=
  <["0" := NDArray [1] [10%Z]]>
    (<["1" := NDArray [1] [11%Z]]> (<["2" := NDArray [1] [12%Z]]> ∅)).
Definition store_world : world Z :=
  World (<["data.h5" := store]> ∅) [] [5; 3; 4].

(** Stand-ins for the filters and the estimator: the filter maps a
    pixel x to x / x, which is NaN at 0; sums run from left to right. *)
Definition wiener (x : ndarray float) (size : nat * nat)
  : result (ndarray float) :=
  Ok (NDArray (shape x) ((λ v, v / v)%float <$> data x)).
Definition denoise_wavelet (x : ndarray float) (multichannel ycbcr : bool)
    (method : string) : result (ndarray float) :=
  Ok x.
Definition np_sum (x : ndarray float) : float :=
  foldl PrimFloat.add 0%float (data x).
Definition estimate_sigma (x : ndarray float) : result float :=
  Ok (np_sum x).
Definition uninitialized (k : nat) : float := 7%float.
Definition Estimator_dict_keys : list string :=
  ["_generate_next_value_"; "__module__"; "__doc__"; "WIENER"; "WAVELET";
   "_member_names_"; "_member_map_"].

(** A batch of two 1x1x2 images. *)
Definition batch : ndarray float := NDArray [2; 1; 1; 2] [1; 2; 0; 3]%float.

(** What the stand-in filter returns for the two images. *)
Definition filtered_0 : ndarray float := NDArray [2] [1 / 1; 2 / 2]%float.
Definition filtered_1 : ndarray float := NDArray [2] [0 / 0; 3 / 3]%float.

Definition estimate (method : py_method) (wavelet_method : string)
  : result (ndarray float * ndarray float) :=
  estimate_noise wiener denoise_wavelet estimate_sigma np_sum uninitialized
    Estimator_dict_keys (ImagesArray batch) method (5, 5) false
    wavelet_method.
End Demo.

(** ** Further concrete inputs *)

Module Cases.
(** The training directory of [Demo], a directory with one file that does
    not decode, and a validation directory with one image. *)
Definition glob (pattern : string) : list string :=
  if bool_decide (pattern = "broken/*.png") then ["broken/x.png"]
  else if bool_decide (pattern = "val/*.png") then ["val/v.png"]
  else Demo.glob pattern.

Definition cv2_imread (file : string) : option (ndarray Z) :=
  if bool_decide (file = "val/v.png") then
    Some (NDArray [1; 1; 3] [100; 150; 200]%Z)
  else Demo.cv2_imread file.

(** The patches of the first training file. *)
Definition patches_a : ndarray float :=
  match Demo.patches_a with
  | Ok p => p
  | Raise _ => NDArray [] []
  end.

(** The validation image, as the validation loop stores it. *)
Definition val_image (gray_mode : bool) : ndarray float :=
  match load_val_image cv2_imread Demo.bgr2gray Demo.normalize_px gray_mode
          "val/v.png" with
  | Ok img => img
  | Raise _ => NDArray [] []
  end.

(** Worlds in which the training store exists already: with an entry
    under a key that is no number, and with an entry under the key 0. *)
Definition entry : ndarray float := NDArray [1] [0.5%float].
Definition world_old : world float :=
  World (<["dataset/train.h5" := <["old" := entry]> ∅]> ∅) [1; 0; 1; 1; 0] [].
Definition world_clash : world float :=
  World (<["dataset/train.h5" := <["0" := entry]> ∅]> ∅) [1; 0; 1; 1; 0] [].

Definition prepare (data_path : string) (val_data_path : option string)
    (total_patches : Z) (gray_mode : bool) (w : world float)
  : option (world float * result ()) :=
  prepare_data glob cv2_imread Demo.bgr2gray Demo.normalize_px 0%float
    data_path val_data_path 1 1 "train.h5" "val.h5" total_patches gray_mode w.

Definition build (total_patches : Z) (gray_mode : bool) (w : world float)
  : option (world float * result (nat * Z)) :=
  build_training_database glob cv2_imread Demo.normalize_px 0%float
    "train" 1 1 "train.h5" total_patches gray_mode w.

(** The store of [Demo] after the entry under key 1 was deleted. *)
Definition store_world_changed : world Z :=
  World (<["data.h5" := delete "1" Demo.store]> ∅) [] [].

(** Command-line arguments. *)
Definition args (filter : string) : Namespace :=
  {| args_traindbf := "data.h5";
     args_valdbf := "data.h5";
     args_gray := false;
     args_batch_size := 2;
     args_val_batch_size := 1;
     args_resume_training := true;
     args_experiment_name := "exp";
     args_epochs := 80;
     args_no_orthog := false;
     args_filter := filter;
     args_wavelet_convert2ycbcr := false;
     args_wavelet_method := "BayesShrink";
     args_noiseIntL := [0.25; 0.5]%float |}.

Definition args_no_val (a : Namespace) : Namespace :=
  {| args_traindbf := args_traindbf a;
     args_valdbf := "missing.h5";
     args_gray := args_gray a;
     args_batch_size := args_batch_size a;
     args_val_batch_size := args_val_batch_size a;
     args_resume_training := args_resume_training a;
     args_experiment_name := args_experiment_name a;
     args_epochs := args_epochs a;
     args_no_orthog := args_no_orthog a;
     args_filter := args_filter a;
     args_wavelet_convert2ycbcr := args_wavelet_convert2ycbcr a;
     args_wavelet_method := args_wavelet_method a;
     args_noiseIntL := args_noiseIntL a |}.

(** A loader that records what it was built from. *)
Definition DataLoader (dataset : Dataset) (num_workers : nat) (batch_size : Z)
    (shuffle : bool) : result (Dataset * Z * bool) :=
  Ok (dataset, batch_size, shuffle).

(** Models and optimizers that are their state; loading replaces it. *)
Definition load_state (current new : nat) : result nat := Ok new.

Definition saved_args : Namespace :=
  set_epochs (set_resume_training (args "wavelet") true) 10.

(** A checkpoint saved after epoch 3, and one that holds the parameters
    of a fresh start. *)
Definition checkpoint : Checkpoint nat nat :=
  {| ckpt_state_dict := 7;
     ckpt_optimizer := 8;
     ckpt_args := saved_args;
     ckpt_training_params :=
       <["start_epoch" := PyInt 3]> (<["step" := PyInt 120]> ∅);
     ckpt_val_params := <["step" := PyInt 3]> ∅ |}.

Definition fresh_training_params : gmap string py_value :=
  <["num_bad_epochs" := PyInt 0]>
    (<["no_orthog" := PyBool false]> (<["step" := PyInt 0]> ∅)).

Definition fresh_checkpoint : Checkpoint nat nat :=
  {| ckpt_state_dict := 7;
     ckpt_optimizer := 8;
     ckpt_args := saved_args;
     ckpt_training_params := fresh_training_params;
     ckpt_val_params := <["step" := PyInt 0]> ∅ |}.

Definition checkpoints : gmap string (Checkpoint nat nat) :=
  <["exp/ckpt.pth" := checkpoint]> ∅.
Definition fresh_checkpoints : gmap string (Checkpoint nat nat) :=
  <["exp/ckpt.pth" := fresh_checkpoint]> ∅.

(** Stand-ins for torch and numpy: 32-bit rounding left out, every
    uniform draw the lower bound, every normal draw the sigma itself. *)
Definition to_float32 (x : float) : float := x.
Definition np_random_uniform (low high : float) (n : nat) : list float :=
  replicate n low.
Definition normal_ (size : list nat) (std : float) (k : nat)
  : result (ndarray float) :=
  Ok (NDArray size (replicate (size_of size) std)).

Definition create (filter : string) (batch : ndarray float)
  : result (ndarray float * ndarray float * ndarray float * ndarray float) :=
  create_input_variables Demo.wiener Demo.denoise_wavelet Demo.estimate_sigma
    Demo.np_sum Demo.uninitialized Demo.Estimator_dict_keys to_float32
    PrimFloat.sub PrimFloat.add np_random_uniform normal_ (args filter) batch.

(** A filter that fails on an image that starts with a zero. *)
Definition wiener_failing (x : ndarray float) (size : nat * nat)
  : result (ndarray float) :=
  match data x with
  | v :: _ => if PrimFloat.eqb v 0 then Raise LibraryError else Ok x
  | [] => Ok x
  end.
End Cases.

(** * Properties *)

Lemma length_bind_const {A B} (f : A → list B) (k : nat) (l : list A) :
  (∀ x, length (f x) = k) → length (l ≫= f) = length l * k.
Proof.
  intros Hf. induction l as [|x l IH]; [done|].
  rewrite bind_cons, length_app, Hf, IH. simpl. lia.
Qed.

Lemma length_bind_singleton {A B} (f : A → B) (l : list A) :
  length (l ≫= λ x, [f x]) = length l.
Proof. rewrite (length_bind_const _ 1); [lia|done]. Qed.

Lemma slice_indices_window (i : nat) (len : nat) (win stride : Z) :
  (1 ≤ stride)%Z → (Z.of_nat i < win)%Z → (win ≤ Z.of_nat len)%Z →
  ∃ l, slice_indices (Z.of_nat i) (Z.of_nat len - win + Z.of_nat i + 1) stride len
       = Ok l
     ∧ length l = Z.to_nat ((Z.of_nat len - win) / stride + 1).
Proof.
  intros Hs Hi Hw. unfold slice_indices.
  destruct (Z.eqb_spec stride 0) as [->|_]; [lia|].
  destruct (Z.ltb_spec 0 stride) as [_|?]; [|lia].
  eexists; split; [reflexivity|].
  rewrite length_map, length_seq. unfold slice_bound, range_len.
  destruct (Z.ltb_spec (Z.of_nat i) 0) as [?|_]; [lia|].
  destruct (Z.ltb_spec (Z.of_nat len - win + Z.of_nat i + 1) 0) as [?|_]; [lia|].
  destruct (Z.ltb_spec 0 stride) as [_|?]; [|lia].
  rewrite !Z.min_l by lia.
  destruct (Z.ltb_spec (Z.of_nat i) (Z.of_nat len - win + Z.of_nat i + 1)) as [_|?];
    [|lia].
  do 3 f_equal. lia.
Qed.

Section array_facts.
Context {A : Type} `{Inhabited A}.

Lemma index3_shape (img : ndarray A) c h w rows cols :
  shape img = [c; h; w] →
  shape (index3 img rows cols) = [c; length rows; length cols].
Proof. intros Hs. unfold index3. by rewrite Hs. Qed.

Lemma index3_well_formed (img : ndarray A) c h w rows cols :
  shape img = [c; h; w] → well_formed (index3 img rows cols).
Proof.
  intros Hs. unfold well_formed, index3. rewrite Hs. simpl.
  rewrite (length_bind_const _ (length rows * length cols)), length_seq; [lia|].
  intros ci. rewrite (length_bind_const _ (length cols)); [done|].
  intros y. apply length_bind_singleton.
Qed.

Lemma assign_axis1_ok (res v : ndarray A) c kk n k :
  shape res = [c; kk; n] → shape v = [c; n] → k < kk →
  ∃ res', assign_axis1 res k v = Ok res'
        ∧ shape res' = [c; kk; n] ∧ well_formed res'.
Proof.
  intros Hr Hv Hk. unfold assign_axis1. rewrite Hr, Hv.
  destruct (Nat.ltb_spec k kk) as [_|?]; [|lia].
  rewrite !Nat.eqb_refl. simpl.
  eexists; split; [reflexivity|]. split; [done|].
  unfold well_formed. simpl.
  rewrite (length_bind_const _ (kk * n)), length_seq; [lia|].
  intros ci. rewrite (length_bind_const _ n), length_seq; [done|].
  intros ki. by rewrite length_bind_singleton, length_seq.
Qed.

Lemma np_reshape_ok (a : ndarray A) (dims : list nat) :
  size_of dims = size_of (shape a) →
  np_reshape a (Z.of_nat <$> dims) = Ok (NDArray dims (data a)).
Proof.
  intros Hsz. unfold np_reshape.
  assert (forallb (λ d, (0 <=? d)%Z) (Z.of_nat <$> dims) = true) as ->.
  { apply forallb_forall. intros d [n [<- _]]%in_map_iff. apply Z.leb_le. lia. }
  assert (map Z.to_nat (Z.of_nat <$> dims) = dims) as ->.
  { rewrite <-list_fmap_compose. rewrite <-(list_fmap_id dims) at 2.
    apply list_fmap_ext. intros _ n _. simpl. lia. }
  by rewrite Hsz, Nat.eqb_refl.
Qed.

Lemma take_last_axis_ok (p : ndarray A) c a b n nx :
  shape p = [c; a; b; n] → nx < n →
  ∃ q, take_last_axis p nx = Ok q ∧ shape q = [c; a; b] ∧ well_formed q.
Proof.
  intros Hs Hn. unfold take_last_axis. rewrite Hs.
  destruct (Nat.ltb_spec nx n) as [_|?]; [|lia].
  eexists; split; [reflexivity|]. split; [done|].
  unfold well_formed. simpl. rewrite length_map, length_seq. lia.
Qed.
End array_facts.


Section img_to_patches_facts.
Context {A : Type} `{Inhabited A}.
Variables (img : ndarray A) (c h w : nat) (win stride : Z).
Hypothesis Hshape : shape img = [c; h; w].
Hypothesis Hstride : (1 ≤ stride)%Z.
Hypothesis Hwin_h : (win ≤ Z.of_nat h)%Z.
Hypothesis Hwin_w : (win ≤ Z.of_nat w)%Z.

Let nrows := Z.to_nat ((Z.of_nat h - win) / stride + 1).
Let ncols := Z.to_nat ((Z.of_nat w - win) / stride + 1).

(** One pass of the loop body at an offset inside the window stores row
    [k] and keeps the shape of [res]. *)
Lemma img_to_patches_body_ok (kk k i j : nat) (res : ndarray A) :
  shape res = [c; kk; nrows * ncols] → k < kk →
  (Z.of_nat i < win)%Z → (Z.of_nat j < win)%Z →
  ∃ res', img_to_patches_body img c h w win stride (nrows * ncols) (k, res) (i, j)
          = Ok (k + 1, res')
        ∧ shape res' = [c; kk; nrows * ncols] ∧ well_formed res'.
Proof.
  intros Hres Hk Hi Hj. unfold img_to_patches_body.
  destruct (slice_indices_window i h win stride) as (rows & -> & Hrows); [done..|].
  destruct (slice_indices_window j w win stride) as (cols & -> & Hcols); [done..|].
  simpl.
  change [Z.of_nat c; Z.of_nat (nrows * ncols)]
    with (Z.of_nat <$> [c; nrows * ncols]).
  rewrite np_reshape_ok.
  2:{ rewrite (index3_shape _ c h w) by done. simpl.
      fold nrows in Hrows. fold ncols in Hcols. lia. }
  simpl.
  destruct (assign_axis1_ok res
              (NDArray [c; nrows * ncols] (data (index3 img rows cols)))
              c kk (nrows * ncols) k) as (res' & -> & ? & ?); [done..|].
  by exists res'.
Qed.

Lemma img_to_patches_loop_ok (kk : nat) (l : list (nat * nat)) :
  ∀ (k : nat) (res : ndarray A),
  shape res = [c; kk; nrows * ncols] → well_formed res →
  k + length l ≤ kk →
  Forall (λ ij, (Z.of_nat ij.1 < win)%Z ∧ (Z.of_nat ij.2 < win)%Z) l →
  ∃ res', foldM (img_to_patches_body img c h w win stride (nrows * ncols))
            (k, res) l = Ok (k + length l, res')
        ∧ shape res' = [c; kk; nrows * ncols] ∧ well_formed res'.
Proof.
  induction l as [|[i j] l IH]; intros k res Hres Hwf Hlen Hall.
  - exists res. simpl. by rewrite Nat.add_0_r.
  - apply Forall_cons in Hall as [[Hi Hj] Hall]. cbn [length] in Hlen.
    cbn [foldM length].
    destruct (img_to_patches_body_ok kk k i j res) as (res1 & -> & Hs1 & Hwf1);
      [done|lia|done..|].
    cbn [mbind result_bind].
    destruct (IH (k + 1) res1) as (res' & -> & ? & ?); [done|done|lia|done|].
    exists res'. split; [f_equal; f_equal; lia|done].
Qed.
End img_to_patches_facts.


Lemma offsets_length (n : nat) :
  length (i ← seq 0 n; j ← seq 0 n; [(i, j)]) = n * n.
Proof.
  rewrite (length_bind_const _ n), length_seq; [done|].
  intros i. by rewrite length_bind_singleton, length_seq.
Qed.

Lemma offsets_bound (win : Z) :
  Forall (λ ij : nat * nat, (Z.of_nat ij.1 < win)%Z ∧ (Z.of_nat ij.2 < win)%Z)
    (i ← seq 0 (Z.to_nat win); j ← seq 0 (Z.to_nat win); [(i, j)]).
Proof.
  apply Forall_forall. intros [i j] Hin.
  apply list_elem_of_bind in Hin as (i' & Hin & Hi%elem_of_seq).
  apply list_elem_of_bind in Hin as (j' & Hin & Hj%elem_of_seq).
  apply list_elem_of_singleton in Hin. simplify_eq. simpl. lia.
Qed.

(** C3 (amended): for an image of shape (C, H, W), a window with
    1 <= win <= min(H, W) and a stride s >= 1, img_to_patches returns an
    array of shape (C, win, win, N) with
    N = ((H-win)//s + 1) * ((W-win)//s + 1); each of the N patches
    patches[:, :, :, nx] has shape (C, win, win). *)
Theorem img_to_patches_shape {A} `{Inhabited A} (zero : A) (img : ndarray A)
    (c h w : nat) (win stride : Z) :
  shape img = [c; h; w] →
  (1 ≤ win)%Z → (win ≤ Z.of_nat (h `min` w))%Z → (1 ≤ stride)%Z →
  ∃ res, img_to_patches zero img win stride = Ok res
    ∧ shape res = [c; Z.to_nat win; Z.to_nat win; patch_grid_count h w win stride]
    ∧ well_formed res
    ∧ ∀ nx, nx < patch_grid_count h w win stride →
        ∃ p, take_last_axis res nx = Ok p
           ∧ shape p = [c; Z.to_nat win; Z.to_nat win] ∧ well_formed p.
Proof.
  intros Hshape Hwin1 Hwin Hstride.
  assert (win ≤ Z.of_nat h)%Z as Hh by lia.
  assert (win ≤ Z.of_nat w)%Z as Hw by lia.
  unfold img_to_patches. rewrite Hshape.
  destruct (slice_indices_window 0 h win stride) as (rows0 & Hr & Hrl); [lia..|].
  destruct (slice_indices_window 0 w win stride) as (cols0 & Hc & Hcl); [lia..|].
  change (Z.of_nat 0) with 0%Z in Hr, Hc. rewrite Hr, Hc.
  cbn [mbind result_bind]. rewrite Hrl, Hcl.
  fold (patch_grid_count h w win stride).
  set (n := patch_grid_count h w win stride).
  destruct (img_to_patches_loop_ok img c h w win stride Hshape Hstride Hh Hw
              (Z.to_nat (win * win))
              (i ← seq 0 (Z.to_nat win); j ← seq 0 (Z.to_nat win); [(i, j)])
              0 (np_zeros zero [c; Z.to_nat (win * win); n]))
    as (res' & Hloop & Hs' & Hwf').
  { done. }
  { unfold well_formed, np_zeros. simpl. by rewrite length_replicate. }
  { rewrite offsets_length. rewrite Z2Nat.inj_mul by lia. lia. }
  { apply offsets_bound. }
  change (Z.to_nat ((Z.of_nat h - win) / stride + 1)
          * Z.to_nat ((Z.of_nat w - win) / stride + 1)) with n in Hloop, Hs'.
  rewrite Hloop. cbn [mbind result_bind snd].
  assert ([Z.of_nat c; win; win; Z.of_nat n]
          = Z.of_nat <$> [c; Z.to_nat win; Z.to_nat win; n]) as ->.
  { simpl. by rewrite Z2Nat.id by lia. }
  rewrite np_reshape_ok.
  2:{ rewrite Hs'. simpl. rewrite Z2Nat.inj_mul by lia. lia. }
  eexists. split; [reflexivity|]. split; [done|]. split.
  - unfold well_formed in *. simpl in *. rewrite Hwf', Hs'. simpl.
    rewrite Z2Nat.inj_mul by lia. lia.
  - intros nx Hnx. by eapply take_last_axis_ok.
Qed.


Section write_seq_facts.
Context {px : Type}.
Implicit Types (f : gmap string (ndarray px)) (ds : list (ndarray px)).

Lemma write_seq_lookup_other f t ds key :
  (∀ k, k < length ds → key ≠ pretty (t + k)) →
  write_seq f t ds !! key = f !! key.
Proof.
  revert f t. induction ds as [|d ds IH]; intros f t Hkey; [done|].
  simpl. rewrite IH.
  - apply lookup_insert_ne. intros Heq. apply (Hkey 0); [simpl; lia|].
    by rewrite Nat.add_0_r.
  - intros k Hk. replace (S t + k) with (t + S k) by lia.
    apply Hkey. simpl. lia.
Qed.

Lemma write_seq_lookup f t ds k d :
  ds !! k = Some d → write_seq f t ds !! pretty (t + k) = Some d.
Proof.
  revert f t k. induction ds as [|d' ds IH]; intros f t k Hk; [done|].
  destruct k as [|k]; simpl in *.
  - simplify_eq. rewrite write_seq_lookup_other.
    + rewrite Nat.add_0_r. apply lookup_insert_eq.
    + intros k _ Heq%(inj pretty). lia.
  - replace (t + S k) with (S t + k) by lia. by apply IH.
Qed.

Lemma write_seq_fresh f t ds :
  (∀ k, t ≤ k → f !! pretty k = None) →
  ∀ k, t + length ds ≤ k → write_seq f t ds !! pretty k = None.
Proof.
  intros Hf k Hk. rewrite write_seq_lookup_other; [apply Hf; lia|].
  intros j Hj Heq%(inj pretty). lia.
Qed.

Lemma write_seq_size f t ds :
  (∀ k, t ≤ k → f !! pretty k = None) →
  size (write_seq f t ds) = size f + length ds.
Proof.
  revert f t. induction ds as [|d ds IH]; intros f t Hf; simpl; [lia|].
  rewrite IH.
  - rewrite map_size_insert_None by (apply Hf; lia). lia.
  - intros k Hk. rewrite lookup_insert_ne; [apply Hf; lia|].
    intros Heq%(inj pretty). lia.
Qed.

Lemma write_seq_app f t ds1 ds2 :
  write_seq f t (ds1 ++ ds2) = write_seq (write_seq f t ds1) (t + length ds1) ds2.
Proof.
  revert f t. induction ds1 as [|d ds1 IH]; intros f t; simpl.
  - by rewrite Nat.add_0_r.
  - rewrite IH. by replace (t + S (length ds1)) with (S t + length ds1) by lia.
Qed.

Lemma write_seq_preserves f t ds key d :
  (∀ k, t ≤ k → f !! pretty k = None) →
  f !! key = Some d → write_seq f t ds !! key = Some d.
Proof.
  intros Hf Hkey. rewrite write_seq_lookup_other; [done|].
  intros k _ ->. rewrite Hf in Hkey; [done|lia].
Qed.
End write_seq_facts.


Section store_patches_facts.
Context {px : Type} `{Inhabited px}.
Variables (path : string) (patches : ndarray px) (c a b n : nat) (q : Z).
Hypothesis Hshape : shape patches = [c; a; b; n].

Lemma loop_test_spec (k : nat) :
  (k <? n) && (Z.of_nat k <? q)%Z = (k <? loop_bound n q).
Proof.
  unfold loop_bound.
  destruct (Nat.ltb_spec k n), (Z.ltb_spec (Z.of_nat k) q),
    (Nat.ltb_spec k (n `min` Z.to_nat q)); simpl; try done; lia.
Qed.

Lemma take_last_axis_patch_at (k : nat) :
  k < n → take_last_axis patches k = Ok (patch_at patches k).
Proof.
  intros Hk. unfold patch_at.
  destruct (take_last_axis_ok patches c a b n k Hshape Hk) as (d & -> & _).
  done.
Qed.

Lemma store_patches_spec (fuel : nat) :
  ∀ (st : store_locals) (w : world px) (f : gmap string (ndarray px)),
  loop_bound n q - nx st + (if picks st then 1 else 0) ≤ fuel →
  fs w !! path = Some f →
  (∀ k, train_num st ≤ k → f !! pretty k = None) →
  ∃ w', store_patches fuel path patches n q st w =
          Some (w', Ok (StoreLocals
                     (nx st `max` loop_bound n q)
                     (train_num st
                      + length (visited (nx st) (loop_bound n q) (picks st)))
                     (if picks st && (nx st <? loop_bound n q)
                      then (reminder st - 1)%Z else reminder st)
                     (already_picked st
                      || (picks st && (nx st <? loop_bound n q)))))
      ∧ fs w' = <[path := write_seq f (train_num st)
                            (patch_at patches
                               <$> visited (nx st) (loop_bound n q) (picks st))]>
                  (fs w)
      ∧ np_rng w' = np_rng w ∧ py_rng w' = py_rng w.
Proof.
  set (m := loop_bound n q).
  induction fuel as [|fuel IH]; intros [nx0 t r ap] w f Hfuel Hf Hfresh;
    cbn [store_patches]; rewrite loop_test_spec; fold m;
    cbn [nx train_num reminder already_picked] in *; unfold visited;
    destruct (nx0 <? m) eqn:Hb;
    [apply Nat.ltb_lt in Hb|apply Nat.ltb_ge in Hb
    |apply Nat.ltb_lt in Hb|apply Nat.ltb_ge in Hb].
  1: destruct (picks _); lia.
  1,3: (exists w; rewrite andb_false_r, orb_false_r;
        replace (m - nx0) with 0 by lia; simpl;
        rewrite Nat.add_0_r, Nat.max_l by lia;
        split; [done|]; split; [|done]; by rewrite insert_id).
  rename Hb into Hlt.
  assert (nx0 < n) as Hn by (unfold m, loop_bound in Hlt; lia).
  - unfold io_bind at 1, io_lift at 1.
    rewrite take_last_axis_patch_at by done.
    unfold io_bind at 1, h5_create_dataset at 1.
    rewrite Hf, Hfresh by lia.
    set (w1 := set_fs w _).
    set (f1 := <[pretty t := patch_at patches nx0]> f).
    assert (fs w1 !! path = Some f1) as Hf1 by apply lookup_insert_eq.
    assert (∀ k, t + 1 ≤ k → f1 !! pretty k = None) as Hfresh1.
    { intros k Hk. unfold f1. rewrite lookup_insert_ne; [apply Hfresh; lia|].
      intros Heq%(inj pretty). lia. }
    unfold picks in *. cbn [nx train_num reminder already_picked] in *.
    destruct ((0 <? r)%Z && negb ap) eqn:Hpick.
    + destruct (IH (StoreLocals nx0 (t + 1) (r - 1) true) w1 f1)
        as (w' & -> & Hfs & ? & ?); [simpl; rewrite andb_false_r; lia|done..|].
      cbn [nx train_num reminder already_picked] in *.
      rewrite andb_false_r in *. exists w'.
      split; [|split; [|done]].
      * unfold visited. simpl. by rewrite orb_true_r, <-Nat.add_assoc.
      * rewrite Hfs. unfold w1, set_fs, f1, visited. simpl.
        by rewrite insert_insert_eq, Nat.add_1_r.
    + destruct (IH (StoreLocals (nx0 + 1) (t + 1) r ap) w1 f1)
        as (w' & -> & Hfs & ? & ?); [simpl; rewrite Hpick; lia|done..|].
      cbn [nx train_num reminder already_picked] in *.
      rewrite Hpick in *. exists w'.
      assert (seq nx0 (m - nx0) = nx0 :: seq (nx0 + 1) (m - (nx0 + 1))) as Hseq.
      { replace (m - nx0) with (S (m - (nx0 + 1))) by lia.
        by rewrite Nat.add_1_r. }
      split; [|split; [|done]].
      * unfold visited. rewrite Hseq. simpl.
        rewrite <-Nat.add_assoc. simpl.
        replace ((nx0 + 1) `max` m) with (nx0 `max` m) by lia.
        by rewrite !orb_false_r.
      * rewrite Hfs. unfold w1, set_fs, f1, visited. rewrite Hseq. simpl.
        by rewrite insert_insert_eq, Nat.add_1_r.
Qed.
End store_patches_facts.


Lemma img_to_patches_ndim {A} `{Inhabited A} (zero : A) (img p : ndarray A)
    (win stride : Z) :
  img_to_patches zero img win stride = Ok p → ∃ c a b n, shape p = [c; a; b; n].
Proof.
  unfold img_to_patches. intros Hp.
  destruct (shape img) as [|endc [|endw [|endh [|]]]]; try done.
  destruct (slice_indices 0 _ stride endw) as [rows0|]; [|done].
  destruct (slice_indices 0 _ stride endh) as [cols0|]; [|done].
  cbn [mbind result_bind] in Hp.
  destruct (foldM _ _ _) as [kres|]; [|done].
  cbn [mbind result_bind] in Hp. unfold np_reshape in Hp.
  destruct (forallb _ _); [|done]. destruct (_ =? _); [|done].
  simplify_eq. by eexists _, _, _, _.
Qed.

Lemma np_random_shuffle_shape {A} (g : rng) (a : ndarray A) d ds :
  shape a = d :: ds →
  ∃ a' g', np_random_shuffle g a = Ok (a', g') ∧ shape a' = d :: ds.
Proof.
  intros Hs. unfold np_random_shuffle. rewrite Hs.
  destruct (random_shuffle g (seq 0 d)) as [perm g']. by eexists _, _.
Qed.

Section train_loop_facts.
Context {px : Type} `{Inhabited px}.
Variables (cv2_imread : string → option (ndarray Z)) (normalize_px : Z → px)
  (zero : px) (path : string) (gray : bool) (patch_size stride q : Z).

Abbreviation patches_of :=
  (file_patches cv2_imread normalize_px zero gray patch_size stride).
Abbreviation run_files :=
  (train_loop cv2_imread normalize_px zero path gray patch_size stride q).

(** Processing one file: the entries it appends and the state handed to
    the next file. *)
Lemma train_loop_cons (file : string) (files : list string) (t : nat) (r : Z)
    (w : world px) (p0 : ndarray px) (c a b n : nat) :
  patches_of file = Ok p0 → shape p0 = [c; a; b; n] →
  (∀ k, t ≤ k → default ∅ (fs w !! path) !! pretty k = None) →
  ∃ (w1 : world px) (p : ndarray px),
    shape p = [c; a; b; n]
    ∧ (∃ g, np_random_shuffle (np_rng w) p0 = Ok (p, g))
    ∧ fs w1 = <[path := write_seq (default ∅ (fs w !! path)) t
                  (patch_at p <$> visited 0 (loop_bound n q) (0 <? r)%Z)]>
                (fs w)
    ∧ py_rng w1 = py_rng w
    ∧ run_files (file :: files) t r w
      = run_files files
          (t + length (visited 0 (loop_bound n q) (0 <? r)%Z))
          (if (0 <? r)%Z && (0 <? loop_bound n q) then (r - 1)%Z else r) w1.
Proof.
  intros Hfp Hs Hfresh. unfold file_patches in Hfp.
  destruct (load_train_image _ _ _ _) as [img|] eqn:Himg; [|done].
  cbn [mbind result_bind] in Hfp.
  destruct (np_random_shuffle_shape (np_rng w) p0 c [a; b; n] Hs)
    as (p & g & Hsh & Hp).
  set (f := default ∅ (fs w !! path)) in *.
  set (w0 := match fs w !! path with
             | Some _ => w
             | None => set_fs w (<[path := ∅]> (fs w))
             end).
  assert (h5_open_append path w = Some (w0, Ok ())) as Hopen.
  { unfold w0, h5_open_append. by destruct (fs w !! path). }
  assert (fs w0 !! path = Some f) as Hf0.
  { unfold w0, h5_open_append, f. destruct (fs w !! path) eqn:E; simpl; [done|].
    apply lookup_insert_eq. }
  assert (fs w0 = <[path := f]> (fs w)) as Hfs0.
  { unfold w0, h5_open_append, f. destruct (fs w !! path) eqn:E; simpl; [|done].
    by rewrite insert_id. }
  assert (np_rng w0 = np_rng w ∧ py_rng w0 = py_rng w) as [Hnp0 Hpy0].
  { unfold w0, h5_open_append. by destruct (fs w !! path). }
  set (w0' := World (fs w0) g (py_rng w0)).
  destruct (store_patches_spec path p c a b n q Hp (n + 1)
              (StoreLocals 0 t r false) w0' f) as (w1 & Hrun & Hfs1 & _ & Hpy1).
  { unfold loop_bound. cbn [nx]. destruct (picks _); lia. }
  { done. }
  { done. }
  unfold picks in Hrun, Hfs1. cbn [nx train_num reminder already_picked] in *.
  rewrite andb_true_r in *.
  exists w1, p. split; [done|]. split; [by exists g|]. split.
  { rewrite Hfs1. unfold w0'. cbn [fs]. by rewrite Hfs0, insert_insert_eq. }
  split; [by rewrite Hpy1|].
  cbn [train_loop]. unfold io_bind at 1. rewrite Hopen.
  unfold io_bind at 1, io_lift at 1. rewrite Himg.
  unfold io_bind at 1, io_lift at 1. rewrite Hfp.
  unfold io_bind at 1, io_np_random_shuffle at 1. rewrite Hnp0, Hsh.
  fold w0'. unfold io_bind at 1. rewrite Hp. cbn [nth]. rewrite Hrun.
  done.
Qed.

Abbreviation quota_of :=
  (file_quota cv2_imread normalize_px zero gray patch_size stride q).

(** A run over files that all yield at least one patch, with a quota
    [q >= 1]: every file appends as many entries as it has patches up to
    the quota, and one more as long as the remainder lasts. *)
Lemma train_loop_quota (files : list string) :
  ∀ (t : nat) (r : Z) (w : world px),
  (1 ≤ q)%Z → (0 ≤ r)%Z →
  Forall (λ file, ∃ p, patches_of file = Ok p ∧ 1 ≤ patch_count p) files →
  (∀ k, t ≤ k → default ∅ (fs w !! path) !! pretty k = None) →
  let extra := length files `min` Z.to_nat r in
  let total := sum_list_with quota_of files + extra in
  ∃ w', run_files files t r w
        = Some (w', Ok (t + total, (r - Z.of_nat extra)%Z))
      ∧ size (default ∅ (fs w' !! path))
        = size (default ∅ (fs w !! path)) + total
      ∧ (∀ k, t + total ≤ k →
           default ∅ (fs w' !! path) !! pretty k = None)
      ∧ (files ≠ [] → is_Some (fs w' !! path)).
Proof.
  induction files as [|file files IH]; intros t r w Hq Hr Hall Hfresh extra total.
  - exists w. unfold total, extra. simpl. rewrite Z.sub_0_r, !Nat.add_0_r.
    by repeat split.
  - apply Forall_cons in Hall as [(p0 & Hp0 & Hn) Hall].
    assert (∃ c a b n, shape p0 = [c; a; b; n]) as (c & a & b & n & Hs).
    { unfold file_patches in Hp0.
      destruct (load_train_image _ _ _ _) as [img|]; [|done].
      by eapply img_to_patches_ndim. }
    assert (quota_of file = loop_bound n q) as Hquota.
    { unfold file_quota. rewrite Hp0. unfold patch_count. by rewrite Hs. }
    unfold patch_count in Hn. rewrite Hs in Hn. cbn [nth] in Hn.
    destruct (train_loop_cons file files t r w p0 c a b n Hp0 Hs Hfresh)
      as (w1 & p & Hp & _ & Hfs1 & _ & ->).
    set (m := loop_bound n q) in *.
    assert (1 ≤ m) as Hm by (unfold m, loop_bound; lia).
    assert ((0 <? m) = true) as Hm0 by (apply Nat.ltb_lt; lia).
    rewrite Hm0, andb_true_r in *.
    set (f := default ∅ (fs w !! path)) in *.
    set (ds := patch_at p <$> visited 0 m (0 <? r)%Z) in *.
    assert (length ds = m + (if (0 <? r)%Z then 1 else 0)) as Hlen.
    { unfold ds, visited. rewrite length_fmap, length_app, length_seq, Hm0.
      rewrite andb_true_r. destruct (0 <? r)%Z; simpl; lia. }
    assert (default ∅ (fs w1 !! path) = write_seq f t ds) as Hf1.
    { by rewrite Hfs1, lookup_insert_eq. }
    replace (length (visited 0 m (0 <? r)%Z)) with (length ds)
      by (unfold ds; by rewrite length_fmap).
    destruct (IH (t + length ds)
                (if (0 <? r)%Z then (r - 1)%Z else r) w1)
      as (w' & -> & Hsize & Hfresh' & _).
    { done. }
    { destruct (Z.ltb_spec 0 r); lia. }
    { done. }
    { rewrite Hf1. by apply write_seq_fresh. }
    assert (length ds + (sum_list_with quota_of files
              + length files `min` Z.to_nat (if (0 <? r)%Z then (r - 1)%Z else r))
            = total) as Hsum.
    { rewrite Hlen. unfold total, extra. cbn [length sum_list_with].
      rewrite Hquota. destruct (Z.ltb_spec 0 r); lia. }
    exists w'. split; [|split; [|split]].
    + do 4 f_equal; [lia|]. unfold extra. cbn [length].
      destruct (Z.ltb_spec 0 r); lia.
    + rewrite Hsize, Hf1, write_seq_size by done. lia.
    + intros k Hk. apply Hfresh'. lia.
    + intros _. destruct (fs w' !! path) eqn:E; [done|].
      simpl in Hsize. rewrite map_size_empty in Hsize.
      rewrite Hf1, write_seq_size in Hsize by done. lia.
Qed.

(** In such a run no stored entry is ever replaced, and each of the
    first [r] files leaves the same array under two consecutive keys, the
    first of which is the key the file started at. *)
Lemma train_loop_quota_entries (files : list string) :
  ∀ (t : nat) (r : Z) (w : world px),
  (1 ≤ q)%Z → (0 ≤ r)%Z →
  Forall (λ file, ∃ p, patches_of file = Ok p ∧ 1 ≤ patch_count p) files →
  (∀ k, t ≤ k → default ∅ (fs w !! path) !! pretty k = None) →
  ∃ w' res, run_files files t r w = Some (w', Ok res)
    ∧ (∀ key d, default ∅ (fs w !! path) !! key = Some d →
                default ∅ (fs w' !! path) !! key = Some d)
    ∧ (∀ i, i < length files `min` Z.to_nat r →
         let start := t + sum_list_with quota_of (take i files) + i in
         ∃ d, default ∅ (fs w' !! path) !! pretty start = Some d
            ∧ default ∅ (fs w' !! path) !! pretty (start + 1) = Some d).
Proof.
  induction files as [|file files IH]; intros t r w Hq Hr Hall Hfresh.
  - exists w, (t, r). split; [done|]. split; [done|]. simpl. lia.
  - apply Forall_cons in Hall as [(p0 & Hp0 & Hn) Hall].
    assert (∃ c a b n, shape p0 = [c; a; b; n]) as (c & a & b & n & Hs).
    { unfold file_patches in Hp0.
      destruct (load_train_image _ _ _ _) as [img|]; [|done].
      by eapply img_to_patches_ndim. }
    assert (quota_of file = loop_bound n q) as Hquota.
    { unfold file_quota. rewrite Hp0. unfold patch_count. by rewrite Hs. }
    unfold patch_count in Hn. rewrite Hs in Hn. cbn [nth] in Hn.
    destruct (train_loop_cons file files t r w p0 c a b n Hp0 Hs Hfresh)
      as (w1 & p & Hp & _ & Hfs1 & _ & ->).
    set (m := loop_bound n q) in *.
    assert (1 ≤ m) as Hm by (unfold m, loop_bound; lia).
    assert ((0 <? m) = true) as Hm0 by (apply Nat.ltb_lt; lia).
    rewrite Hm0, andb_true_r in *.
    set (f := default ∅ (fs w !! path)) in *.
    set (ds := patch_at p <$> visited 0 m (0 <? r)%Z) in *.
    assert (length ds = m + (if (0 <? r)%Z then 1 else 0)) as Hlen.
    { unfold ds, visited. rewrite length_fmap, length_app, length_seq, Hm0.
      rewrite andb_true_r. destruct (0 <? r)%Z; simpl; lia. }
    assert (default ∅ (fs w1 !! path) = write_seq f t ds) as Hf1.
    { by rewrite Hfs1, lookup_insert_eq. }
    replace (length (visited 0 m (0 <? r)%Z)) with (length ds)
      by (unfold ds; by rewrite length_fmap).
    destruct (IH (t + length ds)
                (if (0 <? r)%Z then (r - 1)%Z else r) w1)
      as (w' & res & -> & Hkeep & Hdup).
    { done. }
    { destruct (Z.ltb_spec 0 r); lia. }
    { done. }
    { rewrite Hf1. by apply write_seq_fresh. }
    exists w', res. split; [done|]. split.
    + intros key d Hkey. apply Hkeep. rewrite Hf1.
      by apply write_seq_preserves.
    + intros i Hi. cbn [length] in Hi.
      destruct (Z.ltb_spec 0 r) as [Hr0|Hr0]; [|lia].
      destruct i as [|i]; cbn zeta.
      * exists (patch_at p 0). cbn [take sum_list_with].
        rewrite !Nat.add_0_r.
        assert (∃ l, seq 0 m = 0 :: l) as [l Hl].
        { destruct m eqn:E; [lia|]. by eexists. }
        split; apply Hkeep; rewrite Hf1;
          [replace (pretty t) with (pretty (t + 0)) by (by rewrite Nat.add_0_r)|];
          apply write_seq_lookup;
          unfold ds, visited; rewrite Hm0, Nat.sub_0_r, Hl; done.
      * destruct (Hdup i) as (d & Hd1 & Hd2); [lia|].
        exists d. rewrite Hlen in Hd1, Hd2. cbn zeta in Hd1, Hd2.
        cbn [take sum_list_with]. rewrite Hquota.
        replace (t + (m + sum_list_with quota_of (take i files)) + S i)
          with (t + (m + 1) + sum_list_with quota_of (take i files) + i) by lia.
        done.
Qed.
End train_loop_facts.



(** ** Termination of the loops of [prepare_data] *)

Section totality.
Context {px : Type} `{Inhabited px}.
Variables (glob : string → list string)
  (cv2_imread : string → option (ndarray Z)) (bgr2gray : Z → Z → Z → Z)
  (normalize_px : Z → px) (zero : px).

Lemma io_bind_total {A B} (m : io px A) (f : A → io px B) (w : world px) :
  is_Some (m w) → (∀ a w', is_Some (f a w')) → is_Some (io_bind m f w).
Proof.
  intros [[w' [a|e]] Hm] Hf; unfold io_bind; rewrite Hm; [apply Hf|done].
Qed.

Lemma h5_create_dataset_total (path name : string) (d : ndarray px) w :
  is_Some (h5_create_dataset path name d w).
Proof. unfold h5_create_dataset. repeat case_match; done. Qed.

Lemma store_patches_total (path : string) (patches : ndarray px) (n : nat)
    (q : Z) (fuel : nat) :
  ∀ (st : store_locals) (w : world px),
  loop_bound n q - nx st + (if picks st then 1 else 0) ≤ fuel →
  is_Some (store_patches fuel path patches n q st w).
Proof.
  induction fuel as [|fuel IH]; intros [nx0 t r ap] w Hfuel;
    cbn [store_patches]; rewrite (loop_test_spec n q);
    cbn [nx train_num reminder already_picked] in *;
    destruct (nx0 <? loop_bound n q) eqn:Hb; try done.
  - apply Nat.ltb_lt in Hb. destruct (picks _); lia.
  - apply Nat.ltb_lt in Hb.
    apply io_bind_total; [done|]. intros d w1.
    apply io_bind_total; [apply h5_create_dataset_total|]. intros _ w2.
    unfold picks in Hfuel. cbn [reminder already_picked] in Hfuel.
    destruct ((0 <? r)%Z && negb ap) eqn:Hpick.
    + apply IH. unfold picks. simpl. rewrite andb_false_r. lia.
    + apply IH. unfold picks. simpl. rewrite Hpick. lia.
Qed.

Lemma train_loop_total (path : string) (gray : bool) (patch_size stride q : Z)
    (files : list string) :
  ∀ (t : nat) (r : Z) (w : world px),
  is_Some (train_loop cv2_imread normalize_px zero path gray patch_size
             stride q files t r w).
Proof.
  induction files as [|file files IH]; intros t r w; [done|].
  cbn [train_loop].
  apply io_bind_total.
  { unfold h5_open_append. by destruct (fs w !! path). }
  intros _ w0. apply io_bind_total; [done|]. intros img w1.
  apply io_bind_total; [done|]. intros p0 w2.
  apply io_bind_total.
  { unfold io_np_random_shuffle. by repeat case_match. }
  intros p w3. apply io_bind_total; [|intros; apply IH].
  apply store_patches_total. unfold loop_bound. cbn [nx].
  destruct (picks _); lia.
Qed.

Lemma val_loop_total (valdbf : string) (gray : bool) (files : list string) :
  ∀ (val_num : nat) (w : world px),
  is_Some (val_loop cv2_imread bgr2gray normalize_px valdbf gray files
             val_num w).
Proof.
  induction files as [|item files IH]; intros val_num w; [done|].
  cbn [val_loop]. apply io_bind_total; [done|]. intros img w1.
  apply io_bind_total; [apply h5_create_dataset_total|]. intros; apply IH.
Qed.

Lemma build_training_database_total data_path patch_size stride train_file
    total_patches gray w :
  is_Some (build_training_database glob cv2_imread normalize_px zero
             data_path patch_size stride train_file total_patches gray w).
Proof.
  unfold build_training_database.
  apply io_bind_total; [done|]. intros q w1.
  apply io_bind_total; [done|]. intros r w2. apply train_loop_total.
Qed.

Lemma build_validation_database_total val_data_path val_file gray w :
  is_Some (build_validation_database glob cv2_imread bgr2gray normalize_px
             val_data_path val_file gray w).
Proof.
  unfold build_validation_database. destruct val_data_path; [|done].
  apply io_bind_total; [done|]. intros; apply val_loop_total.
Qed.
End totality.

(** Whatever the directories hold, a run of prepare_data ends in an
    exception; the loop bounds of the model are never exhausted. *)
Lemma prepare_data_raises {px} `{Inhabited px}
    (glob : string → list string) (cv2_imread : string → option (ndarray Z))
    (bgr2gray : Z → Z → Z → Z) (normalize_px : Z → px) (zero : px)
    (data_path : string) (val_data_path : option string)
    (patch_size stride : Z) (train_file val_file : string)
    (total_patches : Z) (gray_mode : bool) (w : world px) :
  ∃ w' e,
    prepare_data glob cv2_imread bgr2gray normalize_px zero data_path
      val_data_path patch_size stride train_file val_file total_patches
      gray_mode w = Some (w', Raise e).
Proof.
  unfold prepare_data, io_bind.
  destruct (build_training_database_total glob cv2_imread normalize_px zero
              data_path patch_size stride train_file total_patches gray_mode w)
    as [[w1 [tr|e]] ->]; [|by eexists _, _].
  destruct (build_validation_database_total glob cv2_imread bgr2gray
              normalize_px val_data_path val_file gray_mode w1)
    as [[w2 [v|e]] ->]; [|by eexists _, _].
  by eexists _, _.
Qed.

(** When the training and the validation part both succeed, the exception
    is the [NameError] of line 144. *)
Lemma prepare_data_name_error {px} `{Inhabited px}
    (glob : string → list string) (cv2_imread : string → option (ndarray Z))
    (bgr2gray : Z → Z → Z → Z) (normalize_px : Z → px) (zero : px)
    (data_path : string) (val_data_path : option string)
    (patch_size stride : Z) (train_file val_file : string)
    (total_patches : Z) (gray_mode : bool) (w w1 w2 : world px) tr v :
  build_training_database glob cv2_imread normalize_px zero data_path
    patch_size stride train_file total_patches gray_mode w = Some (w1, Ok tr) →
  build_validation_database glob cv2_imread bgr2gray normalize_px
    val_data_path val_file gray_mode w1 = Some (w2, Ok v) →
  prepare_data glob cv2_imread bgr2gray normalize_px zero data_path
    val_data_path patch_size stride train_file val_file total_patches
    gray_mode w = Some (w2, Raise (NameError "train_patches")).
Proof. intros Ht Hv. unfold prepare_data, io_bind. by rewrite Ht, Hv. Qed.


(** ** The validation part leaves the other files alone *)

Section validation_frame.
Context {px : Type} `{Inhabited px}.
Variables (glob : string → list string)
  (cv2_imread : string → option (ndarray Z)) (bgr2gray : Z → Z → Z → Z)
  (normalize_px : Z → px).

Lemma h5_create_dataset_frame (path name other : string) (d : ndarray px)
    (w w' : world px) r :
  other ≠ path → h5_create_dataset path name d w = Some (w', r) →
  fs w' !! other = fs w !! other.
Proof.
  intros Hne. unfold h5_create_dataset.
  repeat case_match; intros; simplify_eq; try done.
  simpl. by rewrite lookup_insert_ne.
Qed.

Lemma val_loop_frame (valdbf other : string) (gray : bool) (files : list string) :
  other ≠ valdbf →
  ∀ (val_num : nat) (w w' : world px) r,
  val_loop cv2_imread bgr2gray normalize_px valdbf gray files val_num w
    = Some (w', r) →
  fs w' !! other = fs w !! other.
Proof.
  intros Hne. induction files as [|item files IH]; intros val_num w w' r.
  - cbn. by intros [= <- _].
  - cbn [val_loop]. unfold io_bind at 1, io_lift at 1.
    destruct (load_val_image _ _ _ _ _) as [img|e]; [|by intros [= <- _]].
    unfold io_bind at 1.
    destruct (h5_create_dataset valdbf _ img w) as [[w1 [[]|e]]|] eqn:Hc;
      [|intros [= <- _]; by eapply h5_create_dataset_frame|done].
    intros Hrun%IH. rewrite Hrun. by eapply h5_create_dataset_frame.
Qed.

Lemma build_validation_database_frame (val_data_path : option string)
    (val_file other : string) (gray : bool) (w w' : world px) r :
  val_data_path = None ∨ other ≠ "dataset/" +:+ val_file →
  build_validation_database glob cv2_imread bgr2gray normalize_px
    val_data_path val_file gray w = Some (w', r) →
  fs w' !! other = fs w !! other.
Proof.
  unfold build_validation_database.
  intros [->|Hne]; [by intros [= <- _]|].
  destruct val_data_path as [v|]; [|by intros [= <- _]].
  unfold io_bind, h5_open_write.
  intros Hrun%(val_loop_frame _ other); [|done].
  rewrite Hrun. simpl. by rewrite lookup_insert_ne.
Qed.
End validation_frame.

Lemma sum_list_with_const {A} (f : A → nat) (k : nat) (l : list A) :
  Forall (λ x, f x = k) l → sum_list_with f l = length l * k.
Proof. induction 1 as [|x l Hx _ IH]; simpl; [done|]. rewrite Hx, IH. lia. Qed.

(** C2 (amended): over n >= 1 training files that each yield at least one
    patch, with floor(T/n) >= 1 and a training store that does not exist
    yet, prepare_data writes to the training store, for the i-th file in
    processing (sorted) order, min(patches of the file, floor(T/n))
    entries, and one more when i < T mod n: exactly the first T mod n
    files receive the extra entry.  The total is the sum of these, and it
    is exactly T when every file yields at least floor(T/n) patches. *)
Theorem prepare_data_allocation {px} `{Inhabited px}
    (glob : string → list string) (cv2_imread : string → option (ndarray Z))
    (bgr2gray : Z → Z → Z → Z) (normalize_px : Z → px) (zero : px)
    (data_path : string) (val_data_path : option string)
    (patch_size stride : Z) (train_file val_file : string)
    (T : Z) (gray_mode : bool) (w : world px)
    (files : list string) (n : nat) (q r : Z) (traindbf : string)
    (quota : string → nat) :
  files = scan_images glob data_path →
  n = length files →
  q = (T / Z.of_nat n)%Z →
  r = (T `mod` Z.of_nat n)%Z →
  traindbf = "dataset/" +:+ train_file →
  quota = file_quota cv2_imread normalize_px zero gray_mode patch_size stride q →
  1 ≤ n → (1 ≤ q)%Z →
  fs w !! traindbf = None →
  val_data_path = None ∨ val_file ≠ train_file →
  Forall (λ file, ∃ p,
            file_patches cv2_imread normalize_px zero gray_mode patch_size
              stride file = Ok p
            ∧ 1 ≤ patch_count p) files →
  (∃ w1 w' e h5f,
      build_training_database glob cv2_imread normalize_px zero data_path
        patch_size stride train_file T gray_mode w
        = Some (w1, Ok (sum_list_with quota files + Z.to_nat r, 0%Z))
    ∧ prepare_data glob cv2_imread bgr2gray normalize_px zero data_path
        val_data_path patch_size stride train_file val_file T gray_mode w
        = Some (w', Raise e)
    ∧ fs w' !! traindbf = Some h5f
    ∧ size h5f = sum_list_with quota files + Z.to_nat r)
  ∧ (∀ i file, files !! i = Some file →
       ∃ w1 w2 t1 r1 t2 r2,
         train_loop cv2_imread normalize_px zero traindbf gray_mode patch_size
           stride q (take i files) 0 r w = Some (w1, Ok (t1, r1))
       ∧ train_loop cv2_imread normalize_px zero traindbf gray_mode patch_size
           stride q (take (S i) files) 0 r w = Some (w2, Ok (t2, r2))
       ∧ t2 = t1 + quota file + (if (Z.of_nat i <? r)%Z then 1 else 0))
  ∧ (Forall (λ file, ∃ p,
               file_patches cv2_imread normalize_px zero gray_mode patch_size
                 stride file = Ok p
               ∧ (q ≤ Z.of_nat (patch_count p))%Z) files →
     sum_list_with quota files + Z.to_nat r = Z.to_nat T).
Proof.
  intros Hfiles Hn Hq Hr Hdbf Hquota Hn1 Hq1 Hnew Hval Hall.
  assert (0 ≤ r < Z.of_nat n)%Z as Hrn by (subst r; apply Z.mod_pos_bound; lia).
  assert (T = Z.of_nat n * q + r)%Z as HT by (subst q r; apply Z.div_mod; lia).
  assert (∀ k : nat, 0 ≤ k → default ∅ (fs w !! traindbf) !! pretty k = None)
    as Hfresh by (intros; by rewrite Hnew).
  split; [|split].
  - destruct (train_loop_quota cv2_imread normalize_px zero traindbf gray_mode
                patch_size stride q files 0 r w) as (w1 & Hrun & Hsize & _ & Hsome);
      [done|lia|done..|].
    cbn zeta in Hrun, Hsize. rewrite <-Hn, <-Hquota in Hrun, Hsize.
    replace (n `min` Z.to_nat r) with (Z.to_nat r) in Hrun, Hsize by lia.
    replace (r - Z.of_nat (Z.to_nat r))%Z with 0%Z in Hrun by lia.
    rewrite Hnew in Hsize. simpl in Hsize, Hrun. rewrite map_size_empty in Hsize.
    destruct Hsome as [h5f Hh5f]; [by destruct files; simpl in *; [lia|]|].
    rewrite Hh5f in Hsize. simpl in Hsize.
    assert (build_training_database glob cv2_imread normalize_px zero data_path
              patch_size stride train_file T gray_mode w
            = Some (w1, Ok (sum_list_with quota files + Z.to_nat r, 0%Z)))
      as Htrain.
    { unfold build_training_database, io_bind, io_lift, py_floordiv, py_mod.
      rewrite <-Hfiles, <-Hn.
      destruct (Z.eqb_spec (Z.of_nat n) 0) as [?|_]; [lia|].
      by rewrite <-Hq, <-Hr, <-Hdbf. }
    destruct (build_validation_database_total glob cv2_imread bgr2gray
                normalize_px val_data_path val_file gray_mode w1)
      as [[w2 rv] Hv].
    assert (fs w2 !! traindbf = Some h5f) as Hh5f2.
    { rewrite <-Hh5f.
      eapply (build_validation_database_frame glob cv2_imread bgr2gray
                normalize_px val_data_path val_file); [|done].
      destruct Hval as [->|Hne]; [by left|right].
      subst traindbf. intros Heq%(inj (String.app _)). done. }
    exists w1, w2.
    assert (∃ e, prepare_data glob cv2_imread bgr2gray normalize_px zero data_path
                   val_data_path patch_size stride train_file val_file T
                   gray_mode w = Some (w2, Raise e)) as [e He].
    { unfold prepare_data, io_bind. rewrite Htrain, Hv.
      destruct rv; by eexists. }
    exists e, h5f. repeat split; try done.
  - intros i file Hi.
    assert (i < n) as Hin by (rewrite Hn; by eapply lookup_lt_Some).
    destruct (train_loop_quota cv2_imread normalize_px zero traindbf gray_mode
                patch_size stride q (take i files) 0 r w) as (w1 & Hrun1 & _);
      [done|lia|by apply Forall_take|done|].
    destruct (train_loop_quota cv2_imread normalize_px zero traindbf gray_mode
                patch_size stride q (take (S i) files) 0 r w) as (w2 & Hrun2 & _);
      [done|lia|by apply Forall_take|done|].
    cbn zeta in Hrun1, Hrun2. rewrite !length_take in Hrun1, Hrun2.
    rewrite <-Hn, <-Hquota in Hrun1, Hrun2.
    rewrite (Nat.min_l i n) in Hrun1 by lia.
    rewrite (Nat.min_l (S i) n) in Hrun2 by lia.
    rewrite (take_S_r _ _ _ Hi), sum_list_with_app in Hrun2.
    cbn [sum_list_with] in Hrun2. rewrite (take_S_r _ _ _ Hi).
    eexists w1, w2, _, _, _, _. split; [done|]. split; [done|].
    destruct (Z.ltb_spec (Z.of_nat i) r); lia.
  - intros Hfull.
    rewrite (sum_list_with_const quota (Z.to_nat q)), <-Hn; [lia|].
    eapply Forall_impl; [exact Hfull|]. intros file (p & Hp & Hle). simpl.
    rewrite Hquota. unfold file_quota, loop_bound. rewrite Hp. lia.
Qed.

(** C10: when the storing loop is entered for a file while reminder > 0
    (the file yields at least one patch and the quota is at least one),
    the first pass stores patches[:, :, :, 0] and takes the remainder
    without advancing nx, and the second pass stores the same patch again:
    the store holds patch 0 under the two consecutive keys str(train_num)
    and str(train_num + 1), followed by patches 1, 2, ... *)
Theorem store_patches_duplicates_first {px} `{Inhabited px} (path : string)
    (patches : ndarray px) (c a b n : nat) (q : Z) (t : nat) (r : Z)
    (w : world px) (f : gmap string (ndarray px)) :
  shape patches = [c; a; b; n] →
  fs w !! path = Some f →
  (∀ k, t ≤ k → f !! pretty k = None) →
  (0 < r)%Z → 1 ≤ n → (1 ≤ q)%Z →
  ∃ w' st' f',
    store_patches (n + 1) path patches n q (StoreLocals 0 t r false) w
      = Some (w', Ok st')
    ∧ reminder st' = (r - 1)%Z
    ∧ nx st' = loop_bound n q
    ∧ train_num st' = t + loop_bound n q + 1
    ∧ fs w' !! path = Some f'
    ∧ f' !! pretty t = Some (patch_at patches 0)
    ∧ f' !! pretty (t + 1) = Some (patch_at patches 0)
    ∧ (∀ k, k < loop_bound n q →
         f' !! pretty (t + 1 + k) = Some (patch_at patches k)).
Proof.
  intros Hs Hf Hfresh Hr Hn Hq.
  destruct (store_patches_spec path patches c a b n q Hs (n + 1)
              (StoreLocals 0 t r false) w f) as (w' & Hrun & Hfs & _).
  { unfold loop_bound. cbn [nx]. destruct (picks _); lia. }
  { done. }
  { done. }
  unfold picks in Hrun, Hfs. cbn [nx train_num reminder already_picked] in *.
  assert (1 ≤ loop_bound n q) as Hm by (unfold loop_bound; lia).
  assert ((0 <? r)%Z = true) as Hr' by (apply Z.ltb_lt; lia).
  assert ((0 <? loop_bound n q) = true) as Hm' by (apply Nat.ltb_lt; lia).
  unfold visited in Hrun, Hfs. rewrite Hr', Hm', Nat.sub_0_r in Hrun, Hfs.
  cbn [andb negb app] in Hrun, Hfs.
  eexists w', _, _. split; [exact Hrun|]. cbn [reminder nx train_num].
  split; [done|]. split; [lia|]. split; [simpl; rewrite length_seq; lia|].
  split; [rewrite Hfs; apply lookup_insert_eq|].
  assert (∀ k, k < loop_bound n q →
            (patch_at patches <$> 0 :: seq 0 (loop_bound n q)) !! (1 + k)
            = Some (patch_at patches k)) as Hlook.
  { intros k Hk. simpl. rewrite list_lookup_fmap, lookup_seq_lt by done. done. }
  split; [|split].
  - replace (pretty t) with (pretty (t + 0)) by (by rewrite Nat.add_0_r).
    by apply write_seq_lookup.
  - apply write_seq_lookup. by apply (Hlook 0).
  - intros k Hk. rewrite <-Nat.add_assoc. apply write_seq_lookup. by apply Hlook.
Qed.

(** X13: when the storing loop is entered for a file while reminder <= 0
    (fresh keys), it stores patch k under the key str(train_num + k) for
    every k below min(patches of the file, quota): no entry is doubled,
    the remainder is left as it is and train_num advances by exactly that
    minimum. *)
Lemma store_patches_no_remainder {px} `{Inhabited px} (path : string)
    (patches : ndarray px) (c a b n : nat) (q : Z) (t : nat) (r : Z)
    (w : world px) (f : gmap string (ndarray px)) :
  shape patches = [c; a; b; n] →
  fs w !! path = Some f →
  (∀ k, t ≤ k → f !! pretty k = None) →
  (r ≤ 0)%Z →
  ∃ w' st' f',
    store_patches (n + 1) path patches n q (StoreLocals 0 t r false) w
      = Some (w', Ok st')
    ∧ reminder st' = r
    ∧ train_num st' = t + loop_bound n q
    ∧ fs w' !! path = Some f'
    ∧ (∀ k, k < loop_bound n q →
         f' !! pretty (t + k) = Some (patch_at patches k)).
Proof.
  intros Hs Hf Hfresh Hr.
  destruct (store_patches_spec path patches c a b n q Hs (n + 1)
              (StoreLocals 0 t r false) w f) as (w' & Hrun & Hfs & _).
  { unfold loop_bound. cbn [nx]. destruct (picks _); lia. }
  { done. }
  { done. }
  unfold picks in Hrun, Hfs. cbn [nx train_num reminder already_picked] in *.
  assert ((0 <? r)%Z = false) as Hr' by (apply Z.ltb_ge; lia).
  unfold visited in Hrun, Hfs. rewrite Hr', Nat.sub_0_r in Hrun, Hfs.
  cbn [andb negb app] in Hrun, Hfs.
  eexists w', _, _. split; [exact Hrun|]. cbn [reminder nx train_num].
  split; [done|]. split; [by rewrite length_seq|].
  split; [rewrite Hfs; apply lookup_insert_eq|].
  intros k Hk. apply write_seq_lookup.
  by rewrite list_lookup_fmap, lookup_seq_lt.
Qed.


(** X14: over a whole run of prepare_data that starts without a training
    store, with a quota of at least one and files that yield a patch each,
    each of the first T mod n files leaves one array under two consecutive
    keys of the training store, the first of which is the key the file
    started at: the extra entry of a file is a copy of its first entry. *)
Lemma prepare_data_duplicate_entries {px} `{Inhabited px}
    (glob : string → list string) (cv2_imread : string → option (ndarray Z))
    (bgr2gray : Z → Z → Z → Z) (normalize_px : Z → px) (zero : px)
    (data_path : string) (val_data_path : option string)
    (patch_size stride : Z) (train_file val_file : string)
    (T : Z) (gray_mode : bool) (w : world px)
    (files : list string) (n : nat) (q r : Z) (traindbf : string)
    (quota : string → nat) :
  files = scan_images glob data_path →
  n = length files →
  q = (T / Z.of_nat n)%Z →
  r = (T `mod` Z.of_nat n)%Z →
  traindbf = "dataset/" +:+ train_file →
  quota = file_quota cv2_imread normalize_px zero gray_mode patch_size stride q →
  1 ≤ n → (1 ≤ q)%Z →
  fs w !! traindbf = None →
  val_data_path = None ∨ val_file ≠ train_file →
  Forall (λ file, ∃ p,
            file_patches cv2_imread normalize_px zero gray_mode patch_size
              stride file = Ok p
            ∧ 1 ≤ patch_count p) files →
  ∃ w' e h5f,
    prepare_data glob cv2_imread bgr2gray normalize_px zero data_path
      val_data_path patch_size stride train_file val_file T gray_mode w
      = Some (w', Raise e)
    ∧ fs w' !! traindbf = Some h5f
    ∧ ∀ i, (Z.of_nat i < r)%Z →
        ∃ d, h5f !! pretty (sum_list_with quota (take i files) + i) = Some d
           ∧ h5f !! pretty (sum_list_with quota (take i files) + i + 1) = Some d.
Proof.
  intros Hfiles Hn Hq Hr Hdbf Hquota Hn1 Hq1 Hnew Hval Hall.
  assert (0 ≤ r < Z.of_nat n)%Z as Hrn by (subst r; apply Z.mod_pos_bound; lia).
  assert (∀ k : nat, 0 ≤ k → default ∅ (fs w !! traindbf) !! pretty k = None)
    as Hfresh by (intros; by rewrite Hnew).
  destruct (train_loop_quota_entries cv2_imread normalize_px zero traindbf
              gray_mode patch_size stride q files 0 r w)
    as (w1 & res & Hrun & _ & Hdup); [done|lia|done..|].
  destruct (build_validation_database_total glob cv2_imread bgr2gray
              normalize_px val_data_path val_file gray_mode w1)
    as [[w2 rv] Hv].
  assert (fs w2 !! traindbf = fs w1 !! traindbf) as Hsame.
  { eapply (build_validation_database_frame glob cv2_imread bgr2gray
              normalize_px val_data_path val_file); [|done].
    destruct Hval as [->|Hne]; [by left|right].
    subst traindbf. intros Heq%(inj (String.app _)). done. }
  assert (∃ e, prepare_data glob cv2_imread bgr2gray normalize_px zero data_path
                 val_data_path patch_size stride train_file val_file T
                 gray_mode w = Some (w2, Raise e)) as [e He].
  { unfold prepare_data, build_training_database, io_bind at 1 2 3, io_lift,
      py_floordiv, py_mod.
    rewrite <-Hfiles, <-Hn.
    destruct (Z.eqb_spec (Z.of_nat n) 0) as [?|_]; [lia|].
    rewrite <-Hq, <-Hr, <-Hdbf, Hrun. unfold io_bind. rewrite Hv.
    destruct rv; by eexists. }
  destruct (train_loop_quota cv2_imread normalize_px zero traindbf gray_mode
              patch_size stride q files 0 r w) as (w1' & Hrun' & _ & _ & Hsome);
    [done|lia|done..|].
  rewrite Hrun in Hrun'. injection Hrun' as <- _.
  destruct Hsome as [h5f Hh5f]; [by destruct files; simpl in *; [lia|]|].
  exists w2, e, h5f. split; [done|]. split; [by rewrite Hsame|].
  intros i Hi. destruct (Hdup i) as (d & Hd1 & Hd2); [lia|].
  cbn zeta in Hd1, Hd2. rewrite Hh5f, <-Hquota in Hd1, Hd2. by exists d.
Qed.

(** ** Broadcasting and assignment *)

Section broadcast_facts.
Context {A : Type} `{Inhabited A}.
Implicit Types (d : list A) (vs ts : list nat).

Lemma broadcast_data_length vs : ∀ ts d,
  length vs = length ts → length (broadcast_data vs ts d) = size_of ts.
Proof.
  induction vs as [|v vs IH]; intros [|t ts] d Hlen; simplify_eq/=; [done|].
  destruct (Nat.eqb_spec v t) as [->|_].
  - rewrite (length_bind_const _ (size_of ts)), length_seq; [done|].
    intros k. by apply IH.
  - rewrite (length_bind_const _ (size_of ts)), length_seq; [done|].
    intros _. by apply IH.
Qed.

(** Cutting a list into blocks and gluing them again. *)
Lemma bind_blocks (F : list A → list A) (m : nat) (v : nat) : ∀ d,
  (∀ blk, length blk = m → F blk = blk) →
  length d = v * m →
  (k ← seq 0 v; F (take m (drop (k * m) d))) = d.
Proof.
  induction v as [|v IH]; intros d HF Hlen.
  - by destruct d.
  - cbn [seq]. rewrite bind_cons, <-fmap_S_seq, list_fmap_bind.
    rewrite Nat.mul_0_l, drop_0, HF by (rewrite length_take; lia).
    rewrite <-(take_drop m d) at 2. f_equal.
    etrans; [|apply (IH (drop m d)); [done|rewrite length_drop; lia]].
    apply list_bind_ext; [|done]. intros k. simpl.
    by rewrite drop_drop.
Qed.

Lemma broadcastable_size vs : ∀ ts,
  broadcastable vs ts = true → size_of ts ≠ 0 →
  size_of vs ≤ size_of ts ∧ size_of vs ≠ 0.
Proof.
  unfold broadcastable.
  induction vs as [|v vs IH]; intros [|t ts] [Hlen Hall]%andb_prop Hts;
    apply bool_decide_eq_true in Hlen; simplify_eq/=; [lia|].
  apply andb_prop in Hall as [Hvt Hall].
  destruct (IH ts) as [Hle Hne]; [|lia|].
  { rewrite Hall, andb_true_r. by apply bool_decide_eq_true. }
  assert (t ≠ 0 ∧ size_of ts ≠ 0) as [??] by lia.
  apply orb_prop in Hvt as [->%Nat.eqb_eq| ->%Nat.eqb_eq]; split; nia.
Qed.

(** A value with as many elements as the target is stored as it is. *)
Lemma broadcast_data_id vs : ∀ ts d,
  broadcastable vs ts = true → size_of vs = size_of ts →
  length d = size_of vs → broadcast_data vs ts d = d.
Proof.
  induction vs as [|v vs IH]; intros [|t ts] d Hb Hsz Hd;
    try (apply andb_prop in Hb as [Hb _]; apply bool_decide_eq_true in Hb;
         done).
  - destruct d as [|x [|]]; done.
  - destruct (decide (size_of (t :: ts) = 0)) as [Hz|Hnz].
    { assert (length (broadcast_data (v :: vs) (t :: ts) d) = 0) as Hl.
      { rewrite broadcast_data_length; [done|].
        apply andb_prop in Hb as [Hb _]. by apply bool_decide_eq_true in Hb. }
      rewrite Hsz, Hz in Hd. destruct d; [|done].
      by apply nil_length_inv. }
    assert (broadcastable vs ts = true) as Hb'.
    { unfold broadcastable in *. apply andb_prop in Hb as [Hlen Hall].
      apply bool_decide_eq_true in Hlen. simpl in Hall.
      apply andb_prop in Hall as [_ ->]. rewrite andb_true_r.
      apply bool_decide_eq_true. by simplify_eq/=. }
    assert (v = t ∨ v = 1) as Hvt.
    { unfold broadcastable in Hb. apply andb_prop in Hb as [_ Hall].
      simpl in Hall. apply andb_prop in Hall as [Hvt _].
      apply orb_prop in Hvt as [?%Nat.eqb_eq|?%Nat.eqb_eq]; auto. }
    simpl in Hsz, Hnz, Hd.
    destruct (broadcastable_size vs ts Hb') as [Hle Hne]; [nia|].
    assert (v = t) as -> by (destruct Hvt; [done|nia]).
    cbn [broadcast_data]. rewrite Nat.eqb_refl.
    apply bind_blocks; [|done].
    intros blk Hblk. apply IH; [done|nia|done].
Qed.
End broadcast_facts.


Section setitem_facts.
Context {A : Type} `{Inhabited A}.

Lemma size_of_app (s1 s2 : list nat) :
  size_of (s1 ++ s2) = size_of s1 * size_of s2.
Proof. induction s1 as [|x s1 IH]; simpl; [lia|]. rewrite IH. lia. Qed.

Lemma size_of_replicate_1 (k : nat) : size_of (replicate k 1) = 1.
Proof. induction k as [|k IH]; simpl; [done|]. rewrite IH. lia. Qed.

Lemma size_of_squeeze (s : list nat) : size_of (filter (λ d, d ≠ 1) s) = size_of s.
Proof.
  induction s as [|x s IH]; [done|].
  rewrite filter_cons. destruct (decide (x ≠ 1)) as [?|Hx]; simpl; [by rewrite IH|].
  assert (x = 1) as -> by lia. rewrite IH. lia.
Qed.

Lemma size_of_strip_leading_ones (k : nat) : ∀ s,
  size_of (strip_leading_ones k s) = size_of s.
Proof.
  induction k as [|k IH]; intros [|x s]; try done.
  destruct x as [|[|x]]; try done. simpl. rewrite IH. lia.
Qed.

Lemma np_broadcast_to_length (v b : ndarray A) (ts : list nat) :
  np_broadcast_to v ts = Ok b → shape b = ts ∧ length (data b) = size_of ts.
Proof.
  unfold np_broadcast_to. destruct (broadcastable _ _) eqn:Hb; [|done].
  intros [= <-]. split; [done|]. simpl. apply broadcast_data_length.
  apply andb_prop in Hb as [Hb _]. by apply bool_decide_eq_true in Hb.
Qed.

(** Storing [expand_dims(squeeze(x), 0)] in a slot of the shape of [x]
    stores [x]. *)
Lemma np_broadcast_to_squeezed (x b : ndarray A) :
  well_formed x →
  np_broadcast_to (np_expand_dims_0 (np_squeeze x)) (shape x) = Ok b →
  b = x.
Proof.
  intros Hwf. unfold np_broadcast_to.
  destruct (broadcastable _ _) eqn:Hb; [|done]. intros [= <-].
  rewrite broadcast_data_id; [by destruct x|done|..].
  - rewrite size_of_app, size_of_replicate_1, size_of_strip_leading_ones.
    simpl. rewrite size_of_squeeze. lia.
  - rewrite size_of_app, size_of_replicate_1, size_of_strip_leading_ones.
    simpl. rewrite size_of_squeeze. unfold well_formed in Hwf. lia.
Qed.

Lemma np_setitem_spec (a a' v : ndarray A) (i n : nat) (slot : list nat) :
  np_setitem a i v = Ok a' →
  shape a = n :: slot → length (data a) = n * size_of slot →
  ∃ b, np_broadcast_to v slot = Ok b
     ∧ i < n
     ∧ shape a' = n :: slot
     ∧ length (data a') = n * size_of slot
     ∧ sub_array a' i = b
     ∧ ∀ j, j ≠ i → sub_array a' j = sub_array a j.
Proof.
  intros Hset Hs Hlen. unfold np_setitem in Hset. rewrite Hs in Hset.
  destruct (Nat.ltb_spec i n) as [Hi|?]; [|done].
  destruct (np_broadcast_to v slot) as [b|] eqn:Hb; [|done].
  cbn [mbind result_bind] in Hset. injection Hset as <-.
  destruct (np_broadcast_to_length _ _ _ Hb) as [Hbs Hbl].
  set (m := size_of slot) in *.
  assert (length (take (i * m) (data a)) = i * m) as Hpre
    by (rewrite length_take; nia).
  exists b. split; [done|]. split; [done|]. split; [done|].
  split; [|split].
  - simpl. rewrite !length_app, Hpre, Hbl, length_drop. nia.
  - unfold sub_array. cbn [tail shape data]. fold m.
    rewrite drop_app_length' by done.
    rewrite take_app_length' by done. rewrite <-Hbs. by destruct b.
  - intros j Hj. unfold sub_array. rewrite Hs. cbn [tail shape data]. fold m.
    f_equal. apply list_eq. intros k.
    destruct (decide (k < m)) as [Hk|Hk];
      [|by rewrite !lookup_take_ge by lia].
    rewrite !lookup_take_lt, !lookup_drop by done.
    destruct (decide (j < i)) as [Hji|Hji].
    + rewrite lookup_app_l by (rewrite Hpre; nia).
      apply lookup_take_lt. nia.
    + rewrite lookup_app_r by (rewrite Hpre; nia).
      rewrite lookup_app_r by (rewrite Hpre, Hbl; nia).
      rewrite lookup_drop, Hpre, Hbl. f_equal. nia.
Qed.

Lemma sub_array_scalar (a : ndarray A) (i : nat) (x : A) :
  shape a = [length (data a)] →
  sub_array a i = NDArray [] [x] → data a !! i = Some x.
Proof.
  unfold sub_array. intros -> [= Hx]. simpl in Hx.
  rewrite Nat.mul_1_r in Hx.
  destruct (drop i (data a)) as [|y l] eqn:Hd; [done|].
  injection Hx as ->. rewrite <-(Nat.add_0_r i), <-lookup_drop. by rewrite Hd.
Qed.
End setitem_facts.


(** ** The loop of [estimate_noise] *)

Section estimate_noise_facts.
Variable wiener : ndarray float → nat * nat → result (ndarray float).
Variable denoise_wavelet :
  ndarray float → bool → bool → string → result (ndarray float).
Variable estimate_sigma : ndarray float → result float.
Variable np_sum : ndarray float → float.
Variable uninitialized : nat → float.
Variable Estimator_dict_keys : list string.
Variables (image_list : py_images) (method : Estimator)
  (wiener_kernel_size : nat * nat) (multichannel convert2ycbcr : bool)
  (wavelet_method : string).

Abbreviation loop_body :=
  (estimate_noise_body wiener denoise_wavelet estimate_sigma np_sum
     image_list method wiener_kernel_size multichannel convert2ycbcr
     wavelet_method).
Abbreviation sample :=
  (sample_estimate wiener denoise_wavelet estimate_sigma np_sum
     image_list method wiener_kernel_size multichannel convert2ycbcr
     wavelet_method).

Lemma estimate_noise_body_spec (fi ns fi' ns' : ndarray float) (i : nat) :
  loop_body (fi, ns) i = Ok (fi', ns') →
  ∃ v sig, sample i = Ok (v, sig)
         ∧ np_setitem fi i v = Ok fi'
         ∧ np_setitem ns i (NDArray [] [sig]) = Ok ns'.
Proof.
  unfold estimate_noise_body, sample_estimate.
  destruct (get_image image_list i) as [x|]; [|done].
  cbn [mbind result_bind].
  destruct (apply_filter _ _ _ _ _ _ _ _) as [filt|]; [|done].
  cbn [mbind result_bind].
  destruct (if negb _ then _ else _) as [sig|]; [|done].
  cbn [mbind result_bind].
  destruct (np_setitem fi i _) as [fi1|] eqn:Hfi; [|done].
  cbn [mbind result_bind].
  destruct (np_setitem ns i _) as [ns1|] eqn:Hns; [|done].
  cbn [mbind result_bind]. intros [= <- <-]. by eexists _, _.
Qed.

Lemma estimate_noise_loop (n : nat) (slot : list nat) (l : list nat) :
  ∀ (fi ns fi' ns' : ndarray float),
  foldM loop_body (fi, ns) l = Ok (fi', ns') →
  shape fi = n :: slot → length (data fi) = n * size_of slot →
  shape ns = [n] → length (data ns) = n →
  NoDup l →
  (shape ns' = [n] ∧ length (data ns') = n)
  ∧ (∀ j, j ∉ l →
       sub_array fi' j = sub_array fi j ∧ sub_array ns' j = sub_array ns j)
  ∧ (∀ j, j ∈ l →
       ∃ v sig b, sample j = Ok (v, sig)
                ∧ np_broadcast_to v slot = Ok b
                ∧ sub_array fi' j = b
                ∧ sub_array ns' j = NDArray [] [sig]).
Proof.
  induction l as [|i l IH]; intros fi ns fi' ns' Hrun Hfs Hfl Hns Hnl Hnd.
  - injection Hrun as <- <-. split; [done|]. split; [done|].
    intros j Hj. by apply not_elem_of_nil in Hj.
  - cbn [foldM] in Hrun.
    destruct (loop_body (fi, ns) i) as [[fi1 ns1]|] eqn:Hbody; [|done].
    cbn [mbind result_bind] in Hrun.
    apply estimate_noise_body_spec in Hbody as (v & sig & Hv & Hset1 & Hset2).
    destruct (np_setitem_spec _ _ _ _ n slot Hset1 Hfs Hfl)
      as (b & Hb & Hi & Hfs1 & Hfl1 & Hsub1 & Hother1).
    destruct (np_setitem_spec _ _ _ _ n [] Hset2 Hns)
      as (b2 & Hb2 & _ & Hns1 & Hnl1 & Hsub2 & Hother2); [simpl; lia|].
    assert (b2 = NDArray [] [sig]) as -> by (by injection Hb2 as <-).
    simpl in Hnl1. rewrite Nat.mul_1_r in Hnl1.
    apply NoDup_cons in Hnd as [Hil Hnd].
    destruct (IH fi1 ns1 fi' ns' Hrun Hfs1 Hfl1 Hns1 Hnl1 Hnd)
      as (Hshape & Hout & Hin).
    split; [done|]. split.
    + intros j [Hji Hjl]%not_elem_of_cons.
      destruct (Hout j Hjl) as [-> ->]. by rewrite Hother1, Hother2.
    + intros j [->|Hjl]%elem_of_cons; [|by apply Hin].
      destruct (Hout i Hil) as [-> ->]. by exists v, sig, b.
Qed.

(** What a successful call returns for sample [i]. *)
Lemma estimate_noise_sample (fi ns : ndarray float) (n c w h i : nat) :
  multichannel = (1 <? h) →
  estimate_noise wiener denoise_wavelet estimate_sigma np_sum uninitialized
    Estimator_dict_keys image_list (MethodEstimator method)
    wiener_kernel_size convert2ycbcr wavelet_method = Ok (fi, ns) →
  batch_dims image_list = Ok (n, c, w, h) →
  i < n →
  ∃ v sig b, sample i = Ok (v, sig)
           ∧ np_broadcast_to v [c; w; h] = Ok b
           ∧ sub_array fi i = b
           ∧ data ns !! i = Some sig.
Proof.
  intros Hmc Hrun Hdims Hi. unfold estimate_noise in Hrun.
  destruct (_ && _); [done|]. rewrite Hdims in Hrun.
  cbn [mbind result_bind] in Hrun. rewrite <-Hmc in Hrun.
  destruct (estimate_noise_loop n [c; w; h] (seq 0 n) _ _ _ _ Hrun)
    as ((Hns & Hnl) & _ & Hin).
  { done. }
  { unfold np_ndarray. simpl. by rewrite length_fmap, length_seq. }
  { done. }
  { unfold np_ndarray. simpl. rewrite length_fmap, length_seq. lia. }
  { apply NoDup_seq. }
  destruct (Hin i) as (v & sig & b & Hv & Hb & Hsub & Hsig).
  { apply elem_of_seq. lia. }
  exists v, sig, b. repeat split; try done.
  apply sub_array_scalar; [by rewrite Hns, Hnl|done].
Qed.

(** The call returns when the configuration is valid and every sample
    passes the filter and the estimator and fits its slot. *)
Lemma estimate_noise_body_ok (fi ns : ndarray float) (n i : nat)
    (slot : list nat) (v b : ndarray float) (sig : float) :
  shape fi = n :: slot → shape ns = [n] → i < n →
  sample i = Ok (v, sig) → np_broadcast_to v slot = Ok b →
  ∃ fi' ns', loop_body (fi, ns) i = Ok (fi', ns')
           ∧ shape fi' = n :: slot ∧ shape ns' = [n].
Proof.
  intros Hfs Hns Hi Hv Hb. unfold sample_estimate in Hv.
  unfold estimate_noise_body.
  destruct (get_image image_list i) as [x|]; [|done].
  cbn [mbind result_bind] in *.
  destruct (apply_filter _ _ _ _ _ _ _ _) as [filt|]; [|done].
  cbn [mbind result_bind] in *.
  destruct (if negb _ then _ else _) as [sig'|]; [|done].
  cbn [mbind result_bind] in *. injection Hv as <- <-.
  unfold np_setitem. rewrite Hfs, Hns.
  destruct (Nat.ltb_spec i n) as [_|?]; [|lia].
  rewrite Hb. cbn [mbind result_bind]. by eexists _, _.
Qed.

Lemma estimate_noise_loop_ok (n : nat) (slot : list nat) (l : list nat) :
  ∀ (fi ns : ndarray float),
  shape fi = n :: slot → shape ns = [n] →
  Forall (λ i, i < n ∧ ∃ v sig b, sample i = Ok (v, sig)
                                ∧ np_broadcast_to v slot = Ok b) l →
  ∃ res, foldM loop_body (fi, ns) l = Ok res.
Proof.
  induction l as [|i l IH]; intros fi ns Hfs Hns Hall; [by eexists|].
  apply Forall_cons in Hall as [(Hi & v & sig & b & Hv & Hb) Hall].
  destruct (estimate_noise_body_ok fi ns n i slot v b sig)
    as (fi' & ns' & Hbody & Hfs' & Hns'); [done..|].
  cbn [foldM]. rewrite Hbody. cbn [mbind result_bind]. by apply IH.
Qed.

(** X26: estimate_noise returns a pair of arrays whenever the
    configuration is valid, the batch has its four dimensions, and for
    every sample the image can be read, the filter and (without NaN) the
    sigma estimator succeed and the result fits the slot of the sample. *)
Lemma estimate_noise_returns (n c w h : nat) :
  multichannel = (1 <? h) →
  ¬ (method = WAVELET ∧ wavelet_method ∉ wavelet_options) →
  batch_dims image_list = Ok (n, c, w, h) →
  (∀ i, i < n → ∃ v sig b, sample i = Ok (v, sig)
                         ∧ np_broadcast_to v [c; w; h] = Ok b) →
  ∃ filtered_images noises,
    estimate_noise wiener denoise_wavelet estimate_sigma np_sum uninitialized
      Estimator_dict_keys image_list (MethodEstimator method)
      wiener_kernel_size convert2ycbcr wavelet_method
    = Ok (filtered_images, noises).
Proof.
  intros Hmc Hcfg Hdims Hall. unfold estimate_noise.
  destruct (bool_decide (method = WAVELET)
            && negb (bool_decide (wavelet_method ∈ wavelet_options))) eqn:Hc.
  { apply andb_prop in Hc as [Hm%bool_decide_eq_true Hw%negb_true_iff].
    apply bool_decide_eq_false in Hw. by destruct Hcfg. }
  rewrite Hdims. cbn [mbind result_bind]. rewrite <-Hmc.
  destruct (estimate_noise_loop_ok n [c; w; h] (seq 0 n)
              (np_ndarray uninitialized [n; c; w; h])
              (np_ndarray uninitialized [n])) as [[fi ns] Hrun]; [done..| |].
  { apply Forall_forall. intros i Hi%elem_of_seq. split; [lia|].
    apply Hall. lia. }
  by exists fi, ns.
Qed.
End estimate_noise_facts.


(** A value that has as many elements as the slot is stored element for
    element. *)
Lemma np_broadcast_to_same_size {A} `{Inhabited A} (v b : ndarray A)
    (ts : list nat) :
  well_formed v → size_of (shape v) = size_of ts →
  np_broadcast_to v ts = Ok b → b = NDArray ts (data v).
Proof.
  intros Hwf Hsz. unfold np_broadcast_to.
  destruct (broadcastable _ _) eqn:Hb; [|done]. intros [= <-].
  rewrite broadcast_data_id; [done|done|..];
    rewrite size_of_app, size_of_replicate_1, size_of_strip_leading_ones;
    unfold well_formed in Hwf; lia.
Qed.

(** C4: in both filter modes, in a call that returns, a sample whose
    filtered result has a NaN sum comes back as the input image of that
    sample with sigma exactly 0; a sample whose filtered result has no NaN
    sum comes back as the filtered result (stored element for element when
    it has as many elements as the image) with the sigma estimate computed
    on the other branch. *)
Theorem estimate_noise_nan_fallback
    (wiener : ndarray float → nat * nat → result (ndarray float))
    (denoise_wavelet : ndarray float → bool → bool → string → result (ndarray float))
    (estimate_sigma : ndarray float → result float)
    (np_sum : ndarray float → float) (uninitialized : nat → float)
    (Estimator_dict_keys : list string)
    (image_list : py_images) (method : Estimator)
    (wiener_kernel_size : nat * nat) (convert2ycbcr : bool)
    (wavelet_method : string)
    (filtered_images noises : ndarray float) (n c w h i : nat)
    (image filtered : ndarray float) :
  estimate_noise wiener denoise_wavelet estimate_sigma np_sum uninitialized
    Estimator_dict_keys image_list (MethodEstimator method)
    wiener_kernel_size convert2ycbcr wavelet_method
    = Ok (filtered_images, noises) →
  batch_dims image_list = Ok (n, c, w, h) →
  i < n →
  get_image image_list i = Ok image →
  shape image = [c; w; h] → well_formed image →
  apply_filter wiener denoise_wavelet method wiener_kernel_size (1 <? h)
    convert2ycbcr wavelet_method (np_squeeze image) = Ok filtered →
  (is_nan (np_sum filtered) = true →
     sub_array filtered_images i = image
     ∧ data noises !! i = Some 0%float)
  ∧ (is_nan (np_sum filtered) = false →
     ∃ sigma stored,
       estimate_sigma (np_squeeze image) = Ok sigma
       ∧ data noises !! i = Some sigma
       ∧ np_broadcast_to (np_expand_dims_0 filtered) [c; w; h] = Ok stored
       ∧ sub_array filtered_images i = stored
       ∧ (well_formed filtered → size_of (shape filtered) = c * w * h →
          stored = NDArray [c; w; h] (data filtered))).
Proof.
  intros Hrun Hdims Hi Himg Hshape Hwf Hfilt.
  destruct (estimate_noise_sample _ _ _ _ _ _ _ _ _ (1 <? h) _ _
              _ _ n c w h i eq_refl Hrun Hdims Hi)
    as (v & sig & b & Hv & Hb & Hsub & Hsig).
  unfold sample_estimate in Hv. rewrite Himg in Hv.
  cbn [mbind result_bind] in Hv. rewrite Hfilt in Hv.
  cbn [mbind result_bind] in Hv.
  split; intros Hnan; rewrite Hnan in Hv; cbn [negb mbind result_bind] in Hv.
  - injection Hv as <- <-. split; [|done]. rewrite Hsub.
    rewrite <-Hshape in Hb. by apply np_broadcast_to_squeezed in Hb.
  - destruct (estimate_sigma (np_squeeze image)) as [sigma|]; [|done].
    cbn [mbind result_bind] in Hv. injection Hv as <- <-.
    exists sigma, b. repeat split; try done.
    intros Hwff Hsz. apply np_broadcast_to_same_size in Hb; [done|..].
    + unfold well_formed in *. simpl. lia.
    + simpl. lia.
Qed.

(** C6 (amended): in both filter modes, for a sample whose filtered result
    has no NaN sum, the sigma returned is the result of the sigma
    estimator applied to the (squeezed) noisy input image itself; the
    filtered result enters only through the NaN test. *)
Theorem estimate_noise_sigma_of_noisy_image
    (wiener : ndarray float → nat * nat → result (ndarray float))
    (denoise_wavelet : ndarray float → bool → bool → string → result (ndarray float))
    (estimate_sigma : ndarray float → result float)
    (np_sum : ndarray float → float) (uninitialized : nat → float)
    (Estimator_dict_keys : list string)
    (image_list : py_images) (method : Estimator)
    (wiener_kernel_size : nat * nat) (convert2ycbcr : bool)
    (wavelet_method : string)
    (filtered_images noises : ndarray float) (n c w h i : nat)
    (image filtered : ndarray float) :
  estimate_noise wiener denoise_wavelet estimate_sigma np_sum uninitialized
    Estimator_dict_keys image_list (MethodEstimator method)
    wiener_kernel_size convert2ycbcr wavelet_method
    = Ok (filtered_images, noises) →
  batch_dims image_list = Ok (n, c, w, h) →
  i < n →
  get_image image_list i = Ok image →
  apply_filter wiener denoise_wavelet method wiener_kernel_size (1 <? h)
    convert2ycbcr wavelet_method (np_squeeze image) = Ok filtered →
  is_nan (np_sum filtered) = false →
  ∃ sigma, estimate_sigma (np_squeeze image) = Ok sigma
         ∧ data noises !! i = Some sigma.
Proof.
  intros Hrun Hdims Hi Himg Hfilt Hnan.
  destruct (estimate_noise_sample _ _ _ _ _ _ _ _ _ (1 <? h) _ _
              _ _ n c w h i eq_refl Hrun Hdims Hi)
    as (v & sig & b & Hv & _ & _ & Hsig).
  unfold sample_estimate in Hv. rewrite Himg in Hv.
  cbn [mbind result_bind] in Hv. rewrite Hfilt in Hv.
  cbn [mbind result_bind] in Hv. rewrite Hnan in Hv.
  cbn [negb mbind result_bind] in Hv.
  destruct (estimate_sigma (np_squeeze image)) as [sigma|]; [|done].
  cbn [mbind result_bind] in Hv. injection Hv as _ <-. by exists sigma.
Qed.

(** C7 (amended): with a method that is no member of Estimator, or with
    the wavelet estimator and a wavelet_method outside the two recognised
    variants, estimate_noise raises an AssertionError whatever the images
    and whatever the filters would do; the message is fixed text followed
    by the allowed names, and it does not depend on the rejected value. *)
Theorem estimate_noise_rejects_configuration
    (wiener : ndarray float → nat * nat → result (ndarray float))
    (denoise_wavelet : ndarray float → bool → bool → string → result (ndarray float))
    (estimate_sigma : ndarray float → result float)
    (np_sum : ndarray float → float) (uninitialized : nat → float)
    (Estimator_dict_keys : list string)
    (image_list : py_images) (method : py_method)
    (wiener_kernel_size : nat * nat) (convert2ycbcr : bool)
    (wavelet_method : string) :
  (∃ repr, method = MethodOther repr)
  ∨ (method = MethodEstimator WAVELET ∧ wavelet_method ∉ wavelet_options) →
  estimate_noise wiener denoise_wavelet estimate_sigma np_sum uninitialized
    Estimator_dict_keys image_list method wiener_kernel_size convert2ycbcr
    wavelet_method
  = Raise (AssertionError
             match method with
             | MethodOther _ => unknown_estimator_message Estimator_dict_keys
             | MethodEstimator _ => unknown_wavelet_message
             end)
  ∧ unknown_estimator_message Estimator_dict_keys
    = "Unknown noise estimator, please specify one of those listed in "
      +:+ py_str_list (filter (λ i, is_public_name i = true) Estimator_dict_keys)
  ∧ unknown_wavelet_message
    = "Unknown wavelet method, please specify one of those listed in ['BayesShrink', 'VisuShrink']".
Proof.
  intros [[repr ->]|[-> Hwm]]; (split; [|done]); [done|].
  unfold estimate_noise. rewrite bool_decide_eq_true_2 by done.
  by rewrite (bool_decide_eq_false_2 _ Hwm).
Qed.


(** ** Shuffling permutes *)

Lemma swap_Permutation {A} (x : list A) (i j : nat) : swap x i j ≡ₚ x.
Proof.
  unfold swap. destruct (x !! i) as [a|] eqn:Hi; [|done].
  destruct (x !! j) as [b|] eqn:Hj; [|done].
  by apply (Permutation_insert_swap x j i b a).
Qed.

Lemma shuffle_from_Permutation {A} (i : nat) : ∀ (g : rng) (x : list A),
  (shuffle_from i g x).1 ≡ₚ x.
Proof.
  induction i as [|i IH]; intros g x; [done|].
  cbn [shuffle_from]. destruct (rand_below (S (S i)) g) as [j g'].
  rewrite IH. apply swap_Permutation.
Qed.

Lemma random_shuffle_Permutation {A} (g : rng) (x : list A) :
  (random_shuffle g x).1 ≡ₚ x.
Proof. apply shuffle_from_Permutation. Qed.

(** ** [Dataset] *)

Section dataset_facts.
Context {px : Type}.
Implicit Types (self : Dataset) (w : world px)
  (f : gmap string (ndarray px)).

Lemma h5_keys_Permutation f : h5_keys f ≡ₚ (map_to_list f).*1.
Proof. apply merge_sort_Permutation. Qed.

Lemma h5_keys_length f : length (h5_keys f) = size f.
Proof.
  by rewrite h5_keys_Permutation, length_fmap, length_map_to_list.
Qed.

Lemma h5_keys_lookup f key : key ∈ h5_keys f → is_Some (f !! key).
Proof.
  rewrite h5_keys_Permutation. intros [[k d] [-> Hkd]]%list_elem_of_fmap.
  apply elem_of_map_to_list in Hkd. by exists d.
Qed.

(** What [__init__] returns on an existing file. *)
Lemma Dataset_init_spec (path : string) (tr gm shuffle : bool) w f :
  fs w !! path = Some f →
  ∃ w' self,
    Dataset_init path tr gm shuffle w = Some (w', Ok self)
    ∧ fs w' = fs w
    ∧ dbf self = path
    ∧ keys self ≡ₚ h5_keys f
    ∧ (shuffle = false → w' = w ∧ keys self = h5_keys f).
Proof.
  intros Hf. unfold Dataset_init, io_bind, h5_open_read. rewrite Hf.
  destruct shuffle.
  - unfold io_random_shuffle.
    destruct (random_shuffle (py_rng w) (h5_keys f)) as [ks g] eqn:Hsh.
    eexists _, _. split; [done|]. repeat split; try done.
    simpl. change ks with (ks, g).1. rewrite <-Hsh.
    apply random_shuffle_Permutation.
  - eexists _, _. split; [done|]. by repeat split.
Qed.

Lemma py_list_get_nat {A} (l : list A) (i : nat) :
  py_list_get l (Z.of_nat i)
  = match l !! i with Some x => Ok x | None => Raise IndexError end.
Proof.
  unfold py_list_get.
  destruct (Z.ltb_spec (Z.of_nat i) 0) as [?|_]; [lia|].
  destruct (Z.leb_spec 0 (Z.of_nat i)) as [_|?]; [|lia].
  rewrite Nat2Z.id.
  destruct (Z.ltb_spec (Z.of_nat i) (Z.of_nat (length l))) as [?|Hge]; [done|].
  simpl. by rewrite lookup_ge_None_2 by lia.
Qed.

Lemma py_list_get_negative {A} (l : list A) (index : Z) :
  (- Z.of_nat (length l) ≤ index < 0)%Z →
  py_list_get l index
  = py_list_get l (Z.of_nat (Z.to_nat (index + Z.of_nat (length l)))).
Proof.
  intros Hi. rewrite py_list_get_nat. unfold py_list_get.
  destruct (Z.ltb_spec index 0) as [_|?]; [|lia].
  destruct (Z.leb_spec 0 (index + Z.of_nat (length l))) as [_|?]; [|lia].
  destruct (Z.ltb_spec (index + Z.of_nat (length l)) (Z.of_nat (length l)))
    as [_|?]; [done|lia].
Qed.

Lemma py_list_get_out_of_range {A} (l : list A) (index : Z) :
  (Z.of_nat (length l) ≤ index ∨ index < - Z.of_nat (length l))%Z →
  py_list_get l index = Raise IndexError.
Proof.
  intros Hi. unfold py_list_get.
  destruct (Z.ltb_spec index 0).
  - destruct (Z.leb_spec 0 (index + Z.of_nat (length l))); [lia|done].
  - destruct (Z.leb_spec 0 index); [|lia].
    destruct (Z.ltb_spec index (Z.of_nat (length l))); [lia|done].
Qed.

Lemma Dataset_getitem_spec self w f (index : Z) :
  fs w !! dbf self = Some f →
  Dataset_getitem self index w
  = Some (w, key ← py_list_get (keys self) index; h5_get f key).
Proof.
  intros Hf. unfold Dataset_getitem, io_bind, h5_open_read, io_lift, io_ret.
  rewrite Hf. destruct (py_list_get (keys self) index) as [key|]; [|done].
  simpl. by destruct (h5_get f key).
Qed.

(** The values obtained over all positions are the stored values of the
    keys, in the order of the handle. *)
Lemma get_value_all self w f :
  fs w !! dbf self = Some f →
  (λ i : nat, get_value self w (Z.of_nat i)) <$> seq 0 (Dataset_len self)
  = (λ key, Some (h5_get f key)) <$> keys self.
Proof.
  intros Hf. unfold Dataset_len. apply list_eq. intros i.
  rewrite !list_lookup_fmap.
  destruct (decide (i < length (keys self))) as [Hi|Hi].
  - rewrite lookup_seq_lt by done. simpl.
    unfold get_value. rewrite (Dataset_getitem_spec _ _ f) by done.
    rewrite py_list_get_nat.
    destruct (lookup_lt_is_Some_2 (keys self) i Hi) as [key ->]. done.
  - rewrite lookup_seq_ge by lia. by rewrite lookup_ge_None_2 by lia.
Qed.
End dataset_facts.


(** C8 (amended): for a handle opened on a store, with N = len(handle),
    get fails with IndexError for every index >= N and every index < -N;
    for 0 <= index < N it returns the stored entry of the key at that
    position, and for -N <= index < 0 the stored entry of the key at
    position index + N. *)
Theorem Dataset_getitem_index {px} (path : string) (tr gm shuffle : bool)
    (w0 w1 w : world px) (self : Dataset) (f : gmap string (ndarray px))
    (index : Z) :
  fs w0 !! path = Some f →
  Dataset_init path tr gm shuffle w0 = Some (w1, Ok self) →
  fs w !! path = Some f →
  Dataset_len self = size f
  ∧ ((Z.of_nat (size f) ≤ index ∨ index < - Z.of_nat (size f))%Z →
     Dataset_getitem self index w = Some (w, Raise IndexError))
  ∧ ((0 ≤ index < Z.of_nat (size f))%Z →
     ∃ key d, keys self !! Z.to_nat index = Some key
            ∧ f !! key = Some d
            ∧ Dataset_getitem self index w = Some (w, Ok d))
  ∧ ((- Z.of_nat (size f) ≤ index < 0)%Z →
     ∃ key d, keys self !! Z.to_nat (index + Z.of_nat (size f)) = Some key
            ∧ f !! key = Some d
            ∧ Dataset_getitem self index w = Some (w, Ok d)).
Proof.
  intros Hf0 Hinit Hf.
  destruct (Dataset_init_spec path tr gm shuffle w0 f Hf0)
    as (w1' & self' & Hinit' & _ & Hdbf & Hkeys & _).
  rewrite Hinit in Hinit'. injection Hinit' as <- <-.
  assert (length (keys self) = size f) as Hlen
    by (by rewrite Hkeys, h5_keys_length).
  rewrite <-Hdbf in Hf.
  assert (∀ i : nat, i < size f →
            ∃ key d, keys self !! i = Some key ∧ f !! key = Some d
                   ∧ Dataset_getitem self (Z.of_nat i) w = Some (w, Ok d))
    as Hget.
  { intros i Hi.
    destruct (lookup_lt_is_Some_2 (keys self) i) as [key Hkey]; [lia|].
    destruct (h5_keys_lookup f key) as [d Hd].
    { rewrite <-Hkeys. by eapply list_elem_of_lookup_2. }
    exists key, d. split; [done|]. split; [done|].
    rewrite (Dataset_getitem_spec _ _ f) by done.
    rewrite py_list_get_nat, Hkey. simpl. unfold h5_get. by rewrite Hd. }
  split; [done|]. split; [|split].
  - intros Hout. rewrite (Dataset_getitem_spec _ _ f) by done.
    rewrite py_list_get_out_of_range by (rewrite Hlen; lia). done.
  - intros Hin. destruct (Hget (Z.to_nat index)) as (key & d & ? & ? & Hg); [lia|].
    rewrite Z2Nat.id in Hg by lia. by exists key, d.
  - intros Hin.
    destruct (Hget (Z.to_nat (index + Z.of_nat (size f))))
      as (key & d & ? & ? & Hg); [lia|].
    exists key, d. split; [done|]. split; [done|].
    rewrite (Dataset_getitem_spec _ _ f) in Hg |- * by done.
    rewrite py_list_get_negative by (rewrite Hlen; lia). by rewrite Hlen.
Qed.

(** C9: on an existing store, the handle opened with shuffle=False has as
    many positions as the store has entries, and so has the handle opened
    with shuffle=True; the values get returns over the positions
    0..N-1 of the shuffled handle are a permutation of those of the
    unshuffled one, and each is a stored entry. *)
Theorem Dataset_shuffle_multiset {px} (path : string) (tr gm : bool)
    (w : world px) (f : gmap string (ndarray px)) :
  fs w !! path = Some f →
  ∃ plain shuffled w',
    Dataset_init path tr gm false w = Some (w, Ok plain)
    ∧ Dataset_len plain = size f
    ∧ Dataset_init path tr gm true w = Some (w', Ok shuffled)
    ∧ Dataset_len shuffled = size f
    ∧ ((λ i : nat, get_value shuffled w' (Z.of_nat i)) <$> seq 0 (size f))
      ≡ₚ ((λ i : nat, get_value plain w (Z.of_nat i)) <$> seq 0 (size f))
    ∧ Forall (λ v, ∃ d, v = Some (Ok d))
        ((λ i : nat, get_value plain w (Z.of_nat i)) <$> seq 0 (size f)).
Proof.
  intros Hf.
  destruct (Dataset_init_spec path tr gm false w f Hf)
    as (w0 & plain & Hinit0 & _ & Hdbf0 & _ & Hplain).
  destruct (Hplain eq_refl) as [-> Hkeys0].
  destruct (Dataset_init_spec path tr gm true w f Hf)
    as (w' & shuffled & Hinit1 & Hfs1 & Hdbf1 & Hkeys1 & _).
  assert (Dataset_len plain = size f) as Hlen0
    by (unfold Dataset_len; by rewrite Hkeys0, h5_keys_length).
  assert (Dataset_len shuffled = size f) as Hlen1
    by (unfold Dataset_len; by rewrite Hkeys1, h5_keys_length).
  exists plain, shuffled, w'. repeat split; try done.
  - rewrite <-Hlen1 at 1. rewrite <-Hlen0.
    rewrite (get_value_all shuffled w' f) by (by rewrite Hfs1, Hdbf1).
    rewrite (get_value_all plain w f) by (by rewrite Hdbf0).
    by rewrite Hkeys1, Hkeys0.
  - rewrite <-Hlen0, (get_value_all plain w f) by (by rewrite Hdbf0).
    apply Forall_fmap, Forall_forall. intros key Hkey. simpl.
    rewrite Hkeys0 in Hkey. destruct (h5_keys_lookup f key Hkey) as [d Hd].
    exists d. unfold h5_get. by rewrite Hd.
Qed.

(** * The functions on the concrete inputs *)

(** C1 fails on the code: prepare_data never returns a value.  On the
    example directory with two images the stores are built and line 144
    raises NameError for train_patches; on every input whatsoever the run
    ends in an exception. *)
Theorem prepare_data_never_returns :
  snd <$> Demo.prepare 5 = Some (Raise (NameError "train_patches"))
  ∧ ∀ (glob : string → list string)
      (cv2_imread : string → option (ndarray Z)) (bgr2gray : Z → Z → Z → Z)
      (normalize_px : Z → float) (zero : float)
      (data_path : string) (val_data_path : option string)
      (patch_size stride : Z) (train_file val_file : string)
      (total_patches : Z) (gray_mode : bool) (w : world float),
      ∃ w' e,
        prepare_data glob cv2_imread bgr2gray normalize_px zero data_path
          val_data_path patch_size stride train_file val_file total_patches
          gray_mode w = Some (w', Raise e).
Proof.
  split; [vm_compute; reflexivity|]. intros. apply prepare_data_raises.
Qed.

(** The patch extractor on the 1x3x3 example image with a 2x2 window: the
    four patches lie along the last axis in raster order. *)
Example img_to_patches_example :
  img_to_patches 0%Z Demo.img 2 1
  = Ok (NDArray [1; 2; 2; 4]
          [1; 2; 4; 5;  2; 3; 5; 6;  4; 5; 7; 8;  5; 6; 8; 9]%Z).
Proof. vm_compute. reflexivity. Qed.

(** C2 as stated fails: over the two files of the example, each of which
    yields two patches, total_patches = 7 leaves 5 entries in the
    training store. *)
Lemma prepare_data_under_allocates :
  length (scan_images Demo.glob "train") = 2
  ∧ Demo.train_store_size 7 = Some 5
  ∧ 5 ≠ Z.to_nat 7.
Proof. split; [|split]; [vm_compute; reflexivity..|lia]. Qed.

Lemma prepare_data_allocation_witness :
  (∃ w1 w' e h5f,
      build_training_database Demo.glob Demo.cv2_imread
        Demo.normalize_px 0%float "train" 1 1 "train.h5" 5 false
        Demo.world0 = Some (w1, Ok (5, 0%Z))
    ∧ Demo.prepare 5 = Some (w', Raise e)
    ∧ fs w' !! "dataset/train.h5" = Some h5f
    ∧ size h5f = 5)
  ∧ Demo.train_store_size 5 = Some 5.
Proof.
  split; [|vm_compute; reflexivity].
  apply (prepare_data_allocation Demo.glob Demo.cv2_imread
           Demo.bgr2gray Demo.normalize_px 0%float "train" None 1 1
           "train.h5" "val.h5" 5 false Demo.world0
           (scan_images Demo.glob "train") 2 2 1 "dataset/train.h5"
           (file_quota Demo.cv2_imread Demo.normalize_px 0%float false 1 1 2)).
  - reflexivity.
  - vm_compute; reflexivity.
  - reflexivity.
  - reflexivity.
  - reflexivity.
  - reflexivity.
  - lia.
  - lia.
  - vm_compute; reflexivity.
  - by left.
  - repeat constructor; (eexists; split; [vm_compute; reflexivity|vm_compute; lia]).
Defined.

(** C3 as stated fails at a window of 0: on a 1x3x3 image with stride 1
    the result has 9 columns, the formula gives 16. *)
Lemma img_to_patches_window_zero :
  (0 ≤ Z.of_nat (3 `min` 3))%Z ∧ (1 ≤ 1)%Z
  ∧ shape Demo.img = [1; 3; 3]
  ∧ img_to_patches 0%Z Demo.img 0 1 = Ok (NDArray [1; 0; 0; 9] [])
  ∧ patch_grid_count 3 3 0 1 = 16.
Proof. repeat split; try lia; vm_compute; reflexivity. Qed.

Lemma img_to_patches_shape_witness :
  ∃ res, img_to_patches 0%Z Demo.img 2 1 = Ok res
       ∧ shape res = [1; 2; 2; 4]
       ∧ well_formed res
       ∧ ∀ nx, nx < 4 →
           ∃ p, take_last_axis res nx = Ok p
              ∧ shape p = [1; 2; 2] ∧ well_formed p.
Proof.
  apply (img_to_patches_shape 0%Z Demo.img 1 3 3 2 1);
    [reflexivity|lia|simpl; lia|lia].
Defined.

(** C5 fails on the code: the shuffle permutes the channel axis.  In the
    example the first file has the patches (10,20,30)/255 and
    (40,50,60)/255; the entry stored under key 0 is (30,10,20)/255, which
    is neither of them. *)
Lemma prepare_data_shuffles_channels :
  ∃ p d,
    Demo.patches_a = Ok p
    ∧ patch_count p = 2
    ∧ patch_at p 0 = NDArray [3; 1; 1] (Demo.normalize_px <$> [10; 20; 30]%Z)
    ∧ patch_at p 1 = NDArray [3; 1; 1] (Demo.normalize_px <$> [40; 50; 60]%Z)
    ∧ Demo.train_entry 5 "0" = Some d
    ∧ d = NDArray [3; 1; 1] (Demo.normalize_px <$> [30; 10; 20]%Z)
    ∧ d ≠ patch_at p 0 ∧ d ≠ patch_at p 1.
Proof.
  eexists _, _. split; [vm_compute; reflexivity|].
  split; [vm_compute; reflexivity|]. split; [vm_compute; reflexivity|].
  split; [vm_compute; reflexivity|]. split; [vm_compute; reflexivity|].
  split; [vm_compute; reflexivity|].
  split; intros Heq;
    apply (f_equal (λ a, match data a with
                         | x :: _ => PrimFloat.eqb x (Demo.normalize_px 30)
                         | [] => false
                         end)) in Heq;
    vm_compute in Heq; discriminate.
Qed.

(** C8 as stated fails for a negative index: on a store with three
    entries, index -1 lies outside [0, 3) and get returns the entry of the
    last key. *)
Lemma Dataset_getitem_negative_index :
  ∃ self w,
    Dataset_init "data.h5" true false false Demo.store_world
      = Some (w, Ok self)
    ∧ Dataset_len self = 3
    ∧ ¬ (0 ≤ -1 < 3)%Z
    ∧ get_value self w (-1) = Some (Ok (NDArray [1] [12%Z])).
Proof.
  eexists _, _. split; [vm_compute; reflexivity|].
  split; [vm_compute; reflexivity|]. split; [lia|]. vm_compute; reflexivity.
Qed.

Lemma Dataset_getitem_index_witness :
  ∃ self w,
    Dataset_init "data.h5" true false true Demo.store_world
      = Some (w, Ok self)
    ∧ Dataset_len self = 3
    ∧ Dataset_getitem self 3 w = Some (w, Raise IndexError)
    ∧ Dataset_getitem self (-4) w = Some (w, Raise IndexError).
Proof.
  eexists _, _. split; [vm_compute; reflexivity|].
  match goal with
  | |- Dataset_len ?self = _ ∧ Dataset_getitem _ _ ?w = _ ∧ _ =>
      pose proof (Dataset_getitem_index "data.h5" true false true
                    Demo.store_world w w self Demo.store) as Hget
  end.
  split; [|split].
  - apply (Hget 0%Z); vm_compute; reflexivity.
  - apply (Hget 3%Z); [vm_compute; reflexivity..|]. left. vm_compute. discriminate.
  - apply (Hget (-4)%Z); [vm_compute; reflexivity..|]. right. vm_compute. reflexivity.
Defined.

Lemma Dataset_shuffle_multiset_witness :
  ∃ plain shuffled w',
    Dataset_init "data.h5" true false false Demo.store_world
      = Some (Demo.store_world, Ok plain)
    ∧ Dataset_len plain = size Demo.store
    ∧ Dataset_init "data.h5" true false true Demo.store_world
      = Some (w', Ok shuffled)
    ∧ Dataset_len shuffled = size Demo.store
    ∧ ((λ i : nat, get_value shuffled w' (Z.of_nat i))
         <$> seq 0 (size Demo.store))
      ≡ₚ ((λ i : nat, get_value plain Demo.store_world (Z.of_nat i))
            <$> seq 0 (size Demo.store))
    ∧ Forall (λ v, ∃ d, v = Some (Ok d))
        ((λ i : nat, get_value plain Demo.store_world (Z.of_nat i))
           <$> seq 0 (size Demo.store)).
Proof.
  apply (Dataset_shuffle_multiset "data.h5" true false Demo.store_world
           Demo.store).
  vm_compute; reflexivity.
Defined.

Lemma store_patches_duplicates_first_witness :
  ∃ w' st' f',
    store_patches 3 "t.h5" Demo.patches 2 2 (StoreLocals 0 0 1 false)
      Demo.empty_store_world = Some (w', Ok st')
    ∧ reminder st' = 0%Z
    ∧ nx st' = 2
    ∧ train_num st' = 3
    ∧ fs w' !! "t.h5" = Some f'
    ∧ f' !! "0" = Some (NDArray [1; 1; 1] [5%Z])
    ∧ f' !! "1" = Some (NDArray [1; 1; 1] [5%Z])
    ∧ f' !! "2" = Some (NDArray [1; 1; 1] [6%Z]).
Proof.
  destruct (store_patches_duplicates_first "t.h5" Demo.patches 1 1 1 2 2 0 1
              Demo.empty_store_world ∅)
    as (w' & st' & f' & Hrun & Hr & Hnx & Ht & Hf & H0 & H1 & Hk).
  - reflexivity.
  - vm_compute; reflexivity.
  - intros k _. apply lookup_empty.
  - lia.
  - lia.
  - lia.
  - exists w', st', f'. repeat split; try done.
    apply (Hk 1). vm_compute. lia.
Defined.

Lemma estimate_noise_nan_fallback_witness :
  ∃ filtered_images noises,
    Demo.estimate (MethodEstimator WIENER) "BayesShrink"
      = Ok (filtered_images, noises)
    ∧ is_nan (Demo.np_sum Demo.filtered_1) = true
    ∧ sub_array filtered_images 1 = sub_array Demo.batch 1
    ∧ data noises !! 1 = Some 0%float.
Proof.
  exists (NDArray [2; 1; 1; 2] [1; 1; 0; 3]%float), (NDArray [2] [3; 0]%float).
  assert (is_nan (Demo.np_sum Demo.filtered_1) = true) as Hnan
    by (vm_compute; reflexivity).
  split; [vm_compute; reflexivity|]. split; [exact Hnan|].
  apply (proj1 (estimate_noise_nan_fallback Demo.wiener
                  Demo.denoise_wavelet Demo.estimate_sigma
                  Demo.np_sum Demo.uninitialized
                  Demo.Estimator_dict_keys (ImagesArray Demo.batch)
                  WIENER (5, 5) false "BayesShrink"
                  (NDArray [2; 1; 1; 2] [1; 1; 0; 3]%float)
                  (NDArray [2] [3; 0]%float) 2 1 1 2 1
                  (sub_array Demo.batch 1) Demo.filtered_1
                  ltac:(vm_compute; reflexivity) ltac:(reflexivity)
                  ltac:(lia) ltac:(reflexivity) ltac:(reflexivity)
                  ltac:(reflexivity) ltac:(vm_compute; reflexivity))).
  exact Hnan.
Defined.

(** C6 as stated fails: for the first image (1, 2) of the example the
    filter returns (1, 1), whose sum is no NaN; the sigma returned is the
    estimate 3 of the image itself, while the estimate of the residual
    (0, 1) is 1. *)
Lemma estimate_noise_sigma_not_of_residual :
  ∃ filtered_images noises image filtered sigma residual_sigma,
    Demo.estimate (MethodEstimator WIENER) "BayesShrink"
      = Ok (filtered_images, noises)
    ∧ image = np_squeeze (sub_array Demo.batch 0)
    ∧ Demo.wiener image (5, 5) = Ok filtered
    ∧ is_nan (Demo.np_sum filtered) = false
    ∧ data noises !! 0 = Some sigma
    ∧ Demo.estimate_sigma (np_sub image filtered) = Ok residual_sigma
    ∧ Demo.estimate_sigma image = Ok sigma
    ∧ sigma ≠ residual_sigma.
Proof.
  eexists _, _, _, _, _, _.
  split; [vm_compute; reflexivity|]. split; [reflexivity|].
  split; [vm_compute; reflexivity|]. split; [vm_compute; reflexivity|].
  split; [vm_compute; reflexivity|]. split; [vm_compute; reflexivity|].
  split; [vm_compute; reflexivity|].
  intros Heq. apply (f_equal (λ x, PrimFloat.eqb x 1%float)) in Heq.
  vm_compute in Heq. discriminate.
Qed.

Lemma estimate_noise_sigma_of_noisy_image_witness :
  ∃ sigma,
    Demo.estimate (MethodEstimator WIENER) "BayesShrink"
      = Ok (NDArray [2; 1; 1; 2] [1; 1; 0; 3]%float, NDArray [2] [3; 0]%float)
    ∧ is_nan (Demo.np_sum Demo.filtered_0) = false
    ∧ Demo.estimate_sigma (np_squeeze (sub_array Demo.batch 0)) = Ok sigma
    ∧ data (NDArray [2] [3; 0]%float) !! 0 = Some sigma.
Proof.
  assert (is_nan (Demo.np_sum Demo.filtered_0) = false) as Hnan
    by (vm_compute; reflexivity).
  destruct (estimate_noise_sigma_of_noisy_image Demo.wiener
              Demo.denoise_wavelet Demo.estimate_sigma
              Demo.np_sum Demo.uninitialized
              Demo.Estimator_dict_keys (ImagesArray Demo.batch)
              WIENER (5, 5) false "BayesShrink"
              (NDArray [2; 1; 1; 2] [1; 1; 0; 3]%float)
              (NDArray [2] [3; 0]%float) 2 1 1 2 0
              (sub_array Demo.batch 0) Demo.filtered_0
              ltac:(vm_compute; reflexivity) ltac:(reflexivity)
              ltac:(lia) ltac:(reflexivity)
              ltac:(vm_compute; reflexivity) Hnan) as [sigma [Hs1 Hs2]].
  exists sigma. split; [vm_compute; reflexivity|]. by repeat split.
Defined.

(** C7 as stated fails on the message: the rejected value is not named.
    For the wavelet estimator with wavelet_method "Haar", and for the
    string "median" passed as method, the message lists the allowed names
    only. *)
Lemma estimate_noise_message_omits_value :
  ∃ msg1 msg2,
    ("Haar" ∉ wavelet_options)
    ∧ Demo.estimate (MethodEstimator WAVELET) "Haar"
      = Raise (AssertionError msg1)
    ∧ mentions "Haar" msg1 = false
    ∧ mentions "BayesShrink" msg1 = true
    ∧ Demo.estimate (MethodOther "'median'") "BayesShrink"
      = Raise (AssertionError msg2)
    ∧ mentions "median" msg2 = false.
Proof.
  eexists _, _. split.
  { intros Hin. apply (bool_decide_pack _) in Hin. vm_compute in Hin. done. }
  repeat split; vm_compute; reflexivity.
Qed.

Lemma estimate_noise_rejects_configuration_witness :
  Demo.estimate (MethodEstimator WAVELET) "Haar"
  = Raise (AssertionError
             "Unknown wavelet method, please specify one of those listed in ['BayesShrink', 'VisuShrink']").
Proof.
  apply (estimate_noise_rejects_configuration Demo.wiener
           Demo.denoise_wavelet Demo.estimate_sigma Demo.np_sum
           Demo.uninitialized Demo.Estimator_dict_keys
           (ImagesArray Demo.batch) (MethodEstimator WAVELET) (5, 5) false
           "Haar").
  right. split; [reflexivity|].
  intros Hin. apply (bool_decide_pack _) in Hin. vm_compute in Hin. done.
Defined.

(** * Further properties *)

(** ** Lists built by nested loops *)

Lemma bind_singleton_fmap {A B} (f : A → B) (l : list A) :
  (l ≫= λ x, [f x]) = f <$> l.
Proof. induction l as [|x l IH]; [done|]. rewrite bind_cons, IH. done. Qed.

Lemma lookup_bind_const {A B} (f : A → list B) (k : nat) (l : list A)
    (i j : nat) (x : A) :
  (∀ y, length (f y) = k) → l !! i = Some x → j < k →
  (l ≫= f) !! (i * k + j) = f x !! j.
Proof.
  intros Hf. revert i. induction l as [|y l IH]; intros i Hi Hj; [done|].
  rewrite bind_cons. destruct i as [|i]; simpl in *.
  - simplify_eq. apply lookup_app_l. by rewrite Hf.
  - rewrite lookup_app_r by (rewrite Hf; lia). rewrite Hf.
    replace (k + i * k + j - k) with (i * k + j) by lia. by apply IH.
Qed.

(** Element (ci, p, q) of a double loop over rows and columns nested in a
    loop over the channels. *)
Lemma lookup_bind3 {A B C D} (f : A → B → C → D) (la : list A) (lb : list B)
    (lc : list C) (i j k : nat) (a : A) (b : B) (c : C) :
  la !! i = Some a → lb !! j = Some b → lc !! k = Some c →
  (x ← la; y ← lb; z ← lc; [f x y z])
    !! ((i * length lb + j) * length lc + k) = Some (f a b c).
Proof.
  intros Ha Hb Hc.
  replace ((i * length lb + j) * length lc + k)
    with (i * (length lb * length lc) + (j * length lc + k)) by lia.
  assert (j < length lb) by (by eapply lookup_lt_Some).
  assert (k < length lc) by (by eapply lookup_lt_Some).
  rewrite (lookup_bind_const _ (length lb * length lc) la i _ a); [|..|done|nia].
  2:{ intros x. rewrite (length_bind_const _ (length lc)); [done|].
      intros y. by rewrite length_bind_singleton. }
  rewrite (lookup_bind_const _ (length lc) lb j _ b); [|..|done|done].
  2:{ intros y. by rewrite length_bind_singleton. }
  by rewrite bind_singleton_fmap, list_lookup_fmap, Hc.
Qed.


(** ** The contents of the patches *)

Section img_to_patches_content.
Context {A : Type} `{Inhabited A}.
Variables (img : ndarray A) (c h w : nat) (win stride : Z).
Hypothesis Hshape : shape img = [c; h; w].
Hypothesis Hstride : (1 ≤ stride)%Z.
Hypothesis Hwin_h : (win ≤ Z.of_nat h)%Z.
Hypothesis Hwin_w : (win ≤ Z.of_nat w)%Z.

Let nrows := Z.to_nat ((Z.of_nat h - win) / stride + 1).
Let ncols := Z.to_nat ((Z.of_nat w - win) / stride + 1).
Let s := Z.to_nat stride.




End img_to_patches_content.



(** ** Edge cases of [img_to_patches] *)

Lemma slice_indices_nonzero_step (start stop step : Z) (len : nat) :
  step ≠ 0%Z → ∃ l, slice_indices start stop step len = Ok l.
Proof.
  intros Hs. unfold slice_indices.
  destruct (Z.eqb_spec step 0); [done|]. by eexists.
Qed.

Lemma slice_indices_empty (x step : Z) (len : nat) :
  step ≠ 0%Z → slice_indices x x step len = Ok [].
Proof.
  intros Hs. unfold slice_indices.
  destruct (Z.eqb_spec step 0); [done|]. f_equal.
  unfold range_len. rewrite !Z.ltb_irrefl. by destruct (0 <? step)%Z.
Qed.

(** X2: img_to_patches has no guard of its own: on a three-axis image a
    stride of 0 is refused by the first slice, and a negative window (with
    a stride other than 0) by the final reshape; both end in ValueError. *)
Theorem img_to_patches_rejects {A} `{Inhabited A} (zero : A) (img : ndarray A)
    (c h w : nat) (win stride : Z) :
  shape img = [c; h; w] →
  stride = 0%Z ∨ (win < 0)%Z →
  ∃ msg, img_to_patches zero img win stride = Raise (ValueError msg).
Proof.
  intros Hs Hbad. unfold img_to_patches. rewrite Hs.
  destruct (Z.eq_dec stride 0%Z) as [->|Hstride]; [by eexists|].
  destruct Hbad as [?|Hwin]; [done|].
  destruct (slice_indices_nonzero_step 0 (Z.of_nat h - win + 0 + 1) stride h
              Hstride) as [rows0 ->].
  destruct (slice_indices_nonzero_step 0 (Z.of_nat w - win + 0 + 1) stride w
              Hstride) as [cols0 ->].
  cbn [mbind result_bind].
  replace (Z.to_nat win) with 0 by lia. cbn [seq mbind list_bind foldM].
  cbn [result_bind snd]. unfold np_reshape. cbn [forallb].
  destruct (Z.leb_spec 0 win) as [?|_]; [lia|].
  rewrite andb_false_r. cbn [andb]. by eexists.
Qed.

Section window_one_too_tall.
Context {A : Type} `{Inhabited A}.
Variables (img : ndarray A) (c h w : nat) (stride : Z).
Hypothesis Hshape : shape img = [c; h; w].
Hypothesis Hstride : stride ≠ 0%Z.

Lemma img_to_patches_body_no_rows (kk k i j : nat) (res : ndarray A) :
  shape res = [c; kk; 0] → k < kk →
  ∃ res', img_to_patches_body img c h w (Z.of_nat h + 1) stride 0 (k, res) (i, j)
          = Ok (k + 1, res')
        ∧ shape res' = [c; kk; 0] ∧ well_formed res'.
Proof.
  intros Hres Hk. unfold img_to_patches_body.
  replace (Z.of_nat h - (Z.of_nat h + 1) + Z.of_nat i + 1)%Z
    with (Z.of_nat i) by lia.
  rewrite slice_indices_empty by done. cbn [mbind result_bind].
  destruct (slice_indices_nonzero_step (Z.of_nat j)
              (Z.of_nat w - (Z.of_nat h + 1) + Z.of_nat j + 1) stride w
              Hstride) as [cols ->].
  cbn [mbind result_bind].
  change [Z.of_nat c; Z.of_nat 0] with (Z.of_nat <$> [c; 0]).
  rewrite np_reshape_ok.
  2:{ rewrite (index3_shape _ c h w) by done. simpl. lia. }
  cbn [mbind result_bind].
  destruct (assign_axis1_ok res
              (NDArray [c; 0] (data (index3 img [] cols))) c kk 0 k)
    as (res1 & -> & Hs1 & Hwf1); [done..|].
  by exists res1.
Qed.

Lemma img_to_patches_loop_no_rows (kk : nat) (l : list (nat * nat)) :
  ∀ (k : nat) (res : ndarray A),
  shape res = [c; kk; 0] → well_formed res → k + length l ≤ kk →
  ∃ res', foldM (img_to_patches_body img c h w (Z.of_nat h + 1) stride 0)
            (k, res) l = Ok (k + length l, res')
        ∧ shape res' = [c; kk; 0] ∧ well_formed res'.
Proof.
  induction l as [|[i j] l IH]; intros k res Hres Hwf Hlen.
  - exists res. simpl. by rewrite Nat.add_0_r.
  - cbn [length] in Hlen. cbn [foldM length].
    destruct (img_to_patches_body_no_rows kk k i j res)
      as (res1 & -> & Hs1 & Hwf1); [done|lia|].
    cbn [mbind result_bind].
    destruct (IH (k + 1) res1) as (res' & -> & ? & ?); [done|done|lia|].
    exists res'. split; [do 2 f_equal; lia|done].
Qed.
End window_one_too_tall.

(** X3: a window exactly one larger than the height of the image is not
    an error: every slice of rows is empty, and img_to_patches returns an
    array of shape (C, H+1, H+1, 0) without any patch, whatever the width
    and the (non-zero) stride. *)
Theorem img_to_patches_window_one_too_tall {A} `{Inhabited A} (zero : A)
    (img : ndarray A) (c h w : nat) (stride : Z) :
  shape img = [c; h; w] → stride ≠ 0%Z →
  img_to_patches zero img (Z.of_nat h + 1) stride
  = Ok (NDArray [c; h + 1; h + 1; 0] []).
Proof.
  intros Hs Hstride. unfold img_to_patches. rewrite Hs.
  replace (Z.of_nat h - (Z.of_nat h + 1) + 0 + 1)%Z with 0%Z by lia.
  rewrite slice_indices_empty by done. cbn [mbind result_bind].
  destruct (slice_indices_nonzero_step 0
              (Z.of_nat w - (Z.of_nat h + 1) + 0 + 1) stride w Hstride)
    as [cols0 ->].
  cbn [mbind result_bind length Nat.mul].
  set (W := Z.to_nat (Z.of_nat h + 1)).
  set (kk := Z.to_nat ((Z.of_nat h + 1) * (Z.of_nat h + 1))).
  destruct (img_to_patches_loop_no_rows img c h w stride Hs Hstride kk
              (i ← seq 0 W; j ← seq 0 W; [(i, j)]) 0
              (np_zeros zero [c; kk; 0])) as (res' & -> & Hs' & Hwf').
  { done. }
  { unfold well_formed, np_zeros. simpl. by rewrite length_replicate. }
  { rewrite offsets_length. unfold W, kk. rewrite Z2Nat.inj_mul by lia. lia. }
  cbn [mbind result_bind snd].
  assert ([Z.of_nat c; (Z.of_nat h + 1)%Z; (Z.of_nat h + 1)%Z; Z.of_nat 0]
          = Z.of_nat <$> [c; h + 1; h + 1; 0]) as ->.
  { simpl. do 2 f_equal; [lia|]. f_equal. lia. }
  rewrite np_reshape_ok.
  2:{ rewrite Hs'. simpl. lia. }
  do 2 f_equal. unfold well_formed in Hwf'. rewrite Hs' in Hwf'.
  apply nil_length_inv. rewrite Hwf'. simpl. lia.
Qed.

(** ** The images the loops of [prepare_data] store *)

Section load_image_facts.
Context {px : Type} `{Inhabited px}.
Variables (cv2_imread : string → option (ndarray Z)) (bgr2gray : Z → Z → Z → Z)
  (normalize_px : Z → px).

Lemma lookup_total_bind_singleton {A B} `{Inhabited B} (f : A → B)
    (l : list A) (i : nat) (x : A) :
  l !! i = Some x → (l ≫= λ y, [f y]) !!! i = f x.
Proof.
  intros Hi. apply list_lookup_total_correct.
  by rewrite bind_singleton_fmap, list_lookup_fmap, Hi.
Qed.

Lemma lookup_seq_bind3 {D} `{Inhabited D} (f : nat → nat → nat → D)
    (a b c i j k : nat) :
  i < a → j < b → k < c →
  (x ← seq 0 a; y ← seq 0 b; z ← seq 0 c; [f x y z]) !!! ((i * b + j) * c + k)
  = f i j k.
Proof.
  intros Hi Hj Hk. apply list_lookup_total_correct.
  pose proof (lookup_bind3 f (seq 0 a) (seq 0 b) (seq 0 c) i j k i j k) as Hl.
  rewrite !length_seq in Hl. apply Hl; by apply lookup_seq_lt.
Qed.

(** The colour branch shared by the training and the validation loop:
    channel [ci] of the result is channel [2 - ci] of the decoded image. *)
Lemma bgr_to_channel_first (imgor : ndarray Z) (h w : nat) :
  shape imgor = [h; w; 3] →
  ∃ img, (rgb ← cv2_BGR2RGB imgor; transpose_2_0_1 rgb) = Ok img
    ∧ shape img = [3; h; w]
    ∧ well_formed img
    ∧ ∀ ci y x, ci < 3 → y < h → x < w →
        data img !!! ((ci * h + y) * w + x)
        = data imgor !!! ((y * w + x) * 3 + (2 - ci)).
Proof.
  intros Hs. unfold cv2_BGR2RGB. rewrite Hs. cbn [mbind result_bind].
  unfold transpose_2_0_1. cbn [shape data].
  eexists. split; [reflexivity|]. split; [done|]. split.
  { unfold well_formed. cbn [shape data].
    rewrite (length_bind_const _ (h * w)), length_seq; [simpl; lia|].
    intros ci. rewrite (length_bind_const _ w), length_seq; [done|].
    intros y. by rewrite length_bind_singleton, length_seq. }
  intros ci y x Hci Hy Hx. cbn [data].
  etrans.
  { apply (lookup_seq_bind3
      (λ ci y x,
         (seq 0 (h * w) ≫= λ p, [2; 1; 0] ≫= λ c, [data imgor !!! (p * 3 + c)])
           !!! ((y * w + x) * 3 + ci)) 3 h w ci y x); done. }
  cbv beta.
  apply list_lookup_total_correct.
  rewrite (lookup_bind_const _ 3 (seq 0 (h * w)) (y * w + x) ci (y * w + x));
    [|done|by rewrite lookup_seq_lt by nia|done].
  by destruct ci as [|[|[|ci]]]; [..|lia].
Qed.

(** X4: a training image that decodes to an (H, W, 3) array is stored
    channel first and normalized pixel by pixel.  In colour mode the
    result has the three channels in RGB order, channel ci being channel
    2 - ci of the decoded BGR image; in gray mode it has the single
    channel number 1 of the decoded image, the green one, and nothing of
    the other two. *)
Theorem load_train_image_pixels (gray : bool) (file : string)
    (imgor : ndarray Z) (h w : nat) :
  cv2_imread file = Some imgor → shape imgor = [h; w; 3] →
  let channels := if gray then 1 else 3 in
  ∃ img, load_train_image cv2_imread normalize_px gray file = Ok img
    ∧ shape img = [channels; h; w]
    ∧ well_formed img
    ∧ ∀ ci y x, ci < channels → y < h → x < w →
        data img !!! ((ci * h + y) * w + x)
        = normalize_px
            (data imgor !!! ((y * w + x) * 3 + (if gray then 1 else 2 - ci))).
Proof.
  intros Hread Hs channels. unfold load_train_image. rewrite Hread.
  destruct gray; cbn [negb].
  - unfold take_channel_1. rewrite Hs. cbn [Nat.ltb Nat.leb mbind result_bind].
    eexists. split; [reflexivity|]. split; [done|]. split.
    { unfold well_formed, normalize. cbn [shape data np_expand_dims_0].
      rewrite length_fmap, length_bind_singleton, length_seq. simpl. lia. }
    intros ci y x Hci Hy Hx. unfold normalize. cbn [data np_expand_dims_0].
    assert (ci = 0) as -> by (unfold channels in Hci; lia).
    apply list_lookup_total_correct.
    rewrite list_lookup_fmap, bind_singleton_fmap, list_lookup_fmap.
    rewrite lookup_seq_lt by nia. simpl. do 3 f_equal.
  - destruct (bgr_to_channel_first imgor h w Hs)
      as (img & -> & Hsh & Hwf & Hpix).
    cbn [mbind result_bind]. eexists. split; [reflexivity|].
    split; [done|]. split.
    { unfold well_formed, normalize in *. cbn [shape data].
      by rewrite length_fmap. }
    intros ci y x Hci Hy Hx. unfold normalize. cbn [data].
    apply list_lookup_total_correct. rewrite list_lookup_fmap.
    rewrite <-Hpix by done.
    rewrite list_lookup_lookup_total_lt; [done|].
    unfold well_formed in Hwf. rewrite Hwf, Hsh. simpl.
    unfold channels in Hci. nia.
Qed.

(** X5: a validation image that decodes to an (H, W, 3) array is prepared
    as a training image is in colour mode, but not in gray mode: there
    each pixel is OpenCV's grey value of its three channels, normalized,
    where the training loop takes the green channel. *)
Theorem load_val_image_pixels (gray : bool) (file : string)
    (imgor : ndarray Z) (h w : nat) :
  cv2_imread file = Some imgor → shape imgor = [h; w; 3] →
  let channels := if gray then 1 else 3 in
  ∃ img, load_val_image cv2_imread bgr2gray normalize_px gray file = Ok img
    ∧ shape img = [channels; h; w]
    ∧ well_formed img
    ∧ (gray = false →
       load_train_image cv2_imread normalize_px gray file = Ok img)
    ∧ (gray = true → ∀ y x, y < h → x < w →
         data img !!! (y * w + x)
         = normalize_px
             (bgr2gray (data imgor !!! ((y * w + x) * 3))
                       (data imgor !!! ((y * w + x) * 3 + 1))
                       (data imgor !!! ((y * w + x) * 3 + 2)))).
Proof.
  intros Hread Hs channels. unfold load_val_image, load_train_image.
  rewrite Hread. destruct gray; cbn [negb].
  - unfold cv2_BGR2GRAY. rewrite Hs. cbn [mbind result_bind].
    eexists. split; [reflexivity|]. split; [done|]. split.
    { unfold well_formed, normalize. cbn [shape data np_expand_dims_0].
      rewrite length_fmap, length_bind_singleton, length_seq. simpl. lia. }
    split; [done|]. intros _ y x Hy Hx. unfold normalize.
    cbn [data np_expand_dims_0].
    apply list_lookup_total_correct.
    rewrite list_lookup_fmap, bind_singleton_fmap, list_lookup_fmap.
    rewrite lookup_seq_lt by nia. done.
  - destruct (bgr_to_channel_first imgor h w Hs)
      as (img & -> & Hsh & Hwf & Hpix).
    cbn [mbind result_bind]. eexists. split; [reflexivity|].
    split; [done|]. split; [|done].
    unfold well_formed, normalize in *. cbn [shape data].
    by rewrite length_fmap.
Qed.
End load_image_facts.

(** ** The training loop in general *)

Section train_loop_general.
Context {px : Type} `{Inhabited px}.
Variables (cv2_imread : string → option (ndarray Z)) (normalize_px : Z → px)
  (zero : px) (path : string) (gray : bool) (patch_size stride q : Z).

Abbreviation patches_of :=
  (file_patches cv2_imread normalize_px zero gray patch_size stride).
Abbreviation run_files :=
  (train_loop cv2_imread normalize_px zero path gray patch_size stride q).
Abbreviation quota_of :=
  (file_quota cv2_imread normalize_px zero gray patch_size stride q).

(** A run over files that all decode and yield an array of patches,
    whatever the quota and the remainder: the entries are appended under
    consecutive keys, each file appends its quota, and at most one unit of
    the remainder is consumed per file that stores anything. *)
Lemma train_loop_writes (files : list string) :
  ∀ (t : nat) (r : Z) (w : world px),
  Forall (λ file, ∃ p, patches_of file = Ok p) files →
  (∀ k, t ≤ k → default ∅ (fs w !! path) !! pretty k = None) →
  ∃ (w' : world px) (ds : list (ndarray px)) (r' : Z),
    run_files files t r w = Some (w', Ok (t + length ds, r'))
    ∧ default ∅ (fs w' !! path) = write_seq (default ∅ (fs w !! path)) t ds
    ∧ (is_Some (fs w !! path) ∨ files ≠ [] → is_Some (fs w' !! path))
    ∧ (∀ other, other ≠ path → fs w' !! other = fs w !! other)
    ∧ py_rng w' = py_rng w
    ∧ (r' ≤ r)%Z ∧ ((0 ≤ r)%Z → (0 ≤ r')%Z)
    ∧ (r - r' ≤ Z.of_nat (length files))%Z
    ∧ (r - r' ≤ Z.of_nat (sum_list_with quota_of files))%Z
    ∧ Z.of_nat (length ds)
      = (Z.of_nat (sum_list_with quota_of files) + (r - r'))%Z.
Proof.
  induction files as [|file files IH]; intros t r w Hall Hfresh.
  - exists w, [], r. simpl. rewrite Nat.add_0_r.
    repeat split; try done; try lia. by intros [?|?].
  - apply Forall_cons in Hall as [(p0 & Hp0) Hall].
    assert (∃ c a b n, shape p0 = [c; a; b; n]) as (c & a & b & n & Hs).
    { unfold file_patches in Hp0.
      destruct (load_train_image _ _ _ _) as [img|]; [|done].
      by eapply img_to_patches_ndim. }
    assert (quota_of file = loop_bound n q) as Hquota.
    { unfold file_quota. rewrite Hp0. unfold patch_count. by rewrite Hs. }
    destruct (train_loop_cons cv2_imread normalize_px zero path gray patch_size
                stride q file files t r w p0 c a b n Hp0 Hs Hfresh)
      as (w1 & p & Hp & _ & Hfs1 & Hpy1 & ->).
    set (m := loop_bound n q) in *.
    set (f := default ∅ (fs w !! path)) in *.
    set (ds := patch_at p <$> visited 0 m (0 <? r)%Z) in *.
    assert (length ds = m + (if (0 <? r)%Z && (0 <? m) then 1 else 0)) as Hlen.
    { unfold ds, visited. rewrite length_fmap, length_app, length_seq.
      destruct ((0 <? r)%Z && (0 <? m)); simpl; lia. }
    assert (default ∅ (fs w1 !! path) = write_seq f t ds) as Hf1.
    { by rewrite Hfs1, lookup_insert_eq. }
    replace (length (visited 0 m (0 <? r)%Z)) with (length ds)
      by (unfold ds; by rewrite length_fmap).
    destruct (IH (t + length ds)
                (if (0 <? r)%Z && (0 <? m) then (r - 1)%Z else r) w1)
      as (w' & ds' & r' & -> & Hstore & Hsome & Hframe & Hpy & Hle & Hpos & Hcnt
          & Hcnt' & Htot).
    { done. }
    { rewrite Hf1. by apply write_seq_fresh. }
    exists w', (ds ++ ds'), r'. rewrite length_app.
    split; [by rewrite Nat.add_assoc|]. split.
    { by rewrite Hstore, Hf1, write_seq_app. }
    split.
    { intros _. apply Hsome. left. rewrite Hfs1, lookup_insert_eq. done. }
    split.
    { intros other Hne. rewrite Hframe by done. rewrite Hfs1.
      by rewrite lookup_insert_ne. }
    split; [by rewrite Hpy|].
    cbn [length sum_list_with]. rewrite Hquota. fold m.
    destruct (Z.ltb_spec 0 r), (Nat.ltb_spec 0 m); simpl in *; 
      repeat split; lia.
Qed.
End train_loop_general.

(** ** The training store after a run *)

Lemma write_seq_dom {px} (ds : list (ndarray px)) :
  ∀ (f : gmap string (ndarray px)) (t : nat) (key : string),
  is_Some (write_seq f t ds !! key)
  ↔ is_Some (f !! key) ∨ ∃ k, k < length ds ∧ key = pretty (t + k).
Proof.
  induction ds as [|d ds IH]; intros f t key; simpl.
  - split; [by left|]. intros [?|(k & ? & _)]; [done|lia].
  - rewrite IH. split.
    + intros [Hsome|(k & Hk & ->)].
      * destruct (decide (key = pretty t)) as [->|Hne].
        { right. exists 0. split; [lia|]. by rewrite Nat.add_0_r. }
        left. by rewrite lookup_insert_ne in Hsome.
      * right. exists (S k). split; [lia|]. f_equal. lia.
    + intros [Hsome|(k & Hk & ->)].
      * left. destruct (decide (key = pretty t)) as [->|Hne].
        { rewrite lookup_insert_eq. done. }
        by rewrite lookup_insert_ne.
      * destruct k as [|k].
        { left. rewrite Nat.add_0_r, lookup_insert_eq. done. }
        right. exists k. split; [lia|]. f_equal. lia.
Qed.

Lemma write_seq_empty_dom {px} (ds : list (ndarray px)) (key : string) :
  is_Some (write_seq ∅ 0 ds !! key) ↔ ∃ k, k < length ds ∧ key = pretty k.
Proof.
  rewrite write_seq_dom, lookup_empty. split.
  - intros [[? [=]]|?]; done.
  - by right.
Qed.

Lemma sum_list_with_le {A} (f : A → nat) (k : nat) (l : list A) :
  (∀ x, f x ≤ k) → sum_list_with f l ≤ length l * k.
Proof.
  intros Hf. induction l as [|x l IH]; simpl; [done|]. specialize (Hf x). lia.
Qed.

Section training_store.
Context {px : Type} `{Inhabited px}.
Variables (glob : string → list string)
  (cv2_imread : string → option (ndarray Z)) (bgr2gray : Z → Z → Z → Z)
  (normalize_px : Z → px) (zero : px).
Variables (data_path : string) (val_data_path : option string)
  (patch_size stride : Z) (train_file val_file : string) (T : Z)
  (gray_mode : bool).

Abbreviation files := (scan_images glob data_path).
Abbreviation traindbf := ("dataset/" +:+ train_file).
Abbreviation build := (build_training_database glob cv2_imread normalize_px
  zero data_path patch_size stride train_file T gray_mode).
Abbreviation run := (prepare_data glob cv2_imread bgr2gray normalize_px zero
  data_path val_data_path patch_size stride train_file val_file T gray_mode).
Abbreviation quota := (file_quota cv2_imread normalize_px zero gray_mode
  patch_size stride (T / Z.of_nat (length files))).

(** The validation part and the last lines do not touch the training
    store. *)
Lemma prepare_data_after_training (w w1 : world px) (tr : nat * Z) :
  val_data_path = None ∨ val_file ≠ train_file →
  build w = Some (w1, Ok tr) →
  ∃ w' e, run w = Some (w', Raise e)
        ∧ fs w' !! traindbf = fs w1 !! traindbf.
Proof.
  intros Hval Hb.
  destruct (build_validation_database_total glob cv2_imread bgr2gray
              normalize_px val_data_path val_file gray_mode w1)
    as [[w2 rv] Hv].
  assert (fs w2 !! traindbf = fs w1 !! traindbf) as Hsame.
  { eapply (build_validation_database_frame glob cv2_imread bgr2gray
              normalize_px val_data_path val_file); [|done].
    destruct Hval as [->|Hne]; [by left|right].
    intros Heq%(inj (String.app _)). done. }
  exists w2. unfold prepare_data, io_bind. rewrite Hb, Hv.
  destruct rv; by eexists.
Qed.

(** The training part on a store that does not exist yet, over files
    that all decode. *)
Lemma build_training_database_writes (w : world px) :
  files ≠ [] →
  Forall (λ file, ∃ p, file_patches cv2_imread normalize_px zero gray_mode
                         patch_size stride file = Ok p) files →
  fs w !! traindbf = None →
  ∃ (w1 : world px) (ds : list (ndarray px)) (r' : Z),
    build w = Some (w1, Ok (length ds, r'))
    ∧ fs w1 !! traindbf = Some (write_seq ∅ 0 ds)
    ∧ (∀ other, other ≠ traindbf → fs w1 !! other = fs w !! other)
    ∧ (0 ≤ r' ≤ T `mod` Z.of_nat (length files))%Z
    ∧ (T `mod` Z.of_nat (length files) - r'
       ≤ Z.of_nat (sum_list_with quota files))%Z
    ∧ Z.of_nat (length ds)
      = (Z.of_nat (sum_list_with quota files)
         + (T `mod` Z.of_nat (length files) - r'))%Z.
Proof.
  intros Hne Hall Hnew.
  assert (1 ≤ length files) as Hn by (destruct files; simpl; [done|lia]).
  destruct (train_loop_writes cv2_imread normalize_px zero traindbf gray_mode
              patch_size stride (T / Z.of_nat (length files)) files 0
              (T `mod` Z.of_nat (length files)) w Hall)
    as (w1 & ds & r' & Hrun & Hstore & Hsome & Hframe & _ & Hle & Hpos & _
        & Hcnt & Htot).
  { intros k _. by rewrite Hnew. }
  pose proof (Z.mod_pos_bound T (Z.of_nat (length files)) ltac:(lia)) as Hr.
  exists w1, ds, r'. split.
  { unfold build_training_database, io_bind at 1 2, io_lift, py_floordiv, py_mod.
    destruct (Z.eqb_spec (Z.of_nat (length files)) 0) as [?|_]; [lia|].
    exact Hrun. }
  split.
  { destruct Hsome as [f Hf]; [by right|]. rewrite Hf in Hstore |- *.
    rewrite Hnew in Hstore. simpl in Hstore. by rewrite Hstore. }
  repeat split; try done; lia.
Qed.

(** X10: over a training directory that is not empty and whose files all
    decode, starting without a training store, the keys of the training
    store after prepare_data are exactly the decimal strings of 0, 1, ...,
    train_num - 1, where train_num is the final counter of the training
    loop, and the store has train_num entries. *)
Theorem prepare_data_store_keys (w : world px) :
  files ≠ [] →
  Forall (λ file, ∃ p, file_patches cv2_imread normalize_px zero gray_mode
                         patch_size stride file = Ok p) files →
  fs w !! traindbf = None →
  val_data_path = None ∨ val_file ≠ train_file →
  ∃ (w1 w' : world px) (t : nat) (r' : Z) (e : exn)
    (h5f : gmap string (ndarray px)),
    build w = Some (w1, Ok (t, r'))
    ∧ run w = Some (w', Raise e)
    ∧ fs w' !! traindbf = Some h5f
    ∧ size h5f = t
    ∧ ∀ key, is_Some (h5f !! key) ↔ ∃ k, k < t ∧ key = pretty k.
Proof.
  intros Hne Hall Hnew Hval.
  destruct (build_training_database_writes w Hne Hall Hnew)
    as (w1 & ds & r' & Hb & Hstore & _).
  destruct (prepare_data_after_training w w1 _ Hval Hb) as (w' & e & Hrun & Hsame).
  exists w1, w', (length ds), r', e, (write_seq ∅ 0 ds).
  split; [done|]. split; [done|]. split; [by rewrite Hsame|]. split.
  - rewrite write_seq_size by (intros; apply lookup_empty).
    by rewrite map_size_empty.
  - apply write_seq_empty_dom.
Qed.

(** X11: in such a run prepare_data never writes more than total_patches
    entries (none when total_patches is negative); the number of entries
    lies between the sum over the files of min(patches of the file, quota)
    and that sum plus the remainder total_patches mod n. *)
Theorem prepare_data_at_most_total (w : world px) :
  files ≠ [] →
  Forall (λ file, ∃ p, file_patches cv2_imread normalize_px zero gray_mode
                         patch_size stride file = Ok p) files →
  fs w !! traindbf = None →
  val_data_path = None ∨ val_file ≠ train_file →
  ∃ (w' : world px) (e : exn) (h5f : gmap string (ndarray px)),
    run w = Some (w', Raise e)
    ∧ fs w' !! traindbf = Some h5f
    ∧ (Z.of_nat (size h5f) ≤ Z.max 0 T)%Z
    ∧ sum_list_with quota files ≤ size h5f
    ∧ size h5f ≤ sum_list_with quota files
                 + Z.to_nat (T `mod` Z.of_nat (length files)).
Proof.
  intros Hne Hall Hnew Hval.
  destruct (build_training_database_writes w Hne Hall Hnew)
    as (w1 & ds & r' & Hb & Hstore & _ & Hr' & Hcnt & Htot).
  destruct (prepare_data_after_training w w1 _ Hval Hb) as (w' & e & Hrun & Hsame).
  exists w', e, (write_seq ∅ 0 ds).
  split; [done|]. split; [by rewrite Hsame|].
  rewrite write_seq_size by (intros; apply lookup_empty).
  rewrite map_size_empty, Nat.add_0_l.
  assert (1 ≤ length files) as Hn by (destruct files; simpl; [done|lia]).
  assert (sum_list_with quota files
          ≤ length files * Z.to_nat (T / Z.of_nat (length files))) as Hsum.
  { apply sum_list_with_le. intros file. unfold file_quota, loop_bound.
    destruct (file_patches _ _ _ _ _ _ _); lia. }
  set (total := sum_list_with quota files) in *.
  set (n := length files) in *. set (q := (T / Z.of_nat n)%Z) in *.
  pose proof (Z.div_mod T (Z.of_nat n) ltac:(lia)) as HT. fold q in HT.
  split; [|lia].
  destruct (Z.le_gt_cases 0 q) as [Hq|Hq].
  - assert (Z.of_nat (n * Z.to_nat q) = Z.of_nat n * q)%Z
      by (rewrite Nat2Z.inj_mul, Z2Nat.id; lia).
    lia.
  - replace (Z.to_nat q) with 0 in Hsum by lia. lia.
Qed.

(** X12: with fewer patches asked for than there are training files the
    quota total_patches // n is at most 0, the storing loop is never
    entered, and the remainder is never handed out: the training loop ends
    with train_num = 0 and the remainder untouched, and the training store
    is created empty. *)
Theorem prepare_data_fewer_patches_than_files (w : world px) :
  files ≠ [] →
  Forall (λ file, ∃ p, file_patches cv2_imread normalize_px zero gray_mode
                         patch_size stride file = Ok p) files →
  fs w !! traindbf = None →
  val_data_path = None ∨ val_file ≠ train_file →
  (T < Z.of_nat (length files))%Z →
  ∃ (w1 w' : world px) (e : exn),
    build w = Some (w1, Ok (0, (T `mod` Z.of_nat (length files))%Z))
    ∧ run w = Some (w', Raise e)
    ∧ fs w' !! traindbf = Some ∅.
Proof.
  intros Hne Hall Hnew Hval HT.
  destruct (build_training_database_writes w Hne Hall Hnew)
    as (w1 & ds & r' & Hb & Hstore & _ & Hr' & Hcnt & Htot).
  destruct (prepare_data_after_training w w1 _ Hval Hb) as (w' & e & Hrun & Hsame).
  assert (1 ≤ length files) as Hn by (destruct files; simpl; [done|lia]).
  assert (sum_list_with quota files
          ≤ length files * Z.to_nat (T / Z.of_nat (length files))) as Hsum.
  { apply sum_list_with_le. intros file. unfold file_quota, loop_bound.
    destruct (file_patches _ _ _ _ _ _ _); lia. }
  set (total := sum_list_with quota files) in *.
  set (n := length files) in *. set (q := (T / Z.of_nat n)%Z) in *.
  assert (q ≤ 0)%Z as Hq.
  { unfold q. apply Z.lt_succ_r. apply Z.div_lt_upper_bound; lia. }
  replace (Z.to_nat q) with 0 in Hsum by lia.
  assert (length ds = 0) as Hds by lia.
  assert (r' = T `mod` Z.of_nat n)%Z as -> by lia.
  destruct ds; [|done].
  exists w1, w', e. split; [done|]. split; [done|]. by rewrite Hsame.
Qed.

(** X16: prepare_data followed by Dataset: a Dataset opened on the
    training store that a run has just written (shuffled or not) has
    exactly train_num positions, the key at every position is the decimal
    string of a number below train_num, and get succeeds at every
    position. *)
Theorem prepare_data_then_Dataset (w : world px) (tr gm shuffle : bool) :
  files ≠ [] →
  Forall (λ file, ∃ p, file_patches cv2_imread normalize_px zero gray_mode
                         patch_size stride file = Ok p) files →
  fs w !! traindbf = None →
  val_data_path = None ∨ val_file ≠ train_file →
  ∃ (w1 w' w'' : world px) (t : nat) (r' : Z) (e : exn) (self : Dataset),
    build w = Some (w1, Ok (t, r'))
    ∧ run w = Some (w', Raise e)
    ∧ Dataset_init traindbf tr gm shuffle w' = Some (w'', Ok self)
    ∧ Dataset_len self = t
    ∧ ∀ i, i < t →
        ∃ k d, k < t ∧ keys self !! i = Some (pretty k)
             ∧ Dataset_getitem self (Z.of_nat i) w'' = Some (w'', Ok d).
Proof.
  intros Hne Hall Hnew Hval.
  destruct (build_training_database_writes w Hne Hall Hnew)
    as (w1 & ds & r' & Hb & Hstore & _).
  destruct (prepare_data_after_training w w1 _ Hval Hb) as (w' & e & Hrun & Hsame).
  rewrite Hstore in Hsame.
  destruct (Dataset_init_spec traindbf tr gm shuffle w' _ Hsame)
    as (w'' & self & Hinit & Hfs & Hdbf & Hkeys & _).
  assert (length (keys self) = length ds) as Hlen.
  { rewrite Hkeys, h5_keys_length.
    rewrite write_seq_size by (intros; apply lookup_empty).
    by rewrite map_size_empty. }
  exists w1, w', w'', (length ds), r', e, self.
  split; [done|]. split; [done|]. split; [done|]. split; [done|].
  intros i Hi.
  destruct (lookup_lt_is_Some_2 (keys self) i) as [key Hkey]; [lia|].
  assert (key ∈ h5_keys (write_seq ∅ 0 ds)) as Hin.
  { rewrite <-Hkeys. by eapply list_elem_of_lookup_2. }
  apply h5_keys_lookup in Hin. pose proof Hin as [d Hd].
  apply write_seq_empty_dom in Hin as (k & Hk & ->).
  exists k, d. split; [done|]. split; [done|].
  rewrite (Dataset_getitem_spec self w'' (write_seq ∅ 0 ds))
    by (by rewrite Hfs, Hdbf).
  rewrite py_list_get_nat, Hkey. cbn [mbind result_bind]. unfold h5_get.
  by rewrite Hd.
Qed.
End training_store.

(** ** What a run leaves alone *)

Section store_grows_facts.
Context {px : Type} `{Inhabited px}.
Variables (cv2_imread : string → option (ndarray Z)) (normalize_px : Z → px)
  (zero : px) (path : string).

Lemma store_grows_refl (w : world px) : store_grows path w w.
Proof. split; [done|]. intros f Hf. by exists f. Qed.

Lemma store_grows_trans (w1 w2 w3 : world px) :
  store_grows path w1 w2 → store_grows path w2 w3 → store_grows path w1 w3.
Proof.
  intros [Hf1 Hg1] [Hf2 Hg2]. split.
  - intros other Hne. by rewrite Hf2, Hf1.
  - intros f Hf. destruct (Hg1 f Hf) as (f' & Hf' & Hsub).
    destruct (Hg2 f' Hf') as (f'' & Hf'' & Hsub').
    exists f''. split; [done|]. by etrans.
Qed.

Lemma h5_create_dataset_grows (name : string) (d : ndarray px)
    (w w' : world px) (r : result ()) :
  h5_create_dataset path name d w = Some (w', r) → store_grows path w w'.
Proof.
  unfold h5_create_dataset.
  destruct (fs w !! path) as [f|] eqn:Hf; [|intros [= <- _]; apply store_grows_refl].
  destruct (f !! name) eqn:Hname; intros [= <- _]; [apply store_grows_refl|].
  split.
  - intros other Hne. simpl. by rewrite lookup_insert_ne.
  - intros f0 Hf0. simplify_eq. exists (<[name:=d]> f). simpl.
    rewrite lookup_insert_eq. split; [done|]. by apply insert_subseteq.
Qed.

Lemma h5_open_append_grows (w w' : world px) (r : result ()) :
  h5_open_append path w = Some (w', r) → store_grows path w w'.
Proof.
  unfold h5_open_append.
  destruct (fs w !! path) as [f|] eqn:Hf; intros [= <- _];
    [apply store_grows_refl|].
  split.
  - intros other Hne. simpl. by rewrite lookup_insert_ne.
  - intros f0 Hf0. by rewrite Hf in Hf0.
Qed.

Lemma store_patches_grows (patches : ndarray px) (n : nat) (q : Z)
    (fuel : nat) :
  ∀ (st : store_locals) (w w' : world px) (r : result store_locals),
  store_patches fuel path patches n q st w = Some (w', r) →
  store_grows path w w'.
Proof.
  induction fuel as [|fuel IH]; intros st w w' r; cbn [store_patches];
    destruct (_ && _); try done;
    try (intros [= <- _]; apply store_grows_refl).
  unfold io_bind at 1, io_lift at 1.
  destruct (take_last_axis patches (nx st)) as [d|];
    [|intros [= <- _]; apply store_grows_refl].
  unfold io_bind at 1.
  destruct (h5_create_dataset path _ d w) as [[w1 [[]|e]]|] eqn:Hc; [| |done].
  - intros Hrun. apply (store_grows_trans w w1 w').
    + by eapply h5_create_dataset_grows.
    + destruct (_ && _); by eapply IH.
  - intros [= <- _]. by eapply h5_create_dataset_grows.
Qed.

Lemma train_loop_grows (gray : bool) (patch_size stride q : Z)
    (files : list string) :
  ∀ (t : nat) (r : Z) (w w' : world px) (res : result (nat * Z)),
  train_loop cv2_imread normalize_px zero path gray patch_size stride q
    files t r w = Some (w', res) →
  store_grows path w w'.
Proof.
  induction files as [|file files IH]; intros t r w w' res.
  - intros [= <- _]. apply store_grows_refl.
  - cbn [train_loop]. unfold io_bind at 1.
    destruct (h5_open_append path w) as [[w0 [[]|e]]|] eqn:Ho; [| |done].
    2:{ intros [= <- _]. by eapply h5_open_append_grows. }
    apply h5_open_append_grows in Ho.
    unfold io_bind at 1, io_lift at 1.
    destruct (load_train_image _ _ _ _) as [img|]; [|by intros [= <- _]].
    unfold io_bind at 1, io_lift at 1.
    destruct (img_to_patches _ _ _ _) as [p0|]; [|by intros [= <- _]].
    unfold io_bind at 1, io_np_random_shuffle at 1.
    destruct (np_random_shuffle (np_rng w0) p0) as [[p g]|];
      [|by intros [= <- _]].
    unfold io_bind at 1.
    destruct (store_patches _ _ _ _ _ _ _) as [[w1 [st|e]]|] eqn:Hs; [| |done].
    + apply store_patches_grows in Hs. intros Hrun%IH.
      apply (store_grows_trans w w0 w'); [done|].
      by apply (store_grows_trans w0 w1 w').
    + apply store_patches_grows in Hs. intros [= <- _].
      by apply (store_grows_trans w w0 w1).
Qed.
End store_grows_facts.

Section prepare_data_frame.
Context {px : Type} `{Inhabited px}.
Variables (glob : string → list string)
  (cv2_imread : string → option (ndarray Z)) (bgr2gray : Z → Z → Z → Z)
  (normalize_px : Z → px) (zero : px).
Variables (data_path : string) (val_data_path : option string)
  (patch_size stride : Z) (train_file val_file : string) (T : Z)
  (gray_mode : bool).

Abbreviation traindbf := ("dataset/" +:+ train_file).
Abbreviation valdbf := ("dataset/" +:+ val_file).
Abbreviation build := (build_training_database glob cv2_imread normalize_px
  zero data_path patch_size stride train_file T gray_mode).
Abbreviation validate := (build_validation_database glob cv2_imread bgr2gray
  normalize_px val_data_path val_file gray_mode).
Abbreviation run := (prepare_data glob cv2_imread bgr2gray normalize_px zero
  data_path val_data_path patch_size stride train_file val_file T gray_mode).

Lemma build_training_database_grows (w w' : world px) res :
  build w = Some (w', res) → store_grows traindbf w w'.
Proof.
  unfold build_training_database, io_bind at 1 2, io_lift.
  destruct (py_floordiv _ _) as [q|]; [|intros [= <- _]; apply store_grows_refl].
  destruct (py_mod _ _) as [r|]; [|intros [= <- _]; apply store_grows_refl].
  apply train_loop_grows.
Qed.

(** What a run does to the world: the stages it went through. *)
Lemma prepare_data_stages (w w' : world px) (r : result ()) :
  run w = Some (w', r) →
  ∃ w1 tr, build w = Some (w1, tr)
    ∧ (w' = w1 ∨ ∃ rv, validate w1 = Some (w', rv)).
Proof.
  unfold prepare_data, io_bind at 1.
  destruct (build w) as [[w1 [tr|e]]|] eqn:Hb; [| |done].
  - unfold io_bind at 1.
    destruct (validate w1) as [[w2 [v|e]]|] eqn:Hv; [| |done].
    + intros [= <- _]. exists w1, (Ok tr). split; [done|]. right. by eexists.
    + intros [= <- _]. exists w1, (Ok tr). split; [done|]. right. by eexists.
  - intros [= <- _]. exists w1, (Raise e). split; [done|]. by left.
Qed.

(** X9: whatever the outcome of a run of prepare_data, the files other
    than the two stores are left as they were, and (the validation store
    being another file, or absent) every entry that the training store
    held before the run is still there with the same array afterwards:
    the training store is opened for appending and no entry is ever
    replaced or removed. *)
Theorem prepare_data_keeps_entries (w w' : world px) (r : result ()) :
  run w = Some (w', r) →
  (∀ other, other ≠ traindbf → other ≠ valdbf →
     fs w' !! other = fs w !! other)
  ∧ (val_data_path = None ∨ val_file ≠ train_file →
     ∀ f, fs w !! traindbf = Some f →
       ∃ f', fs w' !! traindbf = Some f'
           ∧ ∀ key d, f !! key = Some d → f' !! key = Some d).
Proof.
  intros (w1 & tr & Hb & Hrest)%prepare_data_stages.
  apply build_training_database_grows in Hb as [Hframe Hgrow].
  split.
  - intros other Hne1 Hne2. rewrite <-Hframe by done.
    destruct Hrest as [->|[rv Hv]]; [done|].
    eapply (build_validation_database_frame glob cv2_imread bgr2gray
              normalize_px val_data_path val_file); [|done].
    by right.
  - intros Hval f Hf. destruct (Hgrow f Hf) as (f' & Hf' & Hsub).
    exists f'. split.
    + rewrite <-Hf'. destruct Hrest as [->|[rv Hv]]; [done|].
      eapply (build_validation_database_frame glob cv2_imread bgr2gray
                normalize_px val_data_path val_file); [|done].
      destruct Hval as [->|Hne]; [by left|right].
      intros Heq%(inj (String.app _)). done.
    + intros key d Hkey. by eapply lookup_weaken.
Qed.
End prepare_data_frame.

(** ** Runs that fail early, and the validation store *)

Section prepare_data_edges.
Context {px : Type} `{Inhabited px}.
Variables (glob : string → list string)
  (cv2_imread : string → option (ndarray Z)) (bgr2gray : Z → Z → Z → Z)
  (normalize_px : Z → px) (zero : px).
Variables (data_path : string) (val_data_path : option string)
  (patch_size stride : Z) (train_file val_file : string) (T : Z)
  (gray_mode : bool).

Abbreviation traindbf := ("dataset/" +:+ train_file).
Abbreviation valdbf := ("dataset/" +:+ val_file).
Abbreviation build := (build_training_database glob cv2_imread normalize_px
  zero data_path patch_size stride train_file T gray_mode).
Abbreviation validate := (build_validation_database glob cv2_imread bgr2gray
  normalize_px val_data_path val_file gray_mode).
Abbreviation run := (prepare_data glob cv2_imread bgr2gray normalize_px zero
  data_path val_data_path patch_size stride train_file val_file T gray_mode).

(** X6: on a training directory without any image prepare_data raises
    ZeroDivisionError at the division by the number of files, before any
    store is opened: the world is left as it was. *)
Theorem prepare_data_empty_directory (w : world px) :
  scan_images glob data_path = [] →
  run w = Some (w, Raise ZeroDivisionError).
Proof.
  intros Hfiles.
  unfold prepare_data, build_training_database, io_bind, io_lift, py_floordiv.
  by rewrite Hfiles.
Qed.

(** X7: when the first training file does not decode (cv2.imread gives
    None), prepare_data ends in the exception of the first operation on
    the image: TypeError in gray mode (None is subscripted), OpenCV's
    error otherwise.  The training store has been opened before, so it
    exists afterwards, empty if it was missing; no generator was used. *)
Theorem prepare_data_unreadable_first_file (w : world px) (file : string)
    (rest : list string) :
  scan_images glob data_path = file :: rest →
  cv2_imread file = None →
  ∃ w', run w = Some (w', Raise (if gray_mode then TypeError else LibraryError))
      ∧ fs w' !! traindbf = Some (default ∅ (fs w !! traindbf))
      ∧ (∀ other, other ≠ traindbf → fs w' !! other = fs w !! other)
      ∧ np_rng w' = np_rng w ∧ py_rng w' = py_rng w.
Proof.
  intros Hfiles Hread.
  unfold prepare_data, build_training_database, io_bind at 1 2 3, io_lift,
    py_floordiv, py_mod.
  rewrite Hfiles. cbn [length].
  destruct (Z.eqb_spec (Z.of_nat (S (length rest))) 0) as [?|_]; [lia|].
  cbn [train_loop]. unfold io_bind at 1, h5_open_append.
  unfold io_bind at 1, io_lift, load_train_image. rewrite Hread.
  destruct (fs w !! traindbf) as [f|] eqn:Hf.
  - exists w. by rewrite Hf.
  - eexists. split; [done|]. simpl. rewrite lookup_insert_eq.
    split; [done|]. split; [|done]. intros other Hne.
    by rewrite lookup_insert_ne.
Qed.

Lemma store_patches_existing_key (path : string) (patches : ndarray px)
    (c a b n : nat) (q : Z) (fuel t : nat) (r : Z) (ap : bool)
    (w : world px) (f : gmap string (ndarray px)) (d : ndarray px) :
  shape patches = [c; a; b; n] → 1 ≤ n → (1 ≤ q)%Z →
  fs w !! path = Some f → f !! pretty t = Some d →
  store_patches (S fuel) path patches n q (StoreLocals 0 t r ap) w
  = Some (w, Raise (ValueError "name already exists")).
Proof.
  intros Hs Hn Hq Hf Hkey. cbn [store_patches nx train_num].
  destruct (Nat.ltb_spec 0 n) as [_|?]; [|lia].
  destruct (Z.ltb_spec (Z.of_nat 0) q) as [_|?]; [|lia].
  cbn [andb]. unfold io_bind at 1, io_lift at 1.
  destruct (take_last_axis_ok patches c a b n 0 Hs ltac:(lia)) as (d0 & -> & _).
  unfold io_bind at 1, h5_create_dataset. by rewrite Hf, Hkey.
Qed.

Lemma train_loop_existing_key (path : string) (q : Z) (file : string)
    (rest : list string) (t : nat) (r : Z) (w : world px) (p : ndarray px)
    (f : gmap string (ndarray px)) (d : ndarray px) :
  file_patches cv2_imread normalize_px zero gray_mode patch_size stride file
    = Ok p →
  1 ≤ patch_count p → (1 ≤ q)%Z →
  fs w !! path = Some f → f !! pretty t = Some d →
  ∃ w', train_loop cv2_imread normalize_px zero path gray_mode patch_size
          stride q (file :: rest) t r w
        = Some (w', Raise (ValueError "name already exists"))
      ∧ fs w' = fs w ∧ py_rng w' = py_rng w.
Proof.
  intros Hp Hn Hq Hf Hkey. unfold file_patches in Hp.
  destruct (load_train_image _ _ _ _) as [img|] eqn:Himg; [|done].
  cbn [mbind result_bind] in Hp.
  destruct (img_to_patches_ndim zero img p patch_size stride Hp)
    as (c & a & b & n & Hs).
  unfold patch_count in Hn. rewrite Hs in Hn. cbn [nth] in Hn.
  destruct (np_random_shuffle_shape (np_rng w) p c [a; b; n] Hs)
    as (p' & g & Hsh & Hs').
  set (w0 := World (fs w) g (py_rng w)).
  exists w0. split; [|done].
  cbn [train_loop]. unfold io_bind at 1, h5_open_append at 1. rewrite Hf.
  unfold io_bind at 1, io_lift at 1. rewrite Himg.
  unfold io_bind at 1, io_lift at 1. rewrite Hp.
  unfold io_bind at 1, io_np_random_shuffle at 1. rewrite Hsh.
  fold w0. unfold io_bind at 1. rewrite Hs'. cbn [nth]. rewrite Nat.add_1_r.
  by rewrite (store_patches_existing_key path p' c a b n q n t r false w0 f d).
Qed.

(** X8: a second run over an existing training store fails: when the store
    already holds an entry under the key 0, the quota is at least one and
    the first file yields a patch, the first create_dataset raises
    ValueError and prepare_data leaves every file as it was. *)
Theorem prepare_data_existing_key (w : world px) (file : string)
    (rest : list string) (p : ndarray px) (f : gmap string (ndarray px))
    (d : ndarray px) :
  scan_images glob data_path = file :: rest →
  file_patches cv2_imread normalize_px zero gray_mode patch_size stride file
    = Ok p →
  1 ≤ patch_count p →
  (Z.of_nat (S (length rest)) ≤ T)%Z →
  fs w !! traindbf = Some f →
  f !! "0" = Some d →
  ∃ w', run w = Some (w', Raise (ValueError "name already exists"))
      ∧ fs w' = fs w ∧ py_rng w' = py_rng w.
Proof.
  intros Hfiles Hp Hn HT Hf Hkey.
  assert (1 ≤ T / Z.of_nat (S (length rest)))%Z as Hq
    by (apply Z.div_le_lower_bound; lia).
  destruct (train_loop_existing_key traindbf (T / Z.of_nat (S (length rest)))
              file rest 0 (T `mod` Z.of_nat (S (length rest))) w p f d)
    as (w' & Hrun & Hfs & Hpy); [done..|].
  exists w'. split; [|done].
  unfold prepare_data, build_training_database, io_bind at 1 2 3, io_lift,
    py_floordiv, py_mod.
  rewrite Hfiles. cbn [length].
  destruct (Z.eqb_spec (Z.of_nat (S (length rest))) 0) as [?|_]; [lia|].
  by rewrite Hrun.
Qed.

Lemma val_loop_writes (files : list string) :
  ∀ (imgs : list (ndarray px)) (val_num : nat) (w : world px)
    (f : gmap string (ndarray px)),
  Forall2 (λ file img, load_val_image cv2_imread bgr2gray normalize_px
                         gray_mode file = Ok img) files imgs →
  fs w !! valdbf = Some f →
  (∀ k, val_num ≤ k → f !! pretty k = None) →
  ∃ w', val_loop cv2_imread bgr2gray normalize_px valdbf gray_mode files
          val_num w = Some (w', Ok (val_num + length files))
      ∧ fs w' = <[valdbf := write_seq f val_num imgs]> (fs w)
      ∧ np_rng w' = np_rng w ∧ py_rng w' = py_rng w.
Proof.
  induction files as [|file files IH]; intros imgs val_num w f Hall Hf Hfresh.
  - apply Forall2_nil_inv_l in Hall as ->. exists w. simpl.
    rewrite Nat.add_0_r. split; [done|]. by rewrite insert_id.
  - apply Forall2_cons_inv_l in Hall as (img & imgs' & Himg & Hall & ->).
    cbn [val_loop]. unfold io_bind at 1, io_lift. rewrite Himg.
    unfold io_bind at 1, h5_create_dataset. rewrite Hf, Hfresh by lia.
    destruct (IH imgs' (val_num + 1)
                (set_fs w (<[valdbf := <[pretty val_num := img]> f]> (fs w)))
                (<[pretty val_num := img]> f))
      as (w' & -> & Hfs & ? & ?).
    { done. }
    { simpl. apply lookup_insert_eq. }
    { intros k Hk. rewrite lookup_insert_ne; [apply Hfresh; lia|].
      intros Heq%(inj pretty). lia. }
    exists w'. split; [do 3 f_equal; simpl; lia|]. split; [|done].
    rewrite Hfs. simpl. by rewrite insert_insert_eq, Nat.add_1_r.
Qed.

(** X15: when the training part has succeeded and every validation file
    decodes, the validation store is rewritten from scratch: it holds
    exactly one entry per validation file, the image of the i-th file in
    sorted order under the key str(i), and nothing of what it held before;
    the run then ends in the NameError of line 144. *)
Theorem prepare_data_validation_store (w w1 : world px) (tr : nat * Z)
    (v : string) (imgs : list (ndarray px)) :
  val_data_path = Some v →
  build w = Some (w1, Ok tr) →
  Forall2 (λ file img, load_val_image cv2_imread bgr2gray normalize_px
                         gray_mode file = Ok img) (scan_images glob v) imgs →
  ∃ w' h5f,
    validate w1 = Some (w', Ok (length imgs))
    ∧ run w = Some (w', Raise (NameError "train_patches"))
    ∧ fs w' = <[valdbf := h5f]> (fs w1)
    ∧ size h5f = length imgs
    ∧ (∀ i img, imgs !! i = Some img → h5f !! pretty i = Some img)
    ∧ (∀ key, is_Some (h5f !! key) ↔ ∃ k, k < length imgs ∧ key = pretty k).
Proof.
  intros Hv Hb Hall.
  destruct (val_loop_writes (scan_images glob v) imgs 0
              (set_fs w1 (<[valdbf := ∅]> (fs w1))) ∅ Hall)
    as (w' & Hrun & Hfs & _).
  { simpl. apply lookup_insert_eq. }
  { intros. apply lookup_empty. }
  assert (validate w1 = Some (w', Ok (length imgs))) as Hval.
  { unfold build_validation_database. rewrite Hv.
    unfold io_bind, h5_open_write. rewrite Hrun.
    by rewrite (Forall2_length _ _ _ Hall). }
  exists w', (write_seq ∅ 0 imgs). split; [done|]. split.
  { unfold prepare_data, io_bind. by rewrite Hb, Hval. }
  split; [rewrite Hfs; simpl; by rewrite insert_insert_eq|]. split.
  { rewrite write_seq_size by (intros; apply lookup_empty).
    by rewrite map_size_empty. }
  split; [|apply write_seq_empty_dom].
  intros i img Hi. by apply (write_seq_lookup ∅ 0 imgs i img).
Qed.
End prepare_data_edges.

(** ** More on [Dataset] *)

Section dataset_more_facts.
Context {px : Type}.
Implicit Types (self : Dataset) (w : world px)
  (f : gmap string (ndarray px)).

Lemma h5_keys_NoDup f : NoDup (h5_keys f).
Proof. rewrite h5_keys_Permutation. apply NoDup_fst_map_to_list. Qed.

Lemma h5_keys_elem_of f key : key ∈ h5_keys f ↔ is_Some (f !! key).
Proof.
  split; [apply h5_keys_lookup|]. intros [d Hd].
  rewrite h5_keys_Permutation. apply list_elem_of_fmap.
  exists (key, d). split; [done|]. by apply elem_of_map_to_list.
Qed.

Lemma Dataset_init_frame (path : string) (tr gm shuffle : bool) w w'
    (r : result Dataset) :
  Dataset_init path tr gm shuffle w = Some (w', r) →
  fs w' = fs w ∧ np_rng w' = np_rng w ∧ (shuffle = false → w' = w).
Proof.
  unfold Dataset_init, io_bind, h5_open_read.
  destruct (fs w !! path) as [f|]; [|by intros [= <- _]].
  destruct shuffle.
  - unfold io_random_shuffle. destruct (random_shuffle _ _).
    by intros [= <- _].
  - by intros [= <- _].
Qed.

Lemma Dataset_init_fields (path : string) (tr gm shuffle : bool) w w' self :
  Dataset_init path tr gm shuffle w = Some (w', Ok self) →
  train self = tr ∧ gray_mode self = gm ∧ dbf self = path.
Proof.
  unfold Dataset_init, io_bind, h5_open_read.
  destruct (fs w !! path) as [f|]; [|done].
  destruct shuffle.
  - unfold io_random_shuffle. destruct (random_shuffle _ _).
    by intros [= _ <-].
  - by intros [= _ <-].
Qed.

(** X17: the keys of a handle opened on a store, shuffled or not, list
    every entry of the store exactly once: no key is repeated and a key
    is listed if and only if the store has it.  Opening changes no file
    and does not touch numpy's generator; without shuffle it changes
    nothing at all. *)
Theorem Dataset_init_indexes_every_entry (path : string)
    (tr gm shuffle : bool) w w' self f :
  fs w !! path = Some f →
  Dataset_init path tr gm shuffle w = Some (w', Ok self) →
  NoDup (keys self)
  ∧ (∀ key, key ∈ keys self ↔ is_Some (f !! key))
  ∧ fs w' = fs w ∧ np_rng w' = np_rng w
  ∧ (shuffle = false → w' = w).
Proof.
  intros Hf Hinit.
  destruct (Dataset_init_spec path tr gm shuffle w f Hf)
    as (w1 & self1 & Hinit1 & Hfs & _ & Hkeys & Hplain).
  rewrite Hinit in Hinit1. injection Hinit1 as <- <-.
  split; [rewrite Hkeys; apply h5_keys_NoDup|].
  split; [intros key; rewrite Hkeys; apply h5_keys_elem_of|].
  by apply Dataset_init_frame in Hinit.
Qed.

Lemma py_list_get_elem_of {A} (l : list A) (i : Z) (x : A) :
  py_list_get l i = Ok x → x ∈ l.
Proof.
  unfold py_list_get. destruct (_ && _); [|done].
  destruct (l !! _) eqn:Hl; [|done]. intros [= <-].
  by eapply list_elem_of_lookup_2.
Qed.

(** X18: the keys of a handle are those of the store at the time it was
    opened, while the data is read at each get.  On a store that has
    changed since, a get that succeeds returns the current array of a key
    that existed when the handle was opened (entries added later are
    never served), and for an entry deleted since there is a position at
    which get raises KeyError for its key. *)
Theorem Dataset_getitem_after_change (path : string) (tr gm shuffle : bool)
    (w0 w1 w : world px) self (f0 f : gmap string (ndarray px)) :
  fs w0 !! path = Some f0 →
  Dataset_init path tr gm shuffle w0 = Some (w1, Ok self) →
  fs w !! path = Some f →
  (∀ index d, Dataset_getitem self index w = Some (w, Ok d) →
     ∃ key, is_Some (f0 !! key) ∧ f !! key = Some d)
  ∧ (∀ key, is_Some (f0 !! key) → f !! key = None →
       ∃ i, i < size f0
          ∧ Dataset_getitem self (Z.of_nat i) w = Some (w, Raise (KeyError key))).
Proof.
  intros Hf0 Hinit Hf.
  destruct (Dataset_init_spec path tr gm shuffle w0 f0 Hf0)
    as (w1' & self' & Hinit' & _ & Hdbf & Hkeys & _).
  rewrite Hinit in Hinit'. injection Hinit' as <- <-.
  rewrite <-Hdbf in Hf. split.
  - intros index d. rewrite (Dataset_getitem_spec self w f) by done.
    intros [= Hget].
    destruct (py_list_get (keys self) index) as [key|] eqn:Hkey; [|done].
    cbn [mbind result_bind] in Hget. unfold h5_get in Hget.
    destruct (f !! key) as [d'|] eqn:Hd; [|done]. injection Hget as ->.
    exists key. split; [|done]. apply h5_keys_elem_of. rewrite <-Hkeys.
    by eapply py_list_get_elem_of.
  - intros key Hsome Hnone.
    assert (key ∈ keys self) as Hin by (rewrite Hkeys; by apply h5_keys_elem_of).
    apply list_elem_of_lookup_1 in Hin as [i Hi].
    exists i. split.
    { rewrite <-h5_keys_length, <-Hkeys. by eapply lookup_lt_Some. }
    rewrite (Dataset_getitem_spec self w f) by done.
    rewrite py_list_get_nat, Hi. cbn [mbind result_bind]. unfold h5_get.
    by rewrite Hnone.
Qed.
End dataset_more_facts.

(** ** [load_dataset_and_dataloader] *)

Section load_dataset_and_dataloader_facts.
Context {px : Type}.
Variable Loader : Type.
Variable DataLoader : Dataset → nat → Z → bool → result Loader.

Abbreviation load_all := (load_dataset_and_dataloader (px := px) Loader DataLoader).

(** X19: load_dataset_and_dataloader opens the training store first.
    When it is missing the call raises OSError and leaves the world as it
    was; when only the validation store is missing the call raises
    OSError as well, after the training handle has been opened and its
    keys shuffled: the files and numpy's generator are untouched, only
    Python's generator may have advanced. *)
Theorem load_dataset_and_dataloader_missing_store (args : Namespace)
    (w : world px) :
  (fs w !! args_traindbf args = None → load_all args w = Some (w, Raise OSError))
  ∧ (is_Some (fs w !! args_traindbf args) →
     fs w !! args_valdbf args = None →
     ∃ w', load_all args w = Some (w', Raise OSError)
         ∧ fs w' = fs w ∧ np_rng w' = np_rng w).
Proof.
  unfold load_dataset_and_dataloader. split.
  - intros Hnone. unfold io_bind at 1, Dataset_init, io_bind at 1, h5_open_read.
    by rewrite Hnone.
  - intros [f Hf] Hnone.
    destruct (Dataset_init_spec (args_traindbf args) true (args_gray args)
                true w f Hf) as (w1 & dt & Hinit & Hfs & _).
    unfold io_bind at 1. rewrite Hinit.
    apply Dataset_init_frame in Hinit as (_ & Hnp & _).
    exists w1. split; [|done].
    unfold io_bind at 1, Dataset_init, io_bind at 1, h5_open_read.
    by rewrite Hfs, Hnone.
Qed.

(** X20: on two existing stores load_dataset_and_dataloader builds the
    training handle shuffled and the validation handle in store order,
    each with as many positions as its store has entries and with the
    gray flag of the arguments, hands them to the two loaders (shuffle on
    for training, off for validation, two workers each), and changes no
    file. *)
Theorem load_dataset_and_dataloader_datasets (args : Namespace)
    (w : world px) (ft fv : gmap string (ndarray px)) :
  fs w !! args_traindbf args = Some ft →
  fs w !! args_valdbf args = Some fv →
  ∃ w' dataset_train dataset_val,
    load_all args w
    = Some (w', loader_train ← DataLoader dataset_train 2
                                  (args_batch_size args) true;
                loader_val ← DataLoader dataset_val 2
                                (args_val_batch_size args) false;
                Ok ((dataset_train, dataset_val), (loader_train, loader_val)))
    ∧ fs w' = fs w ∧ np_rng w' = np_rng w
    ∧ Dataset_len dataset_train = size ft
    ∧ keys dataset_train ≡ₚ h5_keys ft
    ∧ Dataset_len dataset_val = size fv
    ∧ keys dataset_val = h5_keys fv
    ∧ train dataset_train = true ∧ train dataset_val = false
    ∧ gray_mode dataset_train = args_gray args
    ∧ gray_mode dataset_val = args_gray args.
Proof.
  intros Hft Hfv.
  destruct (Dataset_init_spec (args_traindbf args) true (args_gray args)
              true w ft Hft) as (w1 & dt & Hinit1 & Hfs1 & _ & Hkeys1 & _).
  rewrite <-Hfs1 in Hfv.
  destruct (Dataset_init_spec (args_valdbf args) false (args_gray args)
              false w1 fv Hfv) as (w2 & dv & Hinit2 & _ & _ & _ & Hplain).
  destruct (Hplain eq_refl) as [-> Hkeys2].
  exists w1, dt, dv. split.
  { unfold load_dataset_and_dataloader.
    unfold io_bind at 1. rewrite Hinit1. unfold io_bind at 1. rewrite Hinit2.
    unfold io_bind, io_lift, io_ret.
    destruct (DataLoader dt 2 (args_batch_size args) true) as [lt|]; [|done].
    cbn [mbind result_bind].
    by destruct (DataLoader dv 2 (args_val_batch_size args) false). }
  pose proof (Dataset_init_frame _ _ _ _ _ _ _ Hinit1) as (_ & Hnp & _).
  pose proof (Dataset_init_fields _ _ _ _ _ _ _ Hinit1) as (? & ? & _).
  pose proof (Dataset_init_fields _ _ _ _ _ _ _ Hinit2) as (? & ? & _).
  unfold Dataset_len. repeat split; try done.
  - by rewrite Hkeys1, h5_keys_length.
  - by rewrite Hkeys2, h5_keys_length.
Qed.
End load_dataset_and_dataloader_facts.

(** ** [resume_training] *)

Section resume_training_facts.
Variables (Model Optimizer StateDict OptimizerState : Type).
Variable model_load_state_dict : Model → StateDict → result Model.
Variable optimizer_load_state_dict :
  Optimizer → OptimizerState → result Optimizer.
Variable files : gmap string (Checkpoint StateDict OptimizerState).

Abbreviation resume :=
  (resume_training model_load_state_dict optimizer_load_state_dict files).
Abbreviation resumef args :=
  (os_path_join (args_experiment_name args) "ckpt.pth").

(** X21: whenever resume_training returns, the args it returns have
    resume_training = False and the number of epochs of the args it was
    called with.  Without the flag they are the caller's args, and model
    and optimizer are untouched; with the flag everything else in them
    comes from the checkpoint, model and optimizer have been loaded from
    it, and start_epoch is the entry of that name in the saved training
    parameters. *)
Theorem resume_training_returned_args (args args' : Namespace)
    (model model' : Model) (optimizer optimizer' : Optimizer)
    (training_params val_params : gmap string py_value)
    (start_epoch : py_value) :
  resume args model optimizer
  = ((model', optimizer'),
     Returned (training_params, val_params, start_epoch, args')) →
  args_resume_training args' = false
  ∧ args_epochs args' = args_epochs args
  ∧ (args_resume_training args = false →
     args' = args ∧ model' = model ∧ optimizer' = optimizer)
  ∧ (args_resume_training args = true →
     ∃ checkpoint,
       files !! resumef args = Some checkpoint
       ∧ model_load_state_dict model (ckpt_state_dict checkpoint) = Ok model'
       ∧ optimizer_load_state_dict optimizer (ckpt_optimizer checkpoint)
         = Ok optimizer'
       ∧ training_params = ckpt_training_params checkpoint
       ∧ val_params = ckpt_val_params checkpoint
       ∧ training_params !! "start_epoch" = Some start_epoch
       ∧ args' = set_resume_training
                   (set_epochs (ckpt_args checkpoint) (args_epochs args))
                   false).
Proof.
  unfold resume_training.
  destruct (args_resume_training args) eqn:Hflag.
  - destruct (files !! _) as [checkpoint|] eqn:Hfile; [|done].
    destruct (model_load_state_dict _ _) as [m|] eqn:Hm; [|done].
    destruct (optimizer_load_state_dict _ _) as [o|] eqn:Ho; [|done].
    destruct (ckpt_training_params checkpoint !! "start_epoch")
      as [se|] eqn:Hse; [|done].
    intros [= <- <- <- <- <- <-].
    split; [done|]. split; [done|]. split; [done|].
    intros _. by exists checkpoint.
  - intros [= <- <- <- <- <- <-]. split; [done|]. split; [done|].
    split; [done|]. done.
Qed.

(** X22: with the resume flag set and no file ckpt.pth in the experiment
    directory, resume_training raises an Exception whose message names
    the path; model and optimizer are left as they were and no default
    parameters are produced. *)
Theorem resume_training_missing_checkpoint (args : Namespace)
    (model : Model) (optimizer : Optimizer) :
  args_resume_training args = true →
  files !! resumef args = None →
  resume args model optimizer
  = ((model, optimizer),
     Raised (Exception ("Couldn't resume training with checkpoint "
                        +:+ resumef args))).
Proof. intros Hflag Hfile. unfold resume_training. by rewrite Hflag, Hfile. Qed.

(** X23: the training parameters that resume_training returns for a fresh
    start have no entry start_epoch.  A checkpoint that holds them as they
    are cannot be resumed: the call raises KeyError for start_epoch, and
    it does so after model and optimizer have been replaced by the saved
    states. *)
Theorem resume_training_fresh_params_not_resumable
    (args0 args args' : Namespace) (model0 model model' : Model)
    (optimizer0 optimizer optimizer' : Optimizer)
    (training_params val_params : gmap string py_value)
    (start_epoch : py_value)
    (checkpoint : Checkpoint StateDict OptimizerState) :
  args_resume_training args0 = false →
  resume args0 model0 optimizer0
  = ((model0, optimizer0),
     Returned (training_params, val_params, start_epoch, args')) →
  args_resume_training args = true →
  files !! resumef args = Some checkpoint →
  ckpt_training_params checkpoint = training_params →
  model_load_state_dict model (ckpt_state_dict checkpoint) = Ok model' →
  optimizer_load_state_dict optimizer (ckpt_optimizer checkpoint)
    = Ok optimizer' →
  resume args model optimizer
  = ((model', optimizer'), Raised (Builtin (KeyError "start_epoch"))).
Proof.
  intros Hflag0 Hfresh Hflag Hfile Hparams Hm Ho.
  unfold resume_training in *. rewrite Hflag0 in Hfresh.
  rewrite Hflag, Hfile, Hm, Ho, Hparams.
  injection Hfresh as <- _ _ _. done.
Qed.
End resume_training_facts.

(** ** [create_input_variables] *)

Lemma torch_clamp_0_1_range (x : float) :
  (torch_clamp_0_1 x <? 0)%float = false
  ∧ (1 <? torch_clamp_0_1 x)%float = false.
Proof.
  unfold torch_clamp_0_1.
  destruct (x <? 0)%float eqn:H0; [by vm_compute|].
  destruct (1 <? x)%float eqn:H1; [by vm_compute|]. done.
Qed.

Lemma np_setitem_shape {A} `{Inhabited A} (a a' v : ndarray A) (i : nat) :
  np_setitem a i v = Ok a' → shape a' = shape a.
Proof.
  unfold np_setitem. destruct (shape a) as [|n slot] eqn:Hs; [done|].
  destruct (i <? n); [|done].
  destruct (np_broadcast_to v slot); [|done]. by intros [= <-].
Qed.

Section create_input_variables_facts.
Variable wiener : ndarray float → nat * nat → result (ndarray float).
Variable denoise_wavelet :
  ndarray float → bool → bool → string → result (ndarray float).
Variable estimate_sigma : ndarray float → result float.
Variable np_sum : ndarray float → float.
Variable uninitialized : nat → float.
Variable Estimator_dict_keys : list string.
Variable to_float32 : float → float.
Variable sub32 add32 : float → float → float.
Variable np_random_uniform : float → float → nat → list float.
Variable normal_ : list nat → float → nat → result (ndarray float).

Abbreviation create :=
  (create_input_variables wiener denoise_wavelet estimate_sigma np_sum
     uninitialized Estimator_dict_keys to_float32 sub32 add32
     np_random_uniform normal_).

(** X24: in the wiener and the wavelet mode, when create_input_variables
    returns, the noisy images are the batch itself and the noise is the
    difference noisy - denoised clamped to [0, 1] element by element, of
    the shape of the batch: no element of it compares below 0 or above 1
    (which holds of a NaN as well). *)
Theorem create_input_variables_filter_noise (args : Namespace)
    (batch img imgn stdn noise : ndarray float) :
  args_filter args = "wiener" ∨ args_filter args = "wavelet" →
  create args batch = Ok (img, imgn, stdn, noise) →
  imgn = batch
  ∧ shape noise = shape batch
  ∧ data noise = torch_clamp_0_1 <$> zip_with sub32 (data batch) (data img)
  ∧ Forall (λ x, (x <? 0)%float = false ∧ (1 <? x)%float = false)
      (data noise).
Proof.
  intros Hfilter. unfold create_input_variables.
  assert (∀ estimate : ndarray float * ndarray float,
            filter_mode_variables to_float32 sub32 batch estimate
            = (img, imgn, stdn, noise) →
            imgn = batch ∧ shape noise = shape batch
            ∧ data noise
              = torch_clamp_0_1 <$> zip_with sub32 (data batch) (data img)
            ∧ Forall (λ x, (x <? 0)%float = false ∧ (1 <? x)%float = false)
                (data noise)) as Hmode.
  { intros [fi ns]. unfold filter_mode_variables, clamped_difference.
    intros [= <- <- <- <-]. cbn [shape data]. repeat split; try done.
    apply Forall_fmap, Forall_forall. intros x _. apply torch_clamp_0_1_range. }
  destruct Hfilter as [Hf|Hf]; rewrite Hf.
  - rewrite bool_decide_eq_true_2 by done.
    destruct (estimate_noise _ _ _ _ _ _ _ _ _ _ _) as [estimate|]; [|done].
    cbn [mbind result_bind]. intros [= Heq]. by apply (Hmode estimate).
  - rewrite bool_decide_eq_false_2 by done.
    rewrite bool_decide_eq_true_2 by done.
    destruct (estimate_noise _ _ _ _ _ _ _ _ _ _ _) as [estimate|]; [|done].
    cbn [mbind result_bind]. intros [= Heq]. by apply (Hmode estimate).
Qed.

(** In the wavelet mode a wavelet method outside the two recognised
    variants is refused by estimate_noise, whatever the batch. *)
Lemma create_input_variables_wavelet_method (args : Namespace)
    (batch : ndarray float) :
  args_filter args = "wavelet" →
  args_wavelet_method args ∉ wavelet_options →
  create args batch = Raise (AssertionError unknown_wavelet_message).
Proof.
  intros Hf Hm. unfold create_input_variables, estimate_noise. rewrite Hf.
  rewrite bool_decide_eq_false_2 by done.
  rewrite bool_decide_eq_true_2 by done.
  rewrite bool_decide_eq_true_2 by done.
  by rewrite (bool_decide_eq_false_2 _ Hm).
Qed.

Lemma synthetic_noise_loop (stdn : list float) (n : nat) (slot : list nat)
    (l : list nat) :
  ∀ (noise noise' : ndarray float),
  foldM (synthetic_noise_body normal_ stdn) noise l = Ok noise' →
  shape noise = n :: slot → length (data noise) = n * size_of slot →
  NoDup l →
  shape noise' = n :: slot ∧ length (data noise') = n * size_of slot
  ∧ (∀ j, j ∉ l → sub_array noise' j = sub_array noise j)
  ∧ (∀ j, j ∈ l →
       ∃ std draw, stdn !! j = Some std
                 ∧ normal_ slot std j = Ok draw
                 ∧ np_broadcast_to draw slot = Ok (sub_array noise' j)).
Proof.
  induction l as [|i l IH]; intros noise noise' Hrun Hs Hl Hnd.
  - injection Hrun as <-. split; [done|]. split; [done|]. split; [done|].
    intros j Hj. by apply not_elem_of_nil in Hj.
  - cbn [foldM] in Hrun.
    destruct (synthetic_noise_body normal_ stdn noise i) as [noise1|] eqn:Hbody;
      [|done].
    cbn [mbind result_bind] in Hrun.
    unfold synthetic_noise_body in Hbody. rewrite Hs in Hbody.
    assert (∃ std draw, stdn !! i = Some std ∧ normal_ slot std i = Ok draw
                      ∧ np_setitem noise i draw = Ok noise1)
      as (std & draw & Hstd & Hdraw & Hset).
    { destruct slot as [|c [|w [|h rest]]]; try done.
      cbn [mbind result_bind] in Hbody.
      destruct (stdn !! i) as [std|]; [|done].
      cbn [mbind result_bind] in Hbody.
      destruct (normal_ _ std i) as [draw|] eqn:Hdraw; [|done].
      by exists std, draw. }
    destruct (np_setitem_spec _ _ _ _ n slot Hset Hs Hl)
      as (b & Hb & Hi & Hs1 & Hl1 & Hsub1 & Hother1).
    apply NoDup_cons in Hnd as [Hil Hnd].
    destruct (IH noise1 noise' Hrun Hs1 Hl1 Hnd) as (Hs' & Hl' & Hout & Hin).
    split; [done|]. split; [done|]. split.
    + intros j [Hji Hjl]%not_elem_of_cons. by rewrite Hout, Hother1.
    + intros j [->|Hjl]%elem_of_cons; [|by apply Hin].
      exists std, draw. split; [done|]. split; [done|].
      by rewrite Hout, Hsub1.
Qed.

Lemma create_input_variables_synthetic_no_filter (args : Namespace)
    (batch : ndarray float)
    (wiener' : ndarray float → nat * nat → result (ndarray float))
    (denoise_wavelet' :
       ndarray float → bool → bool → string → result (ndarray float))
    (estimate_sigma' : ndarray float → result float)
    (np_sum' : ndarray float → float) :
  args_filter args ≠ "wiener" → args_filter args ≠ "wavelet" →
  create args batch
  = create_input_variables wiener' denoise_wavelet' estimate_sigma' np_sum'
      uninitialized Estimator_dict_keys to_float32 sub32 add32
      np_random_uniform normal_ args batch.
Proof.
  intros Hw Hv. unfold create_input_variables.
  by rewrite !bool_decide_eq_false_2 by done.
Qed.
(** X25: every value of args.filter other than 'wiener' and 'wavelet'
    selects the synthetic mode.  When the call returns on a batch of n
    images, the clean images are the batch itself, the noisy images are
    batch + noise element by element with no clamping, the sigmas are the
    n uniform draws between noiseIntL[0] and noiseIntL[1], and the noise
    of sample nx is the nx-th normal draw, made with the nx-th sigma.
    Neither filter nor the sigma estimator is called: the result is the
    same whatever they are. *)
Theorem create_input_variables_synthetic (args : Namespace)
    (batch img imgn stdn noise : ndarray float) (n : nat) (slot : list nat) :
  args_filter args ≠ "wiener" → args_filter args ≠ "wavelet" →
  shape batch = n :: slot →
  create args batch = Ok (img, imgn, stdn, noise) →
  (∃ low high,
    py_list_get (args_noiseIntL args) 0 = Ok low
    ∧ py_list_get (args_noiseIntL args) 1 = Ok high
    ∧ img = batch
    ∧ imgn = NDArray (shape batch) (zip_with add32 (data batch) (data noise))
    ∧ data stdn = to_float32 <$> np_random_uniform low high n
    ∧ shape noise = shape batch
    ∧ ∀ nx, nx < n →
        ∃ std draw,
          np_random_uniform low high n !! nx = Some std
          ∧ normal_ slot std nx = Ok draw
          ∧ np_broadcast_to draw slot = Ok (sub_array noise nx))
  ∧ ∀ wiener' denoise_wavelet' estimate_sigma' np_sum',
      create_input_variables wiener' denoise_wavelet' estimate_sigma' np_sum'
        uninitialized Estimator_dict_keys to_float32 sub32 add32
        np_random_uniform normal_ args batch
      = Ok (img, imgn, stdn, noise).
Proof.
  intros Hw Hv Hs Hrun. split.
  2:{ intros. by rewrite <-Hrun, <-create_input_variables_synthetic_no_filter. }
  revert Hrun. unfold create_input_variables.
  rewrite !bool_decide_eq_false_2 by done.
  destruct (py_list_get _ 0) as [low|]; [|done].
  cbn [mbind result_bind].
  destruct (py_list_get _ 1) as [high|]; [|done].
  cbn [mbind result_bind]. unfold np_zeros. cbn [shape]. rewrite Hs.
  cbn [mbind result_bind].
  destruct (foldM (synthetic_noise_body _ _) _ _) as [noise1|] eqn:Hloop;
    [|done].
  cbn [mbind result_bind]. intros [= <- <- <- <-].
  destruct (synthetic_noise_loop (np_random_uniform low high n) n slot
              (seq 0 n) _ _ Hloop) as (Hs' & _ & _ & Hin).
  { done. }
  { simpl. by rewrite length_replicate. }
  { apply NoDup_seq. }
  exists low, high. repeat split; try done.
  intros nx Hnx. apply Hin. apply elem_of_seq. lia.
Qed.

End create_input_variables_facts.

(** ** More on [estimate_noise] *)

Lemma foldM_ext {A B} (f g : A → B → result A) (a : A) (l : list B) :
  (∀ a b, f a b = g a b) → foldM f a l = foldM g a l.
Proof.
  intros Hfg. revert a. induction l as [|b l IH]; intros a; [done|].
  cbn [foldM]. rewrite Hfg. destruct (g a b); [apply IH|done].
Qed.

Lemma foldM_app {A B} (f : A → B → result A) (a : A) (l1 l2 : list B) :
  foldM f a (l1 ++ l2) = (a' ← foldM f a l1; foldM f a' l2).
Proof.
  revert a. induction l1 as [|b l1 IH]; intros a; [done|].
  cbn [foldM app]. destruct (f a b); [apply IH|done].
Qed.

(** An array is determined by its sub-arrays along the first axis. *)
Lemma sub_array_ext {A} (a a' : ndarray A) (n : nat) (slot : list nat) :
  shape a = n :: slot → shape a' = n :: slot →
  length (data a) = n * size_of slot → length (data a') = n * size_of slot →
  (∀ j, j < n → sub_array a j = sub_array a' j) → a = a'.
Proof.
  intros Hs Hs' Hl Hl' Hsub. destruct a as [s d], a' as [s' d'].
  simpl in *. subst s s'. f_equal. apply list_eq. intros k.
  set (m := size_of slot) in *.
  destruct (decide (k < n * m)) as [Hk|Hk];
    [|by rewrite !lookup_ge_None_2 by lia].
  assert (0 < m) as Hm by (destruct m; lia).
  assert (k `div` m < n) as Hj by (apply Nat.Div0.div_lt_upper_bound; lia).
  pose proof (Nat.div_mod_eq k m) as Hdm.
  pose proof (Nat.mod_upper_bound k m ltac:(lia)) as Hmod.
  specialize (Hsub (k `div` m) Hj). unfold sub_array in Hsub.
  injection Hsub as Hsub. fold m in Hsub.
  apply (f_equal (λ l, l !! (k `mod` m))) in Hsub.
  rewrite !lookup_take_lt, !lookup_drop in Hsub by done.
  replace (k `div` m * m + k `mod` m) with k in Hsub by lia. done.
Qed.

Section estimate_noise_more_facts.
Variable wiener : ndarray float → nat * nat → result (ndarray float).
Variable denoise_wavelet :
  ndarray float → bool → bool → string → result (ndarray float).
Variable estimate_sigma : ndarray float → result float.
Variable np_sum : ndarray float → float.
Variable Estimator_dict_keys : list string.
Variables (image_list : py_images) (method : Estimator)
  (wiener_kernel_size : nat * nat) (convert2ycbcr : bool)
  (wavelet_method : string).

Abbreviation loop_body mc :=
  (estimate_noise_body wiener denoise_wavelet estimate_sigma np_sum
     image_list method wiener_kernel_size mc convert2ycbcr
     wavelet_method).
Abbreviation sample mc :=
  (sample_estimate wiener denoise_wavelet estimate_sigma np_sum
     image_list method wiener_kernel_size mc convert2ycbcr
     wavelet_method).
Abbreviation estimate u :=
  (estimate_noise wiener denoise_wavelet estimate_sigma np_sum u
     Estimator_dict_keys image_list (MethodEstimator method)
     wiener_kernel_size convert2ycbcr wavelet_method).

Lemma estimate_noise_loop_shape (mc : bool) (n : nat) (slot : list nat)
    (l : list nat) :
  ∀ (fi ns fi' ns' : ndarray float),
  foldM (loop_body mc) (fi, ns) l = Ok (fi', ns') →
  shape fi = n :: slot → length (data fi) = n * size_of slot →
  shape fi' = n :: slot ∧ length (data fi') = n * size_of slot.
Proof.
  induction l as [|i l IH]; intros fi ns fi' ns' Hrun Hfs Hfl.
  - by injection Hrun as <- <-.
  - cbn [foldM] in Hrun.
    destruct (loop_body mc (fi, ns) i) as [[fi1 ns1]|] eqn:Hbody; [|done].
    cbn [mbind result_bind] in Hrun.
    apply estimate_noise_body_spec in Hbody as (v & sig & Hv & Hset1 & Hset2).
    destruct (np_setitem_spec _ _ _ _ n slot Hset1 Hfs Hfl)
      as (b & Hb & Hi & Hfs1 & Hfl1 & _).
    by apply (IH fi1 ns1 fi' ns').
Qed.

Lemma estimate_noise_body_raise (mc : bool) (st : ndarray float * ndarray float)
    (i : nat) (e : exn) :
  sample mc i = Raise e → loop_body mc st i = Raise e.
Proof.
  unfold sample_estimate, estimate_noise_body. destruct st as [fi ns].
  destruct (get_image image_list i) as [x|]; cbn [mbind result_bind];
    [|by intros [= ->]].
  destruct (apply_filter _ _ _ _ _ _ _ _) as [filt|];
    cbn [mbind result_bind]; [|by intros [= ->]].
  destruct (if negb _ then _ else _) as [sig|]; cbn [mbind result_bind];
    [done|by intros [= ->]].
Qed.

(** X27: when estimate_noise returns on a batch of dimensions
    (n, c, w, h), the two results have the shapes (n, c, w, h) and (n,)
    with as many elements, and nothing of the uninitialized memory that
    np.ndarray allocated is left in them: with any other initial contents
    the call returns the same two arrays. *)
Theorem estimate_noise_overwrites_memory (u1 u2 : nat → float)
    (fi ns : ndarray float) (n c w h : nat) :
  estimate u1 = Ok (fi, ns) →
  batch_dims image_list = Ok (n, c, w, h) →
  shape fi = [n; c; w; h] ∧ well_formed fi
  ∧ shape ns = [n] ∧ well_formed ns
  ∧ estimate u2 = Ok (fi, ns).
Proof.
  intros Hrun Hdims. unfold estimate_noise in *.
  destruct (_ && _); [done|]. rewrite Hdims in *.
  cbn [mbind result_bind] in *.
  set (mc := 1 <? h) in *.
  assert (∀ (u : nat → float) s, length (data (np_ndarray u s)) = size_of s)
    as Hnd.
  { intros u s. unfold np_ndarray. simpl. by rewrite length_fmap, length_seq. }
  destruct (estimate_noise_loop wiener denoise_wavelet estimate_sigma np_sum
              image_list method wiener_kernel_size mc convert2ycbcr
              wavelet_method n [c; w; h] (seq 0 n) _ _ _ _ Hrun)
    as ((Hns & Hnl) & _ & Hin); [done|apply Hnd|done| |apply NoDup_seq|].
  { rewrite Hnd. simpl. lia. }
  destruct (estimate_noise_loop_shape mc n [c; w; h] (seq 0 n) _ _ _ _ Hrun)
    as [Hfs Hfl]; [done|apply Hnd|].
  split; [done|]. split; [unfold well_formed; by rewrite Hfl, Hfs|].
  split; [done|]. split; [unfold well_formed; rewrite Hnl, Hns; simpl; lia|].
  destruct (estimate_noise_loop_ok wiener denoise_wavelet estimate_sigma
              np_sum image_list method wiener_kernel_size mc convert2ycbcr
              wavelet_method n [c; w; h] (seq 0 n)
              (np_ndarray u2 [n; c; w; h]) (np_ndarray u2 [n]))
    as [[fi2 ns2] Hrun2]; [done..| |].
  { apply Forall_forall. intros i Hi. split; [apply elem_of_seq in Hi; lia|].
    destruct (Hin i Hi) as (v & sig & b & ? & ? & _). by exists v, sig, b. }
  rewrite Hrun2.
  destruct (estimate_noise_loop wiener denoise_wavelet estimate_sigma np_sum
              image_list method wiener_kernel_size mc convert2ycbcr
              wavelet_method n [c; w; h] (seq 0 n) _ _ _ _ Hrun2)
    as ((Hns2 & Hnl2) & _ & Hin2); [done|apply Hnd|done| |apply NoDup_seq|].
  { rewrite Hnd. simpl. lia. }
  destruct (estimate_noise_loop_shape mc n [c; w; h] (seq 0 n) _ _ _ _ Hrun2)
    as [Hfs2 Hfl2]; [done|apply Hnd|].
  assert (∀ j, j < n → sub_array fi2 j = sub_array fi j
                     ∧ sub_array ns2 j = sub_array ns j) as Hsame.
  { intros j Hj.
    destruct (Hin j) as (v & sig & b & Hv & Hb & -> & ->);
      [apply elem_of_seq; lia|].
    destruct (Hin2 j) as (v2 & sig2 & b2 & Hv2 & Hb2 & -> & ->);
      [apply elem_of_seq; lia|].
    rewrite Hv in Hv2. injection Hv2 as <- <-.
    rewrite Hb in Hb2. by injection Hb2 as <-. }
  do 2 f_equal.
  - apply (sub_array_ext _ _ n [c; w; h]); try done. intros j Hj.
    by destruct (Hsame j Hj).
  - apply (sub_array_ext _ _ n []); try done.
    + simpl. lia.
    + simpl. lia.
    + intros j Hj. by destruct (Hsame j Hj).
Qed.

(** X28: when the filter, the estimator or the access to the image fails
    on sample i with an exception, and the samples before it pass,
    estimate_noise raises that exception: no partial result is
    returned. *)
Theorem estimate_noise_first_failure (u : nat → float) (n c w h i : nat)
    (e : exn) :
  ¬ (method = WAVELET ∧ wavelet_method ∉ wavelet_options) →
  batch_dims image_list = Ok (n, c, w, h) →
  i < n →
  (∀ j, j < i → ∃ v sig b, sample (1 <? h) j = Ok (v, sig)
                         ∧ np_broadcast_to v [c; w; h] = Ok b) →
  sample (1 <? h) i = Raise e →
  estimate u = Raise e.
Proof.
  intros Hcfg Hdims Hi Hbefore Hfail. unfold estimate_noise.
  destruct (bool_decide (method = WAVELET)
            && negb (bool_decide (wavelet_method ∈ wavelet_options))) eqn:Hc.
  { apply andb_prop in Hc as [Hm%bool_decide_eq_true Hw%negb_true_iff].
    apply bool_decide_eq_false in Hw. by destruct Hcfg. }
  rewrite Hdims. cbn [mbind result_bind].
  replace n with (i + S (n - S i)) at 3 by lia.
  rewrite seq_app, foldM_app. cbn [seq foldM]. 
  destruct (estimate_noise_loop_ok wiener denoise_wavelet estimate_sigma
              np_sum image_list method wiener_kernel_size (1 <? h)
              convert2ycbcr wavelet_method n [c; w; h] (seq 0 i)
              (np_ndarray u [n; c; w; h]) (np_ndarray u [n]))
    as [st Hrun]; [done..| |].
  { apply Forall_forall. intros j Hj%elem_of_seq. split; [lia|].
    apply Hbefore. lia. }
  rewrite Hrun. cbn [mbind result_bind].
  by rewrite (estimate_noise_body_raise _ _ _ e).
Qed.
End estimate_noise_more_facts.

Section estimate_noise_config_facts.
Variable wiener : ndarray float → nat * nat → result (ndarray float).
Variable denoise_wavelet :
  ndarray float → bool → bool → string → result (ndarray float).
Variable estimate_sigma : ndarray float → result float.
Variable np_sum : ndarray float → float.
Variable uninitialized : nat → float.
Variable Estimator_dict_keys : list string.

Abbreviation estimate :=
  (estimate_noise wiener denoise_wavelet estimate_sigma np_sum uninitialized
     Estimator_dict_keys).

(** X29: with the Wiener estimator the arguments convert2ycbcr and
    wavelet_method are neither checked nor used: the call gives the same
    result (or exception) for all their values, also for a wavelet_method
    that the wavelet estimator would reject. *)
Theorem estimate_noise_wiener_ignores_wavelet_arguments
    (image_list : py_images) (wiener_kernel_size : nat * nat)
    (convert1 convert2 : bool) (wavelet_method1 wavelet_method2 : string) :
  estimate image_list (MethodEstimator WIENER) wiener_kernel_size convert1
    wavelet_method1
  = estimate image_list (MethodEstimator WIENER) wiener_kernel_size convert2
      wavelet_method2.
Proof.
  unfold estimate_noise. cbn [bool_decide decide_rel andb].
  rewrite !bool_decide_eq_false_2 by done. cbn [andb].
  destruct (batch_dims image_list) as [[[[n c] w] h]|]; [|done].
  cbn [mbind result_bind]. apply foldM_ext. by intros [fi ns] i.
Qed.

(** X30: with a valid configuration, an empty Python list raises
    IndexError (image_list[0]), while a tensor or array batch without
    images, of shape (0, c, w, h), returns two empty arrays of shapes
    (0, c, w, h) and (0,). *)
Theorem estimate_noise_empty_batch (method : Estimator)
    (wiener_kernel_size : nat * nat) (convert2ycbcr : bool)
    (wavelet_method : string) :
  ¬ (method = WAVELET ∧ wavelet_method ∉ wavelet_options) →
  estimate (ImagesList []) (MethodEstimator method) wiener_kernel_size
    convert2ycbcr wavelet_method = Raise IndexError
  ∧ ∀ (a : ndarray float) (c w h : nat),
      shape a = [0; c; w; h] →
      estimate (ImagesArray a) (MethodEstimator method) wiener_kernel_size
        convert2ycbcr wavelet_method
      = Ok (NDArray [0; c; w; h] [], NDArray [0] []).
Proof.
  intros Hcfg. unfold estimate_noise.
  destruct (bool_decide (method = WAVELET)
            && negb (bool_decide (wavelet_method ∈ wavelet_options))) eqn:Hc.
  { apply andb_prop in Hc as [Hm%bool_decide_eq_true Hw%negb_true_iff].
    apply bool_decide_eq_false in Hw. by destruct Hcfg. }
  split; [done|]. intros a c w h Hs. unfold batch_dims. by rewrite Hs.
Qed.
End estimate_noise_config_facts.

(** * The further properties on the concrete inputs *)


Lemma img_to_patches_rejects_witness :
  ∃ msg, img_to_patches 0%Z Demo.img 2 0 = Raise (ValueError msg).
Proof.
  apply (img_to_patches_rejects 0%Z Demo.img 1 3 3 2 0);
    [reflexivity|left; reflexivity].
Defined.

Lemma img_to_patches_window_one_too_tall_witness :
  img_to_patches 0%Z Demo.img 4 1 = Ok (NDArray [1; 4; 4; 0] []).
Proof.
  apply (img_to_patches_window_one_too_tall 0%Z Demo.img 1 3 3 1);
    [reflexivity|lia].
Defined.

Lemma load_train_image_pixels_witness :
  ∃ img, load_train_image Demo.cv2_imread Demo.normalize_px false
           "train/a.png" = Ok img
    ∧ shape img = [3; 1; 2]
    ∧ well_formed img
    ∧ ∀ ci y x, ci < 3 → y < 1 → x < 2 →
        data img !!! ((ci * 1 + y) * 2 + x)
        = Demo.normalize_px
            (data (NDArray [1; 2; 3] [30; 20; 10; 60; 50; 40]%Z)
               !!! ((y * 2 + x) * 3 + (2 - ci))).
Proof.
  apply (load_train_image_pixels Demo.cv2_imread Demo.normalize_px false
           "train/a.png" (NDArray [1; 2; 3] [30; 20; 10; 60; 50; 40]%Z) 1 2);
    reflexivity.
Defined.

Lemma load_val_image_pixels_witness :
  ∃ img, load_val_image Cases.cv2_imread Demo.bgr2gray Demo.normalize_px true
           "val/v.png" = Ok img
    ∧ shape img = [1; 1; 1]
    ∧ data img !!! 0 = Demo.normalize_px (Demo.bgr2gray 100 150 200).
Proof.
  destruct (load_val_image_pixels Cases.cv2_imread Demo.bgr2gray
              Demo.normalize_px true "val/v.png"
              (NDArray [1; 1; 3] [100; 150; 200]%Z) 1 1)
    as (img & Himg & Hshape & _ & _ & Hpix); [reflexivity..|].
  exists img. split; [done|]. split; [done|].
  apply (Hpix eq_refl 0 0); lia.
Defined.

Lemma prepare_data_empty_directory_witness :
  Cases.prepare "nowhere" None 5 false Demo.world0
  = Some (Demo.world0, Raise ZeroDivisionError).
Proof.
  apply (prepare_data_empty_directory Cases.glob Cases.cv2_imread
           Demo.bgr2gray Demo.normalize_px 0%float "nowhere" None 1 1
           "train.h5" "val.h5" 5 false Demo.world0).
  vm_compute; reflexivity.
Defined.

Lemma prepare_data_unreadable_first_file_witness :
  ∃ w', Cases.prepare "broken" None 5 true Demo.world0
        = Some (w', Raise TypeError)
      ∧ fs w' !! "dataset/train.h5" = Some ∅.
Proof.
  destruct (prepare_data_unreadable_first_file Cases.glob Cases.cv2_imread
              Demo.bgr2gray Demo.normalize_px 0%float "broken" None 1 1
              "train.h5" "val.h5" 5 true Demo.world0 "broken/x.png" [])
    as (w' & Hrun & Hstore & _).
  - vm_compute; reflexivity.
  - vm_compute; reflexivity.
  - exists w'. split; [exact Hrun|exact Hstore].
Defined.

Lemma prepare_data_existing_key_witness :
  ∃ w', Cases.prepare "train" None 5 false Cases.world_clash
        = Some (w', Raise (ValueError "name already exists"))
      ∧ fs w' = fs Cases.world_clash.
Proof.
  destruct (prepare_data_existing_key Cases.glob Cases.cv2_imread
              Demo.bgr2gray Demo.normalize_px 0%float "train" None 1 1
              "train.h5" "val.h5" 5 false Cases.world_clash "train/a.png"
              ["train/b.png"] Cases.patches_a (<["0" := Cases.entry]> ∅)
              Cases.entry)
    as (w' & Hrun & Hfs & _).
  - vm_compute; reflexivity.
  - vm_compute; reflexivity.
  - vm_compute; lia.
  - simpl; lia.
  - vm_compute; reflexivity.
  - vm_compute; reflexivity.
  - exists w'. split; [exact Hrun|exact Hfs].
Defined.

Lemma prepare_data_keeps_entries_witness :
  ∃ w' r f',
    Cases.prepare "train" None 5 false Cases.world_old = Some (w', r)
    ∧ fs w' !! "dataset/train.h5" = Some f'
    ∧ f' !! "old" = Some Cases.entry.
Proof.
  destruct (Cases.prepare "train" None 5 false Cases.world_old)
    as [[w' r]|] eqn:Hrun; [|vm_compute in Hrun; discriminate].
  destruct (prepare_data_keeps_entries Cases.glob Cases.cv2_imread
              Demo.bgr2gray Demo.normalize_px 0%float "train" None 1 1
              "train.h5" "val.h5" 5 false Cases.world_old w' r Hrun)
    as [_ Hkeep].
  destruct (Hkeep (or_introl eq_refl) (<["old" := Cases.entry]> ∅))
    as (f' & Hf' & Hold); [vm_compute; reflexivity|].
  exists w', r, f'. split; [reflexivity|]. split; [exact Hf'|].
  apply Hold. vm_compute; reflexivity.
Defined.

Lemma prepare_data_store_keys_witness :
  ∃ w1 w' t r' e h5f,
    Cases.build 5 false Demo.world0 = Some (w1, Ok (t, r'))
    ∧ Cases.prepare "train" None 5 false Demo.world0 = Some (w', Raise e)
    ∧ fs w' !! "dataset/train.h5" = Some h5f
    ∧ size h5f = t
    ∧ ∀ key, is_Some (h5f !! key) ↔ ∃ k, k < t ∧ key = pretty k.
Proof.
  apply (prepare_data_store_keys Cases.glob Cases.cv2_imread Demo.bgr2gray
           Demo.normalize_px 0%float "train" None 1 1 "train.h5" "val.h5"
           5 false Demo.world0).
  - vm_compute. discriminate.
  - repeat constructor; eexists; vm_compute; reflexivity.
  - vm_compute; reflexivity.
  - left; reflexivity.
Defined.

Lemma prepare_data_at_most_total_witness :
  ∃ w' e h5f,
    Cases.prepare "train" None 7 false Demo.world0 = Some (w', Raise e)
    ∧ fs w' !! "dataset/train.h5" = Some h5f
    ∧ (Z.of_nat (size h5f) ≤ 7)%Z.
Proof.
  destruct (prepare_data_at_most_total Cases.glob Cases.cv2_imread
              Demo.bgr2gray Demo.normalize_px 0%float "train" None 1 1
              "train.h5" "val.h5" 7 false Demo.world0)
    as (w' & e & h5f & Hrun & Hstore & Hle & _).
  - vm_compute. discriminate.
  - repeat constructor; eexists; vm_compute; reflexivity.
  - vm_compute; reflexivity.
  - left; reflexivity.
  - exists w', e, h5f. split; [exact Hrun|]. split; [exact Hstore|]. lia.
Defined.

Lemma prepare_data_fewer_patches_than_files_witness :
  ∃ w1 w' e,
    Cases.build 1 false Demo.world0 = Some (w1, Ok (0, 1%Z))
    ∧ Cases.prepare "train" None 1 false Demo.world0 = Some (w', Raise e)
    ∧ fs w' !! "dataset/train.h5" = Some ∅.
Proof.
  apply (prepare_data_fewer_patches_than_files Cases.glob Cases.cv2_imread
           Demo.bgr2gray Demo.normalize_px 0%float "train" None 1 1
           "train.h5" "val.h5" 1 false Demo.world0).
  - vm_compute. discriminate.
  - repeat constructor; eexists; vm_compute; reflexivity.
  - vm_compute; reflexivity.
  - left; reflexivity.
  - vm_compute; reflexivity.
Defined.

Lemma prepare_data_then_Dataset_witness :
  ∃ w1 w' w'' t r' e self,
    Cases.build 5 false Demo.world0 = Some (w1, Ok (t, r'))
    ∧ Cases.prepare "train" None 5 false Demo.world0 = Some (w', Raise e)
    ∧ Dataset_init "dataset/train.h5" true false true w'
      = Some (w'', Ok self)
    ∧ Dataset_len self = t
    ∧ ∀ i, i < t →
        ∃ k d, k < t ∧ keys self !! i = Some (pretty k)
             ∧ Dataset_getitem self (Z.of_nat i) w'' = Some (w'', Ok d).
Proof.
  apply (prepare_data_then_Dataset Cases.glob Cases.cv2_imread Demo.bgr2gray
           Demo.normalize_px 0%float "train" None 1 1 "train.h5" "val.h5"
           5 false Demo.world0 true false true).
  - vm_compute. discriminate.
  - repeat constructor; eexists; vm_compute; reflexivity.
  - vm_compute; reflexivity.
  - left; reflexivity.
Defined.

Lemma prepare_data_validation_store_witness :
  ∃ w1 w' h5f,
    Cases.build 5 true Demo.world0 = Some (w1, Ok (5, 0%Z))
    ∧ Cases.prepare "train" (Some "val") 5 true Demo.world0
      = Some (w', Raise (NameError "train_patches"))
    ∧ fs w' !! "dataset/val.h5" = Some h5f
    ∧ size h5f = 1
    ∧ h5f !! "0" = Some (Cases.val_image true).
Proof.
  assert (∃ w1, Cases.build 5 true Demo.world0 = Some (w1, Ok (5, 0%Z)))
    as [w1 Hbuild] by (eexists; vm_compute; reflexivity).
  destruct (prepare_data_validation_store Cases.glob Cases.cv2_imread
              Demo.bgr2gray Demo.normalize_px 0%float "train" (Some "val")
              1 1 "train.h5" "val.h5" 5 true Demo.world0 w1 (5, 0%Z) "val"
              [Cases.val_image true])
    as (w' & h5f & _ & Hrun & Hfs & Hsize & Hget & _).
  - reflexivity.
  - exact Hbuild.
  - repeat constructor.
  - exists w1, w', h5f. split; [exact Hbuild|].
    split; [exact Hrun|]. split; [rewrite Hfs; apply lookup_insert_eq|].
    split; [exact Hsize|]. apply (Hget 0). reflexivity.
Defined.

Lemma store_patches_no_remainder_witness :
  ∃ w' st' f',
    store_patches 3 "t.h5" Demo.patches 2 2 (StoreLocals 0 0 0 false)
      Demo.empty_store_world = Some (w', Ok st')
    ∧ reminder st' = 0%Z
    ∧ train_num st' = 2
    ∧ fs w' !! "t.h5" = Some f'
    ∧ f' !! "0" = Some (NDArray [1; 1; 1] [5%Z])
    ∧ f' !! "1" = Some (NDArray [1; 1; 1] [6%Z]).
Proof.
  destruct (store_patches_no_remainder "t.h5" Demo.patches 1 1 1 2 2 0 0
              Demo.empty_store_world ∅)
    as (w' & st' & f' & Hrun & Hr & Ht & Hf & Hk).
  - reflexivity.
  - vm_compute; reflexivity.
  - intros k _. apply lookup_empty.
  - lia.
  - exists w', st', f'. split; [exact Hrun|]. split; [exact Hr|].
    split; [exact Ht|]. split; [exact Hf|].
    split; [apply (Hk 0)|apply (Hk 1)]; vm_compute; lia.
Defined.

Lemma prepare_data_duplicate_entries_witness :
  ∃ w' e h5f d,
    Demo.prepare 5 = Some (w', Raise e)
    ∧ fs w' !! "dataset/train.h5" = Some h5f
    ∧ h5f !! "0" = Some d ∧ h5f !! "1" = Some d.
Proof.
  destruct (prepare_data_duplicate_entries Demo.glob Demo.cv2_imread
              Demo.bgr2gray Demo.normalize_px 0%float "train" None 1 1
              "train.h5" "val.h5" 5 false Demo.world0
              (scan_images Demo.glob "train") 2 2 1 "dataset/train.h5"
              (file_quota Demo.cv2_imread Demo.normalize_px 0%float false
                 1 1 2))
    as (w' & e & h5f & Hrun & Hstore & Hdup).
  - reflexivity.
  - vm_compute; reflexivity.
  - reflexivity.
  - reflexivity.
  - reflexivity.
  - reflexivity.
  - lia.
  - lia.
  - vm_compute; reflexivity.
  - by left.
  - repeat constructor; (eexists; split; [vm_compute; reflexivity|vm_compute; lia]).
  - destruct (Hdup 0) as (d & Hd0 & Hd1); [lia|].
    exists w', e, h5f, d. split; [exact Hrun|]. split; [exact Hstore|].
    split; [exact Hd0|exact Hd1].
Defined.

Lemma Dataset_init_indexes_every_entry_witness :
  ∃ w' self,
    Dataset_init "data.h5" true false true Demo.store_world
      = Some (w', Ok self)
    ∧ NoDup (keys self)
    ∧ (∀ key, key ∈ keys self ↔ is_Some (Demo.store !! key))
    ∧ fs w' = fs Demo.store_world.
Proof.
  assert (∃ w' self,
            Dataset_init "data.h5" true false true Demo.store_world
            = Some (w', Ok self)) as (w' & self & Hinit)
    by (eexists _, _; vm_compute; reflexivity).
  destruct (Dataset_init_indexes_every_entry "data.h5" true false true
              Demo.store_world w' self Demo.store)
    as (Hnodup & Hin & Hfs & _).
  - vm_compute; reflexivity.
  - exact Hinit.
  - exists w', self. split; [exact Hinit|]. split; [exact Hnodup|].
    split; [exact Hin|exact Hfs].
Defined.

Lemma Dataset_getitem_after_change_witness :
  ∃ w1 self i,
    Dataset_init "data.h5" true false false Demo.store_world
      = Some (w1, Ok self)
    ∧ i < 3
    ∧ Dataset_getitem self (Z.of_nat i) Cases.store_world_changed
      = Some (Cases.store_world_changed, Raise (KeyError "1")).
Proof.
  assert (∃ w1 self,
            Dataset_init "data.h5" true false false Demo.store_world
            = Some (w1, Ok self)) as (w1 & self & Hinit)
    by (eexists _, _; vm_compute; reflexivity).
  destruct (Dataset_getitem_after_change "data.h5" true false false
              Demo.store_world w1 Cases.store_world_changed self
              Demo.store (delete "1" Demo.store))
    as [_ Hdeleted].
  - vm_compute; reflexivity.
  - exact Hinit.
  - vm_compute; reflexivity.
  - destruct (Hdeleted "1") as (i & Hi & Hget).
    + vm_compute. by eexists.
    + vm_compute; reflexivity.
    + exists w1, self, i. split; [exact Hinit|]. split; [exact Hi|exact Hget].
Defined.

Lemma load_dataset_and_dataloader_missing_store_witness :
  ∃ w', load_dataset_and_dataloader (Dataset * Z * bool) Cases.DataLoader
          (Cases.args_no_val (Cases.args "wiener")) Demo.store_world
        = Some (w', Raise OSError)
      ∧ fs w' = fs Demo.store_world.
Proof.
  destruct (proj2 (load_dataset_and_dataloader_missing_store
                     (Dataset * Z * bool) Cases.DataLoader
                     (Cases.args_no_val (Cases.args "wiener"))
                     Demo.store_world))
    as (w' & Hrun & Hfs & _).
  - vm_compute. by eexists.
  - vm_compute; reflexivity.
  - exists w'. split; [exact Hrun|exact Hfs].
Defined.

Lemma load_dataset_and_dataloader_datasets_witness :
  ∃ w' dataset_train dataset_val,
    load_dataset_and_dataloader (Dataset * Z * bool) Cases.DataLoader
      (Cases.args "wiener") Demo.store_world
    = Some (w', Ok ((dataset_train, dataset_val),
                    ((dataset_train, 2%Z, true), (dataset_val, 1%Z, false))))
    ∧ Dataset_len dataset_train = 3
    ∧ keys dataset_train ≡ₚ ["0"; "1"; "2"]
    ∧ keys dataset_val = ["0"; "1"; "2"].
Proof.
  destruct (load_dataset_and_dataloader_datasets (Dataset * Z * bool)
              Cases.DataLoader (Cases.args "wiener") Demo.store_world
              Demo.store Demo.store)
    as (w' & dt & dv & Hrun & _ & _ & Hlen & Hperm & _ & Hkeys & _).
  - vm_compute; reflexivity.
  - vm_compute; reflexivity.
  - exists w', dt, dv. split; [exact Hrun|]. split; [exact Hlen|].
    split; [exact Hperm|exact Hkeys].
Defined.

Lemma resume_training_returned_args_witness :
  ∃ args',
    resume_training Cases.load_state Cases.load_state Cases.checkpoints
      (Cases.args "wiener") 1 2
    = ((7, 8),
       Returned (ckpt_training_params Cases.checkpoint,
                 ckpt_val_params Cases.checkpoint, PyInt 3, args'))
    ∧ args_resume_training args' = false
    ∧ args_epochs args' = 80%Z
    ∧ args_filter args' = "wavelet".
Proof.
  eexists. split; [vm_compute; reflexivity|].
  destruct (resume_training_returned_args nat nat nat nat Cases.load_state
              Cases.load_state Cases.checkpoints (Cases.args "wiener")
              (set_resume_training (set_epochs Cases.saved_args 80) false)
              1 7 2 8 (ckpt_training_params Cases.checkpoint)
              (ckpt_val_params Cases.checkpoint) (PyInt 3))
    as (Hflag & Hepochs & _); [vm_compute; reflexivity|].
  split; [exact Hflag|]. split; [exact Hepochs|reflexivity].
Defined.

Lemma resume_training_missing_checkpoint_witness :
  resume_training Cases.load_state Cases.load_state ∅ (Cases.args "wiener") 1 2
  = ((1, 2),
     Raised (Exception "Couldn't resume training with checkpoint exp/ckpt.pth")).
Proof.
  apply (resume_training_missing_checkpoint nat nat nat nat Cases.load_state
           Cases.load_state ∅ (Cases.args "wiener") 1 2); reflexivity.
Defined.

Lemma resume_training_fresh_params_not_resumable_witness :
  resume_training Cases.load_state Cases.load_state Cases.fresh_checkpoints
    (Cases.args "wiener") 1 2
  = ((7, 8), Raised (Builtin (KeyError "start_epoch"))).
Proof.
  apply (resume_training_fresh_params_not_resumable nat nat nat nat
           Cases.load_state Cases.load_state Cases.fresh_checkpoints
           (set_resume_training (Cases.args "wiener") false)
           (Cases.args "wiener")
           (set_resume_training (Cases.args "wiener") false)
           1 1 7 2 2 8 Cases.fresh_training_params
           (<["best_loss" := PyFloat infinity]> (<["step" := PyInt 0]> ∅))
           (PyInt 0) Cases.fresh_checkpoint);
    vm_compute; reflexivity.
Defined.

Lemma create_input_variables_filter_noise_witness :
  ∃ img stdn noise,
    Cases.create "wiener" Demo.batch = Ok (img, Demo.batch, stdn, noise)
    ∧ shape noise = [2; 1; 1; 2]
    ∧ Forall (λ x, (x <? 0)%float = false ∧ (1 <? x)%float = false)
        (data noise).
Proof.
  assert (∃ img stdn noise,
            Cases.create "wiener" Demo.batch = Ok (img, Demo.batch, stdn, noise))
    as (img & stdn & noise & Hrun)
    by (eexists _, _, _; vm_compute; reflexivity).
  destruct (create_input_variables_filter_noise Demo.wiener
              Demo.denoise_wavelet Demo.estimate_sigma Demo.np_sum
              Demo.uninitialized Demo.Estimator_dict_keys Cases.to_float32
              PrimFloat.sub PrimFloat.add Cases.np_random_uniform
              Cases.normal_ (Cases.args "wiener") Demo.batch img Demo.batch
              stdn noise)
    as (_ & Hshape & _ & Hrange).
  - left; reflexivity.
  - exact Hrun.
  - exists img, stdn, noise. split; [exact Hrun|]. split; [exact Hshape|].
    exact Hrange.
Defined.

Lemma create_input_variables_synthetic_witness :
  ∃ imgn stdn noise,
    Cases.create "awgn" Demo.batch = Ok (Demo.batch, imgn, stdn, noise)
    ∧ imgn = NDArray [2; 1; 1; 2]
               (zip_with PrimFloat.add (data Demo.batch) (data noise))
    ∧ data stdn = [0.25; 0.25]%float
    ∧ shape noise = [2; 1; 1; 2].
Proof.
  assert (∃ imgn stdn noise,
            Cases.create "awgn" Demo.batch = Ok (Demo.batch, imgn, stdn, noise))
    as (imgn & stdn & noise & Hrun)
    by (eexists _, _, _; vm_compute; reflexivity).
  destruct (create_input_variables_synthetic Demo.wiener
              Demo.denoise_wavelet Demo.estimate_sigma Demo.np_sum
              Demo.uninitialized Demo.Estimator_dict_keys Cases.to_float32
              PrimFloat.sub PrimFloat.add Cases.np_random_uniform
              Cases.normal_ (Cases.args "awgn") Demo.batch Demo.batch imgn
              stdn noise 2 [1; 1; 2])
    as [(low & high & Hlow & _ & _ & Himgn & Hstdn & Hshape & _) _].
  - vm_compute. discriminate.
  - vm_compute. discriminate.
  - reflexivity.
  - exact Hrun.
  - exists imgn, stdn, noise. split; [exact Hrun|]. split; [exact Himgn|].
    split; [|exact Hshape].
    rewrite Hstdn. injection Hlow as <-. reflexivity.
Defined.

Lemma estimate_noise_returns_witness :
  ∃ filtered_images noises,
    Demo.estimate (MethodEstimator WIENER) "BayesShrink"
    = Ok (filtered_images, noises).
Proof.
  apply (estimate_noise_returns Demo.wiener Demo.denoise_wavelet
           Demo.estimate_sigma Demo.np_sum Demo.uninitialized
           Demo.Estimator_dict_keys (ImagesArray Demo.batch) WIENER (5, 5)
           true false "BayesShrink" 2 1 1 2).
  - reflexivity.
  - intros [Hm _]. discriminate.
  - reflexivity.
  - intros i Hi. destruct i as [|[|i]]; [..|lia];
      eexists _, _, _; split; vm_compute; reflexivity.
Defined.

Lemma estimate_noise_overwrites_memory_witness :
  ∃ filtered_images noises,
    Demo.estimate (MethodEstimator WIENER) "BayesShrink"
      = Ok (filtered_images, noises)
    ∧ shape filtered_images = [2; 1; 1; 2]
    ∧ shape noises = [2]
    ∧ estimate_noise Demo.wiener Demo.denoise_wavelet Demo.estimate_sigma
        Demo.np_sum (λ _, 0%float) Demo.Estimator_dict_keys
        (ImagesArray Demo.batch) (MethodEstimator WIENER) (5, 5) false
        "BayesShrink"
      = Ok (filtered_images, noises).
Proof.
  assert (∃ filtered_images noises,
            Demo.estimate (MethodEstimator WIENER) "BayesShrink"
            = Ok (filtered_images, noises)) as (fi & ns & Hrun)
    by (eexists _, _; vm_compute; reflexivity).
  destruct (estimate_noise_overwrites_memory Demo.wiener
              Demo.denoise_wavelet Demo.estimate_sigma Demo.np_sum
              Demo.Estimator_dict_keys (ImagesArray Demo.batch) WIENER (5, 5)
              false "BayesShrink" Demo.uninitialized (λ _, 0%float) fi ns
              2 1 1 2)
    as (Hfs & _ & Hns & _ & Hrun2).
  - exact Hrun.
  - reflexivity.
  - exists fi, ns. split; [exact Hrun|]. split; [exact Hfs|].
    split; [exact Hns|exact Hrun2].
Defined.

Lemma estimate_noise_first_failure_witness :
  estimate_noise Cases.wiener_failing Demo.denoise_wavelet
    Demo.estimate_sigma Demo.np_sum Demo.uninitialized
    Demo.Estimator_dict_keys (ImagesArray Demo.batch)
    (MethodEstimator WIENER) (5, 5) false "BayesShrink"
  = Raise LibraryError.
Proof.
  apply (estimate_noise_first_failure Cases.wiener_failing
           Demo.denoise_wavelet Demo.estimate_sigma Demo.np_sum
           Demo.Estimator_dict_keys (ImagesArray Demo.batch) WIENER (5, 5)
           false "BayesShrink" Demo.uninitialized 2 1 1 2 1 LibraryError).
  - intros [Hm _]. discriminate.
  - reflexivity.
  - lia.
  - intros j Hj. destruct j as [|j]; [|lia].
    eexists _, _, _; split; vm_compute; reflexivity.
  - vm_compute; reflexivity.
Defined.

Lemma estimate_noise_empty_batch_witness :
  estimate_noise Demo.wiener Demo.denoise_wavelet Demo.estimate_sigma
    Demo.np_sum Demo.uninitialized Demo.Estimator_dict_keys (ImagesList [])
    (MethodEstimator WAVELET) (5, 5) false "VisuShrink"
  = Raise IndexError.
Proof.
  apply (estimate_noise_empty_batch Demo.wiener Demo.denoise_wavelet
           Demo.estimate_sigma Demo.np_sum Demo.uninitialized
           Demo.Estimator_dict_keys WAVELET (5, 5) false "VisuShrink").
  intros [_ Hm]. apply Hm. apply (bool_decide_unpack _). vm_compute. exact I.
Defined.

